(** * InventorySys: the stock ledger, the derived status and the access policies

    A shallow embedding of the parts of the repository that carry its
    business rules:

    - [supabase/migrations/20260219054753_create_inventory_tables.sql]:
      the four tables, their constraints and referential actions, the
      generated [status] column, the [updated_at] triggers, the signup
      trigger and the row-level security policies;
    - [src/types/database.ts]: the row types the client sees;
    - [src/components/StockModal.tsx], [src/components/ProductModal.tsx],
      [src/pages/Products.tsx], [src/pages/Categories.tsx],
      [src/pages/Users.tsx], [src/pages/StockTransactions.tsx]: the
      handlers that issue requests against the store.

    A table is a list of rows and a statement acts on the rows its filter
    selects, as in SQL.  Every request is a function from the database
    to either an error (database unchanged) or a new database.  What the
    environment chooses (the caller, the transaction time, the value of
    [gen_random_uuid()]) is passed in explicitly. *)

From Stdlib Require Import ZArith List String Ascii Bool Lia Permutation.
Import ListNotations.
Open Scope string_scope.
Open Scope list_scope.
Open Scope Z_scope.

(* ===================================================================== *)
(** ** Values *)
(* ===================================================================== *)

(** [uuid] columns travel as text; [timestamptz] values are instants on a
    line. *)
Definition uuid := string.
Definition timestamptz := Z.

(** The result of a request: supabase-js returns [{ error }], and a
    failed statement leaves the database as it was. *)
Inductive result (E A : Type) : Type :=
| Ok (a : A)
| Error (e : E).
Arguments Ok {E A} a.
Arguments Error {E A} e.

(** A JavaScript number as far as this program uses one: an integer, or
    [NaN].  (Exact below 2^53.  Beyond that a double rounds, and a very
    long run of digits gives a number written with an exponent, or
    infinity, which is sent as [null]: all of them lie outside every
    column, the store refuses them and keeps its rows, though under
    another error than the one the model names.) *)
Inductive number : Type :=
| NaN
| Int (z : Z).

(** [a < b] on numbers: false as soon as one side is [NaN]. *)
Definition number_lt (a b : number) : bool :=
  match a, b with
  | Int x, Int y => x <? y
  | _, _ => false
  end.

Definition number_add (a b : number) : number :=
  match a, b with
  | Int x, Int y => Int (x + y)
  | _, _ => NaN
  end.

Definition number_sub (a b : number) : number :=
  match a, b with
  | Int x, Int y => Int (x - y)
  | _, _ => NaN
  end.

(** [JSON.stringify] writes [NaN] as [null]. *)
Definition to_json (n : number) : option Z :=
  match n with
  | NaN => None
  | Int z => Some z
  end.

(** *** [parseInt] with no radix argument

    Leading white space is dropped (the ASCII kinds; the text of a
    numeric input is ASCII), then an optional sign, then an optional
    [0x]/[0X] prefix (radix 16, otherwise 10); the longest run of digits
    of that radix is read and the rest of the string is ignored; no
    digit at all gives [NaN]. *)
Definition is_white_space (c : ascii) : bool :=
  let n := nat_of_ascii c in
  ((n =? 9) || (n =? 10) || (n =? 11) || (n =? 12) || (n =? 13) || (n =? 32))%nat.

Fixpoint trim_start (s : string) : string :=
  match s with
  | String c s' => if is_white_space c then trim_start s' else s
  | EmptyString => s
  end.

Definition digit_value (c : ascii) : option Z :=
  let n := Z.of_nat (nat_of_ascii c) in
  if (48 <=? n) && (n <=? 57) then Some (n - 48)
  else if (97 <=? n) && (n <=? 122) then Some (n - 87)
  else if (65 <=? n) && (n <=? 90) then Some (n - 55)
  else None.

Fixpoint parse_digits (R : Z) (s : string) (acc : option Z) : option Z :=
  match s with
  | String c s' =>
      match digit_value c with
      | Some d =>
          if d <? R
          then parse_digits R s' (Some (match acc with Some a => a | None => 0 end * R + d))
          else acc
      | None => acc
      end
  | EmptyString => acc
  end.

Definition parseInt (s : string) : number :=
  let S0 := trim_start s in
  let '(sign, S1) :=
    match S0 with
    | String "-" r => (-1, r)
    | String "+" r => (1, r)
    | _ => (1, S0)
    end in
  let '(R, S2) :=
    match S1 with
    | String "0" (String "x" r) => (16, r)
    | String "0" (String "X" r) => (16, r)
    | _ => (10, S1)
    end in
  match parse_digits R S2 None with
  | None => NaN
  | Some m => Int (sign * m)
  end.

(** *** Column types *)

(** [integer]: 32 bits, and a value outside the range is an error, not a
    wrap-around. *)
Definition int4_min : Z := -2147483648.
Definition int4_max : Z := 2147483647.
Definition in_int4 (z : Z) : bool := (int4_min <=? z) && (z <=? int4_max).

(** [decimal(10,2)], held in hundredths: ten digits in all. *)
Definition in_decimal_10_2 (hundredths : Z) : bool :=
  (-9999999999 <=? hundredths) && (hundredths <=? 9999999999).

(** What a JSON payload says about one column: nothing ([None]), [null]
    ([Some None]) or a value. *)
Definition field (A : Type) : Type := option (option A).

(** The value a column takes on insert: its default when the payload is
    silent; [None] stands for SQL [NULL]. *)
Definition on_insert {A : Type} (default : option A) (f : field A) : option A :=
  match f with
  | None => default
  | Some v => v
  end.

(** The value a column takes on update: the old one when the payload is
    silent. *)
Definition on_update {A : Type} (old : option A) (f : field A) : option A :=
  match f with
  | None => old
  | Some v => v
  end.

Definition field_ok {A : Type} (ok : A -> bool) (f : field A) : bool :=
  match f with
  | Some (Some v) => ok v
  | _ => true
  end.

Definition is_some {A : Type} (o : option A) : bool :=
  match o with
  | Some _ => true
  | None => false
  end.

Definition opt_eqb (a : option uuid) (b : uuid) : bool :=
  match a with
  | Some x => String.eqb x b
  | None => false
  end.

(* ===================================================================== *)
(** ** Rows ([src/types/database.ts] and the [CREATE TABLE] statements) *)
(* ===================================================================== *)

Inductive Role : Type := admin | staff.

Definition Role_eqb (a b : Role) : bool :=
  match a, b with
  | admin, admin | staff, staff => true
  | _, _ => false
  end.

Inductive Status : Type := out_of_stock | low_stock | in_stock.

Inductive TxType : Type := IN | OUT.

Module Profile.
(** [is_active boolean DEFAULT true] has no [NOT NULL]: the column can
    hold [NULL], and [is_active = true] is then not true. *)
Record t : Type := mk {
  id : uuid;
  name : string;
  role : Role;
  is_active : option bool;
  created_at : timestamptz;
  updated_at : timestamptz
}.
End Profile.

Module Category.
Record t : Type := mk {
  id : uuid;
  name : string;
  description : string;
  created_at : timestamptz;
  updated_at : timestamptz
}.
End Category.

Module Product.
(** [price] in hundredths. *)
Record t : Type := mk {
  id : uuid;
  name : string;
  sku : string;
  category_id : option uuid;
  price : Z;
  quantity : Z;
  status : Status;
  description : string;
  created_at : timestamptz;
  updated_at : timestamptz
}.
End Product.

Module StockTransaction.
Record t : Type := mk {
  id : uuid;
  product_id : uuid;
  user_id : uuid;
  quantity : Z;
  type : TxType;
  notes : string;
  created_at : timestamptz
}.
End StockTransaction.

(** The generated column of [products]:
<<
  status text GENERATED ALWAYS AS (
    CASE WHEN quantity = 0 THEN 'out_of_stock'
         WHEN quantity < 5 THEN 'low_stock'
         ELSE 'in_stock' END) STORED
>> *)
Definition classify (quantity : Z) : Status :=
  if quantity =? 0 then out_of_stock
  else if quantity <? 5 then low_stock
  else in_stock.

(** The database: [auth.users] (only the ids matter here) and the four
    tables of the migration. *)
Record Db : Type := mkDb {
  auth_users : list uuid;
  profiles : list Profile.t;
  categories : list Category.t;
  products : list Product.t;
  stock_transactions : list StockTransaction.t
}.

(** What the environment fixes for one statement: the caller
    ([auth.uid()]), the transaction time ([now()]) and the value
    [gen_random_uuid()] returns if the statement asks for one. *)
Record Ctx : Type := mkCtx {
  auth_uid : uuid;
  now : timestamptz;
  gen_random_uuid : uuid
}.

(** Errors of the store, by PostgreSQL condition name. *)
Inductive PgError : Type :=
| generated_always
| numeric_value_out_of_range
| insufficient_privilege
| not_null_violation
| unique_violation
| foreign_key_violation.

(* ===================================================================== *)
(** ** Row-level security: the predicates of the policies *)
(* ===================================================================== *)

(** [EXISTS (SELECT 1 FROM profiles WHERE profiles.id = auth.uid()
    AND profiles.role = 'admin')] *)
Definition caller_is_admin (db : Db) (uid : uuid) : bool :=
  existsb (fun p => String.eqb (Profile.id p) uid && Role_eqb (Profile.role p) admin)
          (profiles db).

(** [EXISTS (SELECT 1 FROM profiles WHERE profiles.id = auth.uid()
    AND profiles.is_active = true)] *)
Definition caller_is_active (db : Db) (uid : uuid) : bool :=
  existsb (fun p => String.eqb (Profile.id p) uid &&
                    match Profile.is_active p with Some true => true | _ => false end)
          (profiles db).

(** "Staff and admins can insert products", "Staff and admins can update
    products", "Active staff can insert stock transactions". *)
Definition policy_products_insert := caller_is_active.
Definition policy_products_update := caller_is_active.
Definition policy_stock_transactions_insert := caller_is_active.

(** "Admins can delete products", "Admins can insert categories", "Admins
    can update categories", "Admins can delete categories". *)
Definition policy_products_delete := caller_is_admin.
Definition policy_categories_insert := caller_is_admin.
Definition policy_categories_update := caller_is_admin.
Definition policy_categories_delete := caller_is_admin.

(** "Users can update own profile" or "Admins can update any profile":
    permissive policies add up. *)
Definition policy_profiles_update (db : Db) (uid : uuid) (row_id : uuid) : bool :=
  String.eqb uid row_id || caller_is_admin db uid.

(** [stock_transactions] has row-level security enabled and no policy
    for UPDATE or DELETE: no row is visible to such a statement. *)
Definition policy_stock_transactions_update (db : Db) (uid : uuid) : bool := false.
Definition policy_stock_transactions_delete (db : Db) (uid : uuid) : bool := false.

(* ===================================================================== *)
(** ** Statements *)
(* ===================================================================== *)

Definition with_products (db : Db) (l : list Product.t) : Db :=
  mkDb (auth_users db) (profiles db) (categories db) l (stock_transactions db).

Definition with_stock_transactions (db : Db) (l : list StockTransaction.t) : Db :=
  mkDb (auth_users db) (profiles db) (categories db) (products db) l.

Definition with_categories (db : Db) (l : list Category.t) : Db :=
  mkDb (auth_users db) (profiles db) l (products db) (stock_transactions db).

Definition with_profiles (db : Db) (l : list Profile.t) : Db :=
  mkDb (auth_users db) l (categories db) (products db) (stock_transactions db).

Definition has_product (db : Db) (pid : uuid) : bool :=
  existsb (fun p => String.eqb (Product.id p) pid) (products db).

Definition has_category (db : Db) (cid : uuid) : bool :=
  existsb (fun c => String.eqb (Category.id c) cid) (categories db).

Definition has_user (db : Db) (uid : uuid) : bool :=
  existsb (fun u => String.eqb u uid) (auth_users db).

Definition is_null {A : Type} (f : field A) : bool :=
  match f with
  | Some None => true
  | _ => false
  end.

(** *** [products] *)

Module ProductPayload.
(** The columns the application's request bodies name ([ProductModal]
    sends the first six but [status], [StockModal] the quantity alone),
    and [status], which a client can add and the store refuses (below).
    [id], [created_at] and [updated_at] are never sent. *)
Record t : Type := mk {
  name : option string;
  sku : option string;
  category_id : field uuid;
  price : field Z;
  quantity : field Z;
  status : option Status;
  description : option string
}.
End ProductPayload.

Definition category_ref_ok (db : Db) (c : option uuid) : bool :=
  match c with
  | Some cid => has_category db cid
  | None => true
  end.

(** [INSERT INTO products].  [status] is [GENERATED ALWAYS]: a statement
    that supplies it is refused, and the stored value is computed from
    the row's quantity. *)
Definition insert_products (cx : Ctx) (payload : ProductPayload.t) (db : Db)
  : result PgError Db :=
  if is_some (ProductPayload.status payload) then Error generated_always
  else if negb (field_ok in_decimal_10_2 (ProductPayload.price payload) &&
                field_ok in_int4 (ProductPayload.quantity payload))
  then Error numeric_value_out_of_range
  else if negb (policy_products_insert db (auth_uid cx)) then Error insufficient_privilege
  else
    match ProductPayload.name payload, ProductPayload.sku payload,
          on_insert (Some 0) (ProductPayload.price payload),
          on_insert (Some 0) (ProductPayload.quantity payload) with
    | Some n, Some s, Some pr, Some q =>
        let cat := on_insert None (ProductPayload.category_id payload) in
        if has_product db (gen_random_uuid cx) ||
           existsb (fun p => String.eqb (Product.sku p) s) (products db)
        then Error unique_violation
        else if negb (category_ref_ok db cat) then Error foreign_key_violation
        else
          Ok (with_products db
                (products db ++
                 [Product.mk (gen_random_uuid cx) n s cat pr q (classify q)
                    (match ProductPayload.description payload with
                     | Some d => d
                     | None => ""
                     end)
                    (now cx) (now cx)]))
    | _, _, _, _ => Error not_null_violation
    end.

(** One row under [UPDATE products SET ...]: the named columns change,
    the trigger [update_products_updated_at] stamps [updated_at], and
    [status] is computed again. *)
Definition update_product_row (cx : Ctx) (payload : ProductPayload.t) (p : Product.t)
  : Product.t :=
  let q := match ProductPayload.quantity payload with
           | Some (Some q) => q
           | _ => Product.quantity p
           end in
  Product.mk
    (Product.id p)
    (match ProductPayload.name payload with Some n => n | None => Product.name p end)
    (match ProductPayload.sku payload with Some s => s | None => Product.sku p end)
    (on_update (Product.category_id p) (ProductPayload.category_id payload))
    (match ProductPayload.price payload with
     | Some (Some pr) => pr
     | _ => Product.price p
     end)
    q
    (classify q)
    (match ProductPayload.description payload with
     | Some d => d
     | None => Product.description p
     end)
    (Product.created_at p)
    (now cx).

(** [UPDATE products SET ... WHERE id = pid].  Rows the policy hides are
    not updated and that is no error; the new values are only looked at
    for a row the statement reaches, so a number no column can hold is
    an error when there is such a row and goes unnoticed when there is
    none. *)
Definition update_products (cx : Ctx) (payload : ProductPayload.t) (pid : uuid) (db : Db)
  : result PgError Db :=
  if is_some (ProductPayload.status payload) then Error generated_always
  else if negb (policy_products_update db (auth_uid cx)) then Ok db
  else if negb (has_product db pid) then Ok db
  else if negb (field_ok in_decimal_10_2 (ProductPayload.price payload) &&
                field_ok in_int4 (ProductPayload.quantity payload))
  then Error numeric_value_out_of_range
  else if is_null (ProductPayload.price payload) || is_null (ProductPayload.quantity payload)
  then Error not_null_violation
  else if match ProductPayload.sku payload with
          | Some s =>
              existsb (fun p => negb (String.eqb (Product.id p) pid) &&
                                String.eqb (Product.sku p) s) (products db)
          | None => false
          end
  then Error unique_violation
  else if negb (category_ref_ok db
                  (on_update None (ProductPayload.category_id payload)))
  then Error foreign_key_violation
  else
    Ok (with_products db
          (map (fun p => if String.eqb (Product.id p) pid
                         then update_product_row cx payload p else p)
               (products db))).

(** [DELETE FROM products WHERE id = pid].  [stock_transactions.product_id]
    is declared [ON DELETE CASCADE]: the rows of a deleted product go
    with it (referential actions are not subject to row security). *)
Definition delete_products (cx : Ctx) (pid : uuid) (db : Db) : result PgError Db :=
  if negb (policy_products_delete db (auth_uid cx)) then Ok db
  else if negb (has_product db pid) then Ok db
  else
    Ok (mkDb (auth_users db) (profiles db) (categories db)
          (filter (fun p => negb (String.eqb (Product.id p) pid)) (products db))
          (filter (fun t => negb (String.eqb (StockTransaction.product_id t) pid))
                  (stock_transactions db))).

(** *** [stock_transactions] *)

Module StockTransactionPayload.
(** The object [StockModal] inserts; [quantity] is a JSON number or
    [null]. *)
Record t : Type := mk {
  product_id : uuid;
  user_id : uuid;
  quantity : option Z;
  type : TxType;
  notes : string
}.
End StockTransactionPayload.

(** [INSERT INTO stock_transactions]. *)
Definition insert_stock_transactions (cx : Ctx) (payload : StockTransactionPayload.t)
    (db : Db) : result PgError Db :=
  if negb (match StockTransactionPayload.quantity payload with
           | Some q => in_int4 q
           | None => true
           end)
  then Error numeric_value_out_of_range
  else if negb (policy_stock_transactions_insert db (auth_uid cx))
  then Error insufficient_privilege
  else
    match StockTransactionPayload.quantity payload with
    | None => Error not_null_violation
    | Some q =>
        if existsb (fun t => String.eqb (StockTransaction.id t) (gen_random_uuid cx))
                   (stock_transactions db)
        then Error unique_violation
        else if negb (has_product db (StockTransactionPayload.product_id payload) &&
                      has_user db (StockTransactionPayload.user_id payload))
        then Error foreign_key_violation
        else
          Ok (with_stock_transactions db
                (stock_transactions db ++
                 [StockTransaction.mk (gen_random_uuid cx)
                    (StockTransactionPayload.product_id payload)
                    (StockTransactionPayload.user_id payload)
                    q
                    (StockTransactionPayload.type payload)
                    (StockTransactionPayload.notes payload)
                    (now cx)]))
    end.

(** [UPDATE stock_transactions ... WHERE id = tid] and [DELETE FROM
    stock_transactions WHERE id = tid]: the rows the statement may touch
    are those its filter and the policy both select, and the new values
    are only looked at when there is such a row. *)
Definition update_stock_transactions (cx : Ctx) (payload : StockTransactionPayload.t)
    (tid : uuid) (db : Db) : result PgError Db :=
  if negb (existsb (fun t => String.eqb (StockTransaction.id t) tid &&
                             policy_stock_transactions_update db (auth_uid cx))
                   (stock_transactions db))
  then Ok db
  else if negb (match StockTransactionPayload.quantity payload with
                | Some q => in_int4 q
                | None => true
                end)
  then Error numeric_value_out_of_range
  else
    Ok (with_stock_transactions db
          (map (fun t =>
                  if String.eqb (StockTransaction.id t) tid &&
                     policy_stock_transactions_update db (auth_uid cx)
                  then StockTransaction.mk (StockTransaction.id t)
                         (StockTransactionPayload.product_id payload)
                         (StockTransactionPayload.user_id payload)
                         (match StockTransactionPayload.quantity payload with
                          | Some q => q
                          | None => StockTransaction.quantity t
                          end)
                         (StockTransactionPayload.type payload)
                         (StockTransactionPayload.notes payload)
                         (StockTransaction.created_at t)
                  else t)
               (stock_transactions db))).

Definition delete_stock_transactions (cx : Ctx) (tid : uuid) (db : Db)
  : result PgError Db :=
  Ok (with_stock_transactions db
        (filter (fun t => negb (String.eqb (StockTransaction.id t) tid &&
                                policy_stock_transactions_delete db (auth_uid cx)))
                (stock_transactions db))).

(** *** [categories] *)

Module CategoryPayload.
Record t : Type := mk {
  name : option string;
  description : option string
}.
End CategoryPayload.

Definition insert_categories (cx : Ctx) (payload : CategoryPayload.t) (db : Db)
  : result PgError Db :=
  if negb (policy_categories_insert db (auth_uid cx)) then Error insufficient_privilege
  else
    match CategoryPayload.name payload with
    | None => Error not_null_violation
    | Some n =>
        if has_category db (gen_random_uuid cx) ||
           existsb (fun c => String.eqb (Category.name c) n) (categories db)
        then Error unique_violation
        else
          Ok (with_categories db
                (categories db ++
                 [Category.mk (gen_random_uuid cx) n
                    (match CategoryPayload.description payload with
                     | Some d => d
                     | None => ""
                     end)
                    (now cx) (now cx)]))
    end.

Definition update_categories (cx : Ctx) (payload : CategoryPayload.t) (cid : uuid)
    (db : Db) : result PgError Db :=
  if negb (policy_categories_update db (auth_uid cx)) then Ok db
  else if negb (has_category db cid) then Ok db
  else if match CategoryPayload.name payload with
          | Some n =>
              existsb (fun c => negb (String.eqb (Category.id c) cid) &&
                                String.eqb (Category.name c) n) (categories db)
          | None => false
          end
  then Error unique_violation
  else
    Ok (with_categories db
          (map (fun c =>
                  if String.eqb (Category.id c) cid
                  then Category.mk (Category.id c)
                         (match CategoryPayload.name payload with
                          | Some n => n
                          | None => Category.name c
                          end)
                         (match CategoryPayload.description payload with
                          | Some d => d
                          | None => Category.description c
                          end)
                         (Category.created_at c)
                         (now cx)
                  else c)
               (categories db))).

(** What [ON DELETE SET NULL] does to one product row when category
    [cid] goes: [UPDATE products SET category_id = NULL WHERE
    category_id = cid].  It is an update of the row like any other, so
    the [BEFORE UPDATE] trigger stamps [updated_at] and the generated
    column is computed again. *)
Definition set_null_category (cx : Ctx) (cid : uuid) (p : Product.t) : Product.t :=
  if opt_eqb (Product.category_id p) cid
  then Product.mk (Product.id p) (Product.name p) (Product.sku p) None
         (Product.price p) (Product.quantity p) (classify (Product.quantity p))
         (Product.description p) (Product.created_at p) (now cx)
  else p.

(** [DELETE FROM categories WHERE id = cid], with the referential action
    of [products.category_id]. *)
Definition delete_categories (cx : Ctx) (cid : uuid) (db : Db) : result PgError Db :=
  if negb (policy_categories_delete db (auth_uid cx)) then Ok db
  else if negb (has_category db cid) then Ok db
  else
    Ok (mkDb (auth_users db) (profiles db)
          (filter (fun c => negb (String.eqb (Category.id c) cid)) (categories db))
          (map (set_null_category cx cid) (products db))
          (stock_transactions db)).

(** *** [profiles] *)

(** A new account: a row of [auth.users], and the trigger
    [on_auth_user_created] runs [handle_new_user], which inserts
    [(NEW.id, COALESCE(NEW.raw_user_meta_data->>'name', 'User'), 'staff')];
    [is_active] takes its default. *)
Definition handle_new_user (cx : Ctx) (new_id : uuid) (meta_name : option string)
    (db : Db) : Db :=
  with_profiles db
    (profiles db ++
     [Profile.mk new_id
        (match meta_name with Some n => n | None => "User" end)
        staff (Some true) (now cx) (now cx)]).

Definition sign_up (cx : Ctx) (meta_name : option string) (db : Db)
  : result PgError Db :=
  if has_user db (gen_random_uuid cx) ||
     existsb (fun p => String.eqb (Profile.id p) (gen_random_uuid cx)) (profiles db)
  then Error unique_violation
  else
    Ok (handle_new_user cx (gen_random_uuid cx) meta_name
          (mkDb (auth_users db ++ [gen_random_uuid cx]) (profiles db) (categories db)
             (products db) (stock_transactions db))).

Module ProfilePayload.
Record t : Type := mk {
  name : option string;
  role : option Role;
  is_active : field bool
}.
End ProfilePayload.

Definition update_profiles (cx : Ctx) (payload : ProfilePayload.t) (target : uuid)
    (db : Db) : result PgError Db :=
  Ok (with_profiles db
        (map (fun p =>
                if String.eqb (Profile.id p) target &&
                   policy_profiles_update db (auth_uid cx) (Profile.id p)
                then Profile.mk (Profile.id p)
                       (match ProfilePayload.name payload with
                        | Some n => n
                        | None => Profile.name p
                        end)
                       (match ProfilePayload.role payload with
                        | Some r => r
                        | None => Profile.role p
                        end)
                       (on_update (Profile.is_active p) (ProfilePayload.is_active payload))
                       (Profile.created_at p)
                       (now cx)
                else p)
             (profiles db))).

(** [INSERT INTO profiles], under "Admins can insert profiles"; the row
    is for an existing account. *)
Definition insert_profiles (cx : Ctx) (id : uuid) (payload : ProfilePayload.t)
    (db : Db) : result PgError Db :=
  if negb (caller_is_admin db (auth_uid cx)) then Error insufficient_privilege
  else
    match ProfilePayload.name payload with
    | None => Error not_null_violation
    | Some n =>
        if existsb (fun p => String.eqb (Profile.id p) id) (profiles db)
        then Error unique_violation
        else if negb (has_user db id) then Error foreign_key_violation
        else
          Ok (with_profiles db
                (profiles db ++
                 [Profile.mk id n
                    (match ProfilePayload.role payload with
                     | Some r => r
                     | None => staff
                     end)
                    (on_insert (Some true) (ProfilePayload.is_active payload))
                    (now cx) (now cx)]))
    end.

(** [DELETE FROM profiles WHERE id = target]: [profiles] has no policy
    for DELETE. *)
Definition policy_profiles_delete (db : Db) (uid : uuid) : bool := false.

Definition delete_profiles (cx : Ctx) (target : uuid) (db : Db) : result PgError Db :=
  Ok (with_profiles db
        (filter (fun p => negb (String.eqb (Profile.id p) target &&
                                policy_profiles_delete db (auth_uid cx)))
                (profiles db))).

(** *** Accounts leaving

    [DELETE FROM auth.users WHERE id = uid].  No session of the
    application can send it (the table is the identity provider's); when
    the provider deletes an account, [profiles.id] and
    [stock_transactions.user_id], both declared [REFERENCES
    auth.users(id) ON DELETE CASCADE], take the user's profile and the
    ledger rows the user recorded with it. *)
Definition delete_account (uid : uuid) (db : Db) : Db :=
  if has_user db uid
  then
    mkDb (filter (fun u => negb (String.eqb u uid)) (auth_users db))
         (filter (fun p => negb (String.eqb (Profile.id p) uid)) (profiles db))
         (categories db)
         (products db)
         (filter (fun t => negb (String.eqb (StockTransaction.user_id t) uid))
                 (stock_transactions db))
  else db.

(** *** Every request that changes the store

    The statements a session can send, table by table, and the signup,
    with the columns the payload types list.  (Reads change nothing.  A
    statement that rewrites a key or a timestamp, which no handler of
    the application sends, is not among them.) *)

Inductive Request : Type :=
| SignUp (meta_name : option string)
| UpdateProfile (payload : ProfilePayload.t) (id : uuid)
| InsertCategory (payload : CategoryPayload.t)
| UpdateCategory (payload : CategoryPayload.t) (id : uuid)
| DeleteCategory (id : uuid)
| InsertProduct (payload : ProductPayload.t)
| UpdateProduct (payload : ProductPayload.t) (id : uuid)
| DeleteProduct (id : uuid)
| InsertStockTransaction (payload : StockTransactionPayload.t)
| UpdateStockTransaction (payload : StockTransactionPayload.t) (id : uuid)
| DeleteStockTransaction (id : uuid)
| InsertProfile (id : uuid) (payload : ProfilePayload.t)
| DeleteProfile (id : uuid).

Definition exec (cx : Ctx) (r : Request) (db : Db) : result PgError Db :=
  match r with
  | SignUp n => sign_up cx n db
  | UpdateProfile payload id => update_profiles cx payload id db
  | InsertCategory payload => insert_categories cx payload db
  | UpdateCategory payload id => update_categories cx payload id db
  | DeleteCategory id => delete_categories cx id db
  | InsertProduct payload => insert_products cx payload db
  | UpdateProduct payload id => update_products cx payload id db
  | DeleteProduct id => delete_products cx id db
  | InsertStockTransaction payload => insert_stock_transactions cx payload db
  | UpdateStockTransaction payload id => update_stock_transactions cx payload id db
  | DeleteStockTransaction id => delete_stock_transactions cx id db
  | InsertProfile id payload => insert_profiles cx id payload db
  | DeleteProfile id => delete_profiles cx id db
  end.

(** The migration creates [profiles], [products] and [stock_transactions]
    empty and fills [categories] with its samples; the accounts are
    whatever exists by then. *)
Definition migrated (db : Db) : Prop :=
  profiles db = [] /\ products db = [] /\ stock_transactions db = [].

(** What can change the store: a request of a session, or the deletion
    of an account. *)
Inductive Change : Type :=
| ByRequest (cx : Ctx) (r : Request)
| AccountDeleted (uid : uuid).

Definition apply_change (c : Change) (db : Db) : result PgError Db :=
  match c with
  | ByRequest cx r => exec cx r db
  | AccountDeleted uid => Ok (delete_account uid db)
  end.

(** The states the store can be in: those the accepted requests and the
    deletions of accounts lead to. *)
Inductive reachable : Db -> Prop :=
| reachable_migrated : forall db, migrated db -> reachable db
| reachable_exec : forall db cx r db',
    reachable db -> exec cx r db = Ok db' -> reachable db'
| reachable_account_deleted : forall db uid,
    reachable db -> reachable (delete_account uid db).

(** A sequence of requests, each in its own context, stopping at the
    first one the store refuses. *)
Fixpoint run (script : list (Ctx * Request)) (db : Db) : result PgError Db :=
  match script with
  | [] => Ok db
  | (cx, r) :: rest =>
      match exec cx r db with
      | Ok db' => run rest db'
      | Error e => Error e
      end
  end.

(* ===================================================================== *)
(** ** The client *)
(* ===================================================================== *)

(** What a handler reports: the two errors it throws itself, or the
    error of a request. *)
Inductive AppError : Type :=
| ProductNotFound
| InsufficientStock
| PersistenceFailure (e : PgError).

(** A handler runs against the store and ends normally or in its
    [catch] block; either way the requests already made stay made. *)
Definition App (A : Type) : Type := Db -> Db * result AppError A.

Definition ret {A : Type} (a : A) : App A := fun db => (db, Ok a).

Definition throw {A : Type} (e : AppError) : App A := fun db => (db, Error e).

Definition bind {A B : Type} (m : App A) (k : A -> App B) : App B :=
  fun db =>
    match m db with
    | (db', Ok a) => k a db'
    | (db', Error e) => (db', Error e)
    end.

(** [const { error } = await supabase...; if (error) throw error;] *)
Definition request (stmt : Db -> result PgError Db) : App unit :=
  fun db =>
    match stmt db with
    | Ok db' => (db', Ok tt)
    | Error e => (db, Error (PersistenceFailure e))
    end.

Notation "m ;; k" := (bind m (fun _ => k)) (at level 61, right associativity).

Definition TxType_eqb (a b : TxType) : bool :=
  match a, b with
  | IN, IN | OUT, OUT => true
  | _, _ => false
  end.

(** [loadProducts] of [StockTransactions.tsx]: [select('*').order('name')]
    under the policy "Anyone can view products".  Which order the
    collation gives is left open: the page holds the rows of the table,
    in some order. *)
Definition loadProducts (db : Db) (snapshot : list Product.t) : Prop :=
  Permutation snapshot (products db).

Module StockModal.

Record FormData : Type := mkFormData {
  product_id : string;
  type : TxType;
  quantity : string;
  notes : string
}.

(** [products] and [userId] are the component's props; [uid] is the
    session the two requests are made in, [t1] and [t2] their times,
    [g] the id the store generates for the ledger row. *)
Definition handleSubmit (products : list Product.t) (userId : uuid)
    (formData : FormData) (uid : uuid) (t1 : timestamptz) (g : uuid)
    (t2 : timestamptz) : App unit :=
  let quantity := parseInt (quantity formData) in
  match find (fun p => String.eqb (Product.id p) (product_id formData)) products with
  | None => throw ProductNotFound
  | Some product =>
      if TxType_eqb (type formData) OUT &&
         number_lt (Int (Product.quantity product)) quantity
      then throw InsufficientStock
      else
        request (insert_stock_transactions (mkCtx uid t1 g)
                   (StockTransactionPayload.mk (product_id formData) userId
                      (to_json quantity) (type formData) (notes formData))) ;;
        let newQuantity :=
          match type formData with
          | IN => number_add (Int (Product.quantity product)) quantity
          | OUT => number_sub (Int (Product.quantity product)) quantity
          end in
        request (update_products (mkCtx uid t2 g)
                   (ProductPayload.mk None None None None
                      (Some (to_json newQuantity)) None None)
                   (product_id formData))
  end.

(** The value of [newQuantity] when the text parses to the integer [q]. *)
Definition newQuantity_of (formData : FormData) (product : Product.t) (q : Z) : Z :=
  match type formData with
  | IN => Product.quantity product + q
  | OUT => Product.quantity product - q
  end.

(** The ledger row the store makes of the handler's insert. *)
Definition ledger_row (userId : uuid) (formData : FormData) (g : uuid)
    (t1 : timestamptz) (q : Z) : StockTransaction.t :=
  StockTransaction.mk g (product_id formData) userId q (type formData)
    (notes formData) t1.

(** The body of the handler's update: the quantity and nothing else. *)
Definition quantity_update (n : Z) : ProductPayload.t :=
  ProductPayload.mk None None None None (Some (Some n)) None None.

(** The table [products] after that update. *)
Definition products_after (formData : FormData) (uid : uuid) (t2 : timestamptz)
    (g : uuid) (n : Z) (rows : list Product.t) : list Product.t :=
  map (fun p => if String.eqb (Product.id p) (product_id formData)
                then update_product_row (mkCtx uid t2 g) (quantity_update n) p
                else p)
      rows.

End StockModal.

Module ProductModal.

Record FormData : Type := mkFormData {
  name : string;
  sku : string;
  category_id : string;
  price : string;
  quantity : string;
  description : string
}.

Section WithParseFloat.

(** [parseFloat] gives a double; what reaches the [decimal(10,2)]
    column is that value rounded to hundredths, or [null] for [NaN].
    The handler is taken over any such reading of the price text. *)
Variable parseFloat : string -> option Z.

Definition payload_of (formData : FormData) : ProductPayload.t :=
  ProductPayload.mk
    (Some (name formData))
    (Some (sku formData))
    (Some (if String.eqb (category_id formData) "" then None
           else Some (category_id formData)))
    (Some (parseFloat (price formData)))
    (Some (to_json (parseInt (quantity formData))))
    None
    (Some (description formData)).

(** [product] is the row being edited, or [None] for a new one. *)
Definition handleSubmit (product : option Product.t) (formData : FormData)
    (uid : uuid) (t : timestamptz) (g : uuid) : App unit :=
  let payload := payload_of formData in
  match product with
  | Some p => request (update_products (mkCtx uid t g) payload (Product.id p))
  | None => request (insert_products (mkCtx uid t g) payload)
  end.

End WithParseFloat.

End ProductModal.

Module Products.
(** [confirmed] is the answer to the [confirm] dialog. *)
Definition handleDelete (confirmed : bool) (id : uuid) (uid : uuid) (t : timestamptz)
  : App unit :=
  if negb confirmed then ret tt
  else request (delete_products (mkCtx uid t "") id).
End Products.

Module Categories.
Definition handleDelete (confirmed : bool) (id : uuid) (uid : uuid) (t : timestamptz)
  : App unit :=
  if negb confirmed then ret tt
  else request (delete_categories (mkCtx uid t "") id).
End Categories.

Module Users.
Definition toggleUserStatus (userId : uuid) (currentStatus : bool) (uid : uuid)
    (t : timestamptz) : App unit :=
  request (update_profiles (mkCtx uid t "")
             (ProfilePayload.mk None None (Some (Some (negb currentStatus)))) userId).

Definition updateUserRole (confirmed : bool) (userId : uuid) (newRole : Role)
    (uid : uuid) (t : timestamptz) : App unit :=
  if negb confirmed then ret tt
  else request (update_profiles (mkCtx uid t "")
                  (ProfilePayload.mk None (Some newRole) None) userId).
End Users.

(** *** Well-formed databases *)

(** Primary keys are unique. *)
Definition pk_unique (db : Db) : Prop :=
  NoDup (map Product.id (products db)) /\
  NoDup (map Profile.id (profiles db)) /\
  NoDup (map StockTransaction.id (stock_transactions db)).

(** The invariant of the generated column. *)
Definition status_derived (db : Db) : Prop :=
  Forall (fun p => Product.status p = classify (Product.quantity p)) (products db).

(** The ledger rows of one product. *)
Definition ledger_of (db : Db) (pid : uuid) : list StockTransaction.t :=
  filter (fun t => String.eqb (StockTransaction.product_id t) pid) (stock_transactions db).

(** The stored row of a product. *)
Definition stored_product (db : Db) (pid : uuid) : option Product.t :=
  find (fun p => String.eqb (Product.id p) pid) (products db).


(* ===================================================================== *)
(** ** A small shop, for running the definitions *)
(* ===================================================================== *)

Module Scenario.

Definition people : list Profile.t :=
  [ Profile.mk "a1" "Asha" admin (Some true) 0 0;
    Profile.mk "u1" "Bram" staff (Some true) 0 0;
    Profile.mk "u2" "Chen" staff (Some true) 0 0;
    Profile.mk "u3" "Dana" staff (Some false) 0 0 ].

Definition electronics : Category.t :=
  Category.mk "c1" "Electronics" "Electronic devices and accessories" 0 0.

(** The store right after the migration. *)
Definition fresh_install : Db := mkDb [] [] [electronics] [] [].

(** Four people sign up; Asha makes herself admin (the policy "Users
    can update own profile" does not look at the columns) and switches
    Dana off. *)
Definition opening : list (Ctx * Request) :=
  [ (mkCtx "" 0 "a1", SignUp (Some "Asha"));
    (mkCtx "" 0 "u1", SignUp (Some "Bram"));
    (mkCtx "" 0 "u2", SignUp (Some "Chen"));
    (mkCtx "" 0 "u3", SignUp (Some "Dana"));
    (mkCtx "a1" 0 "", UpdateProfile (ProfilePayload.mk None (Some admin) None) "a1");
    (mkCtx "a1" 0 "",
     UpdateProfile (ProfilePayload.mk None None (Some (Some false))) "u3") ].

(** The shop before its first product. *)
Definition empty_shop : Db :=
  mkDb ["a1"; "u1"; "u2"; "u3"] people [electronics] [] [].

Definition widget (quantity : Z) : Product.t :=
  Product.mk "p1" "Widget" "W-1" (Some "c1") 1999 quantity (classify quantity) "" 1 1.

(** A shop with one product and no movement yet. *)
Definition shop (quantity : Z) : Db :=
  mkDb ["a1"; "u1"; "u2"; "u3"] people [electronics] [widget quantity] [].

Definition movement (type : TxType) (quantity : string) : StockModal.FormData :=
  StockModal.mkFormData "p1" type quantity "".

End Scenario.

Module ScenarioRequests.
(** The request that puts the widget on the shelf. *)
Definition new_widget (quantity : Z) : ProductPayload.t :=
  ProductPayload.mk (Some "Widget") (Some "W-1") (Some (Some "c1"))
    (Some (Some 1999)) (Some (Some quantity)) None (Some "").

(** A reading of price texts typed without decimals, in hundredths. *)
Definition whole_price (s : string) : option Z :=
  match parseInt s with
  | Int z => Some (100 * z)
  | NaN => None
  end.

Definition gadget_form : ProductModal.FormData :=
  ProductModal.mkFormData "Gadget" "G-1" "" "25" "4" "".
End ScenarioRequests.


(* ===================================================================== *)
(** ** More invariants of the store *)
(* ===================================================================== *)

(** The foreign keys: a ledger row names a product and an account that
    exist, a product names a category that exists or none, a profile
    belongs to an account. *)
Definition references_ok (db : Db) : Prop :=
  (forall t, In t (stock_transactions db) ->
     has_product db (StockTransaction.product_id t) = true /\
     has_user db (StockTransaction.user_id t) = true) /\
  (forall p c, In p (products db) -> Product.category_id p = Some c ->
     has_category db c = true) /\
  (forall p, In p (profiles db) -> has_user db (Profile.id p) = true).

(** [sku text UNIQUE]. *)
Definition sku_unique (db : Db) : Prop :=
  NoDup (map Product.sku (products db)).

(** Stored numbers are values of their column types. *)
Definition columns_in_range (db : Db) : Prop :=
  Forall (fun p => in_int4 (Product.quantity p) = true /\
                   in_decimal_10_2 (Product.price p) = true) (products db) /\
  Forall (fun t => in_int4 (StockTransaction.quantity t) = true) (stock_transactions db).

Module ScenarioStore.
(** The shop after Bram has recorded the arrival of five widgets. *)
Definition after_arrival : Db :=
  fst (StockModal.handleSubmit [Scenario.widget 3] "u1" (Scenario.movement IN "5")
         "u1" 2 "t1" 3 (Scenario.shop 3)).
End ScenarioStore.

(** What the product form sends for the category: [null] when the select
    is on its empty option ([formData.category_id || null]). *)
Definition form_category (formData : ProductModal.FormData) : option uuid :=
  if String.eqb (ProductModal.category_id formData) "" then None
  else Some (ProductModal.category_id formData).

Module ScenarioForms.
(** The widget's form after renaming it, dropping its category and
    counting seven on the shelf. *)
Definition widget_edit : ProductModal.FormData :=
  ProductModal.mkFormData "Widget Pro" "W-1" "" "25" "7" "recounted".

(** A form for a new product that reuses the widget's SKU. *)
Definition clash : ProductModal.FormData :=
  ProductModal.mkFormData "Other" "W-1" "" "1" "1" "".
End ScenarioForms.

(** What a ledger row says happened to the stock: IN adds, OUT takes. *)
Definition signed_quantity (t : StockTransaction.t) : Z :=
  match StockTransaction.type t with
  | IN => StockTransaction.quantity t
  | OUT => - StockTransaction.quantity t
  end.

(** The total of the movements recorded for a product. *)
Definition net_movement (db : Db) (pid : uuid) : Z :=
  fold_right Z.add 0 (map signed_quantity (ledger_of db pid)).

Module ScenarioLimits.
(** A shelf filled to the last value of the [integer] column. *)
Definition full_shop : Db := Scenario.shop int4_max.
End ScenarioLimits.

(* ===================================================================== *)
(** ** The pages *)
(* ===================================================================== *)

Definition Status_eqb (a b : Status) : bool :=
  match a, b with
  | out_of_stock, out_of_stock | low_stock, low_stock | in_stock, in_stock => true
  | _, _ => false
  end.

(** The text the [status] column holds. *)
Definition status_text (s : Status) : string :=
  match s with
  | out_of_stock => "out_of_stock"
  | low_stock => "low_stock"
  | in_stock => "in_stock"
  end.

Module Dashboard.

Record DashboardStats : Type := mkStats {
  totalProducts : nat;
  lowStockCount : nat;
  totalCategories : nat;
  outOfStockCount : nat
}.

(** The counting part of [loadDashboardData].  [productsRes] is the
    [data] of [select('status')] on [products] and [categoriesRes] that
    of [select('id')] on [categories], [None] when a response carries no
    data; [stats] is the state before. *)
Definition loadDashboardData (productsRes : option (list Status))
    (categoriesRes : option (list uuid)) (stats : DashboardStats) : DashboardStats :=
  match productsRes with
  | Some data =>
      let lowStock := List.length (filter (fun s => Status_eqb s low_stock) data) in
      let outOfStock := List.length (filter (fun s => Status_eqb s out_of_stock) data) in
      mkStats (List.length data) lowStock
        (match categoriesRes with
         | Some ids => List.length ids
         | None => 0%nat
         end)
        outOfStock
  | None => stats
  end.

End Dashboard.

(** [App.tsx]: what is on screen for a location. *)
Inductive Page : Type :=
| DashboardPage
| ProductsPage
| CategoriesPage
| StockTransactionsPage
| UsersPage.

Inductive Screen : Type :=
| LoadingScreen
| RegisterScreen
| LoginScreen
| InLayout (page : Page).

Module AppShell.
(** The component [App]: [loading] and [user] come from the session,
    [location] from [useLocation]. *)
Definition render (loading : bool) (user : option uuid) (location : string) : Screen :=
  if loading then LoadingScreen
  else
    match user with
    | None => if String.eqb location "/register" then RegisterScreen else LoginScreen
    | Some _ =>
        InLayout
          (if String.eqb location "/dashboard" then DashboardPage
           else if String.eqb location "/products" then ProductsPage
           else if String.eqb location "/categories" then CategoriesPage
           else if String.eqb location "/stock" then StockTransactionsPage
           else if String.eqb location "/users" then UsersPage
           else DashboardPage)
    end.
End AppShell.

Module Layout.
(** [menuItems]: path and label; [role] is [profile?.role]. *)
Definition menuItems (role : option Role) : list (string * string) :=
  [ ("/dashboard", "Dashboard");
    ("/products", "Products");
    ("/categories", "Categories");
    ("/stock", "Stock Transactions") ] ++
  match role with
  | Some admin => [ ("/users", "Users") ]
  | _ => []
  end.
End Layout.

Module UsersPageView.
Inductive View : Type := AccessDenied | UserTable.

(** The guard of the Users page: [profile?.role !== 'admin'] gives the
    access-denied view; otherwise the page goes on to its table (behind
    a loading indicator until the profiles have arrived). *)
Definition view (role : option Role) : View :=
  match role with
  | Some admin => UserTable
  | _ => AccessDenied
  end.

(** Whether the page's effect calls [loadUsers]. *)
Definition loads_users (role : option Role) : bool :=
  match role with
  | Some admin => true
  | _ => false
  end.
End UsersPageView.

(** [String.prototype.includes]. *)
Fixpoint includes (s sub : string) : bool :=
  String.prefix sub s ||
  match s with
  | EmptyString => false
  | String _ s' => includes s' sub
  end.

Module ProductsPageView.
(** [filteredProducts] of the Products page.  [toLowerCase] is the
    string method, taken as given. *)
Definition filteredProducts (toLowerCase : string -> string) (products : list Product.t)
    (searchTerm filterCategory filterStatus : string) : list Product.t :=
  filter
    (fun product =>
       let matchesSearch :=
         includes (toLowerCase (Product.name product)) (toLowerCase searchTerm) ||
         includes (toLowerCase (Product.sku product)) (toLowerCase searchTerm) in
       let matchesCategory :=
         String.eqb filterCategory "" ||
         opt_eqb (Product.category_id product) filterCategory in
       let matchesStatus :=
         String.eqb filterStatus "" ||
         String.eqb (status_text (Product.status product)) filterStatus in
       matchesSearch && matchesCategory && matchesStatus)
    products.
End ProductsPageView.

(** Lower case for the letters A to Z, for running the filter. *)
Definition ascii_lower (c : ascii) : ascii :=
  let n := nat_of_ascii c in
  if ((65 <=? n) && (n <=? 90))%nat then ascii_of_nat (n + 32) else c.

Fixpoint lower (s : string) : string :=
  match s with
  | EmptyString => EmptyString
  | String c s' => String (ascii_lower c) (lower s')
  end.

(* ===================================================================== *)
(** ** Opening the product form on a stored product *)
(* ===================================================================== *)

From Stdlib Require DecimalString DecimalZ DecimalPos.

(** [Number.prototype.toString] on an integer: its decimal digits, with
    a minus sign below zero. *)
Definition toString (n : Z) : string :=
  DecimalString.NilZero.string_of_int (Z.to_int n).

Module ProductModalEffect.
(** The effect of [ProductModal] that fills the form from the product
    being edited.  [priceToString] is [toString] on the price, a number
    with decimals, taken as given. *)
Definition populate (priceToString : Z -> string) (product : Product.t)
  : ProductModal.FormData :=
  ProductModal.mkFormData
    (Product.name product)
    (Product.sku product)
    (match Product.category_id product with
     | Some c => c
     | None => ""
     end)
    (priceToString (Product.price product))
    (toString (Product.quantity product))
    (Product.description product).
End ProductModalEffect.

Module ScenarioPrices.
(** A stand-in for the price's text and its reading, for running the
    form: the text is the number of hundredths. *)
Definition hundredths_text (hundredths : Z) : string := toString hundredths.

Definition hundredths_read (s : string) : option Z := to_json (parseInt s).
End ScenarioPrices.

(* ===================================================================== *)
(** ** What the pages let a user do *)
(* ===================================================================== *)

(** The handlers of the pages that write to the store, each with what
    it is called on.  (The category form is not among the sources.) *)
Inductive Action : Type :=
| RecordMovement (products : list Product.t) (userId : uuid)
    (formData : StockModal.FormData) (t1 : timestamptz) (g : uuid) (t2 : timestamptz)
| SaveProduct (parseFloat : string -> option Z) (product : option Product.t)
    (formData : ProductModal.FormData) (t : timestamptz) (g : uuid)
| DeleteProductRow (confirmed : bool) (id : uuid) (t : timestamptz)
| DeleteCategoryRow (confirmed : bool) (id : uuid) (t : timestamptz)
| ToggleUserStatus (userId : uuid) (currentStatus : bool) (t : timestamptz)
| UpdateUserRole (confirmed : bool) (userId : uuid) (newRole : Role) (t : timestamptz).

(** The handler an action runs, in the session of [uid]. *)
Definition perform (uid : uuid) (a : Action) : App unit :=
  match a with
  | RecordMovement products userId formData t1 g t2 =>
      StockModal.handleSubmit products userId formData uid t1 g t2
  | SaveProduct parseFloat product formData t g =>
      ProductModal.handleSubmit parseFloat product formData uid t g
  | DeleteProductRow confirmed id t => Products.handleDelete confirmed id uid t
  | DeleteCategoryRow confirmed id t => Categories.handleDelete confirmed id uid t
  | ToggleUserStatus userId currentStatus t =>
      Users.toggleUserStatus userId currentStatus uid t
  | UpdateUserRole confirmed userId newRole t =>
      Users.updateUserRole confirmed userId newRole uid t
  end.

Module ScenarioShelf.
(** The shop once Bram has added a gadget beside the widget. *)
Definition two_products : Db :=
  fst (ProductModal.handleSubmit ScenarioRequests.whole_price None
         ScenarioRequests.gadget_form "u1" 4 "p2" (Scenario.shop 3)).

Definition gadget : Product.t :=
  Product.mk "p2" "Gadget" "G-1" None 2500 4 low_stock "" 4 4.

(** The widget's form with the gadget's SKU typed into it. *)
Definition widget_as_gadget : ProductModal.FormData :=
  ProductModal.mkFormData "Widget" "G-1" "c1" "19" "3" "".
End ScenarioShelf.
(* ===================================================================== *)
(** ** Facts about the values *)
(* ===================================================================== *)

Example parseInt_5 : parseInt "5" = Int 5.
Proof. reflexivity. Qed.

Example parseInt_negative : parseInt "-3" = Int (-3).
Proof. reflexivity. Qed.

Example parseInt_empty : parseInt "" = NaN.
Proof. reflexivity. Qed.

Example parseInt_stops_at_point : parseInt " 12.5" = Int 12.
Proof. reflexivity. Qed.

Example parseInt_stops_at_exponent : parseInt "1e3" = Int 1.
Proof. reflexivity. Qed.

Example parseInt_hex : parseInt "0x1F" = Int 31.
Proof. reflexivity. Qed.

Example parseInt_hex_prefix_alone : parseInt "0x" = NaN.
Proof. reflexivity. Qed.

Lemma classify_cases (q : Z) :
  (q = 0 /\ classify q = out_of_stock) \/
  (q <> 0 /\ q < 5 /\ classify q = low_stock) \/
  (5 <= q /\ classify q = in_stock).
Proof.
  unfold classify.
  destruct (Z.eqb_spec q 0) as [E | N]; [now left |].
  destruct (Z.ltb_spec q 5) as [L | G]; [right; left | right; right]; auto.
Qed.

(** C3. The status classifier is a total function of the quantity and,
    on the non-negative quantities, [classify 0 = out_of_stock],
    [classify q = low_stock] for [1 <= q <= 4] and
    [classify q = in_stock] for [5 <= q]. *)
Theorem classify_rule (q : Z) :
  0 <= q ->
  (q = 0 -> classify q = out_of_stock) /\
  (1 <= q <= 4 -> classify q = low_stock) /\
  (5 <= q -> classify q = in_stock).
Proof.
  intros _.
  destruct (classify_cases q) as [[E C] | [[N [L C]] | [G C]]];
    rewrite C; repeat split; intros; try reflexivity; lia.
Qed.

Lemma classify_rule_witness :
  classify 0 = out_of_stock /\ classify 1 = low_stock /\
  classify 4 = low_stock /\ classify 5 = in_stock.
Proof.
  split; [| split; [| split]].
  - apply (classify_rule 0); lia.
  - apply (classify_rule 1); lia.
  - apply (classify_rule 4); lia.
  - apply (classify_rule 5); lia.
Defined.

(** Below zero, which the column type allows ([integer], no [CHECK]),
    the [CASE] falls into its second branch. *)
Lemma classify_negative (q : Z) : q < 0 -> classify q = low_stock.
Proof.
  intros H. destruct (classify_cases q) as [[E C] | [[N [L C]] | [G C]]]; auto; lia.
Qed.

(* ===================================================================== *)
(** ** The stock movement handler *)
(* ===================================================================== *)

Section StockMovement.

Import StockModal.

Variables (snapshot : list Product.t) (userId : uuid) (formData : FormData).
Variables (uid : uuid) (t1 : timestamptz) (g : uuid) (t2 : timestamptz).
Variable product : Product.t.
Variable q : Z.

Hypothesis Hfound :
  find (fun p => String.eqb (Product.id p) (product_id formData)) snapshot = Some product.
Hypothesis Hparsed : parseInt (quantity formData) = Int q.

(** An OUT movement for more than the quantity of the row found in the
    [products] prop throws before any request is made. *)
Lemma handleSubmit_insufficient (db : Db) :
  type formData = OUT ->
  Product.quantity product < q ->
  handleSubmit snapshot userId formData uid t1 g t2 db = (db, Error InsufficientStock).
Proof.
  intros Ht Hlt. unfold handleSubmit, throw.
  rewrite Hfound, Hparsed, Ht. simpl.
  destruct (Z.ltb_spec (Product.quantity product) q); [reflexivity | lia].
Qed.

Lemma guard_passes :
  (type formData = OUT -> q <= Product.quantity product) ->
  TxType_eqb (type formData) OUT && number_lt (Int (Product.quantity product)) (Int q)
  = false.
Proof.
  intros H. destruct (type formData); simpl; [reflexivity |].
  apply Z.ltb_ge. auto.
Qed.

(** When the guard passes and the store accepts both statements, the
    handler ends normally, the ledger has one more row and the rows of
    the product carry the new quantity. *)
Lemma handleSubmit_accepted (db : Db) :
  (type formData = OUT -> q <= Product.quantity product) ->
  caller_is_active db uid = true ->
  has_product db (product_id formData) = true ->
  has_user db userId = true ->
  existsb (fun t => String.eqb (StockTransaction.id t) g) (stock_transactions db) = false ->
  in_int4 q = true ->
  in_int4 (newQuantity_of formData product q) = true ->
  handleSubmit snapshot userId formData uid t1 g t2 db =
  (mkDb (auth_users db) (profiles db) (categories db)
     (products_after formData uid t2 g (newQuantity_of formData product q) (products db))
     (stock_transactions db ++ [ledger_row userId formData g t1 q]),
   Ok tt).
Proof.
  intros Hguard Hact Hprod Huser Hfresh Hq Hnew.
  unfold handleSubmit. rewrite Hfound, Hparsed, (guard_passes Hguard).
  unfold bind, request, insert_stock_transactions,
    policy_stock_transactions_insert. simpl.
  rewrite Hq, Hact, Hfresh, Hprod, Huser. simpl.
  assert (Hn : match type formData with
               | IN => Int (Product.quantity product + q)
               | OUT => Int (Product.quantity product - q)
               end = Int (newQuantity_of formData product q))
    by (unfold newQuantity_of; destruct (type formData); reflexivity).
  rewrite Hn. unfold update_products, policy_products_update. simpl.
  rewrite Hnew. unfold caller_is_active in *. simpl. rewrite Hact.
  unfold has_product in *. simpl. rewrite Hprod. simpl.
  reflexivity.
Qed.

End StockMovement.

(** C1. An OUT movement whose quantity exceeds the quantity of the
    product row used for the check (the row found in the [products]
    prop) ends with [InsufficientStock] and the store is exactly as it
    was: no ledger row, same product rows. *)
Theorem out_beyond_stock_fails_without_writes
    (snapshot : list Product.t) (userId : uuid) (formData : StockModal.FormData)
    (uid : uuid) (t1 : timestamptz) (g : uuid) (t2 : timestamptz)
    (product : Product.t) (q : Z) (db : Db) :
  find (fun p => String.eqb (Product.id p) (StockModal.product_id formData)) snapshot
  = Some product ->
  parseInt (StockModal.quantity formData) = Int q ->
  StockModal.type formData = OUT ->
  Product.quantity product < q ->
  StockModal.handleSubmit snapshot userId formData uid t1 g t2 db
  = (db, Error InsufficientStock).
Proof.
  intros Hf Hp Ht Hlt. now apply handleSubmit_insufficient with (product := product) (q := q).
Qed.

Lemma out_beyond_stock_fails_without_writes_witness :
  StockModal.handleSubmit [Scenario.widget 3] "u1" (Scenario.movement OUT "5")
    "u1" 2 "t1" 3 (Scenario.shop 3)
  = (Scenario.shop 3, Error InsufficientStock).
Proof.
  apply (out_beyond_stock_fails_without_writes
           [Scenario.widget 3] "u1" (Scenario.movement OUT "5") "u1" 2 "t1" 3
           (Scenario.widget 3) 5 (Scenario.shop 3)).
  - reflexivity.
  - reflexivity.
  - reflexivity.
  - simpl. lia.
Defined.

(** The handler ends with [InsufficientStock] only through its own
    guard. *)
Lemma handleSubmit_insufficient_iff
    (snapshot : list Product.t) (userId : uuid) (formData : StockModal.FormData)
    (uid : uuid) (t1 : timestamptz) (g : uuid) (t2 : timestamptz)
    (product : Product.t) (db : Db) :
  find (fun p => String.eqb (Product.id p) (StockModal.product_id formData)) snapshot
  = Some product ->
  (snd (StockModal.handleSubmit snapshot userId formData uid t1 g t2 db)
   = Error InsufficientStock
   <->
   StockModal.type formData = OUT /\
   exists q, parseInt (StockModal.quantity formData) = Int q /\
             Product.quantity product < q).
Proof.
  intros Hf. split.
  - unfold StockModal.handleSubmit. rewrite Hf.
    destruct (TxType_eqb (StockModal.type formData) OUT &&
              number_lt (Int (Product.quantity product))
                (parseInt (StockModal.quantity formData))) eqn:G.
    + intros _. apply andb_true_iff in G. destruct G as [G1 G2]. split.
      * destruct (StockModal.type formData); [discriminate | reflexivity].
      * destruct (parseInt (StockModal.quantity formData)) as [| z]; [discriminate |].
        exists z. split; [reflexivity |]. now apply Z.ltb_lt.
    + unfold bind, request.
      destruct (insert_stock_transactions _ _ db) as [db1 | e]; simpl;
        [| discriminate].
      destruct (update_products _ _ _ db1) as [db2 | e]; simpl; discriminate.
  - intros [Ht [q [Hp Hlt]]].
    erewrite handleSubmit_insufficient; eauto.
Qed.

(** C2, as the code has it.  The handler reads nothing from the store
    before its check: the product is looked up in the [products] prop,
    the list the page loaded when it mounted or when a modal last
    closed, and an OUT movement is refused with [InsufficientStock]
    exactly when the quantity of that row is below the requested one,
    whatever the store holds when the movement is submitted. *)
Theorem sufficiency_checked_against_loaded_list
    (snapshot : list Product.t) (userId : uuid) (formData : StockModal.FormData)
    (uid : uuid) (t1 : timestamptz) (g : uuid) (t2 : timestamptz)
    (product : Product.t) (q : Z) (db : Db) :
  find (fun p => String.eqb (Product.id p) (StockModal.product_id formData)) snapshot
  = Some product ->
  parseInt (StockModal.quantity formData) = Int q ->
  StockModal.type formData = OUT ->
  (snd (StockModal.handleSubmit snapshot userId formData uid t1 g t2 db)
   = Error InsufficientStock
   <-> Product.quantity product < q).
Proof.
  intros Hf Hp Ht.
  rewrite (handleSubmit_insufficient_iff snapshot userId formData uid t1 g t2 product db Hf).
  split.
  - intros [_ [q' [Hp' Hlt]]]. rewrite Hp in Hp'. now inversion Hp'.
  - intros Hlt. split; [assumption |]. now exists q.
Qed.

Lemma sufficiency_checked_against_loaded_list_witness :
  snd (StockModal.handleSubmit [Scenario.widget 10] "u1" (Scenario.movement OUT "5")
         "u1" 4 "t2" 5 (Scenario.shop 2))
  = Error InsufficientStock
  <-> 10 < 5.
Proof.
  apply (sufficiency_checked_against_loaded_list
           [Scenario.widget 10] "u1" (Scenario.movement OUT "5") "u1" 4 "t2" 5
           (Scenario.widget 10) 5 (Scenario.shop 2)); reflexivity.
Defined.

(** C2, as the claim has it, fails.  Two sessions load the page while
    the store holds 10 widgets.  The first takes 8 out, so 2 are stored
    when the second submits an OUT of 5: the check still sees the 10 of
    the list loaded earlier, the movement goes through, and the product
    is set to 10 - 5. *)
Lemma stale_list_passes_the_check :
  let page := products (Scenario.shop 10) in
  let first := StockModal.handleSubmit page "u2" (Scenario.movement OUT "8")
                 "u2" 2 "t1" 3 (Scenario.shop 10) in
  let second := StockModal.handleSubmit page "u1" (Scenario.movement OUT "5")
                  "u1" 4 "t2" 5 (fst first) in
  loadProducts (Scenario.shop 10) page /\
  snd first = Ok tt /\
  option_map Product.quantity (stored_product (fst first) "p1") = Some 2 /\
  parseInt (StockModal.quantity (Scenario.movement OUT "5")) = Int 5 /\
  snd second = Ok tt /\
  option_map Product.quantity (stored_product (fst second) "p1") = Some 5 /\
  List.length (stock_transactions (fst second)) = 2%nat.
Proof.
  cbv zeta. split; [apply Permutation_refl |].
  repeat split; vm_compute; reflexivity.
Qed.

(* ===================================================================== *)
(** ** Looking a product up by its primary key *)
(* ===================================================================== *)

Lemma same_key_same_row {A : Type} (key : A -> uuid) (rows : list A) (a b : A) :
  NoDup (map key rows) ->
  In a rows -> In b rows -> key a = key b -> a = b.
Proof.
  induction rows as [| r rows IH]; simpl; intros Hnd Ha Hb Hid; [contradiction |].
  inversion Hnd as [| x l Hnotin Hnd' ]; subst.
  destruct Ha as [Ha | Ha], Hb as [Hb | Hb]; subst.
  - reflexivity.
  - exfalso. apply Hnotin. rewrite Hid. now apply in_map.
  - exfalso. apply Hnotin. rewrite <- Hid. now apply in_map.
  - now apply IH.
Qed.

Lemma find_by_id_some (rows : list Product.t) (pid : uuid) (p : Product.t) :
  find (fun r => String.eqb (Product.id r) pid) rows = Some p ->
  In p rows /\ Product.id p = pid.
Proof.
  intros H. apply find_some in H. destruct H as [Hin He].
  split; [assumption | now apply String.eqb_eq].
Qed.

Lemma find_by_id_complete (rows : list Product.t) (pid : uuid) (p : Product.t) :
  NoDup (map Product.id rows) ->
  In p rows -> Product.id p = pid ->
  find (fun r => String.eqb (Product.id r) pid) rows = Some p.
Proof.
  intros Hnd Hin Hid.
  destruct (find (fun r => String.eqb (Product.id r) pid) rows) as [p' |] eqn:F.
  - apply find_by_id_some in F. destruct F as [Hin' Hid'].
    f_equal. apply (same_key_same_row Product.id rows); congruence.
  - exfalso. apply (find_none _ _ F) in Hin. simpl in Hin.
    rewrite Hid, String.eqb_refl in Hin. discriminate.
Qed.

(** A list loaded from the store finds, under a key, the row the store
    has under it. *)
Lemma find_in_loaded_list (db : Db) (page : list Product.t) (pid : uuid) :
  NoDup (map Product.id (products db)) ->
  loadProducts db page ->
  find (fun r => String.eqb (Product.id r) pid) page = stored_product db pid.
Proof.
  unfold loadProducts, stored_product. intros Hnd Hperm.
  assert (Hnd' : NoDup (map Product.id page)).
  { apply Permutation_NoDup with (l := map Product.id (products db)); [| assumption].
    apply Permutation_map. now apply Permutation_sym. }
  destruct (find (fun r => String.eqb (Product.id r) pid) (products db)) as [p |] eqn:F.
  - apply find_by_id_some in F. destruct F as [Hin Hid].
    apply find_by_id_complete; try assumption.
    apply Permutation_in with (l := products db); [now apply Permutation_sym | assumption].
  - destruct (find (fun r => String.eqb (Product.id r) pid) page) as [p' |] eqn:F';
      [| reflexivity].
    exfalso. apply find_by_id_some in F'. destruct F' as [Hin Hid].
    apply (Permutation_in _ Hperm) in Hin.
    apply (find_none _ _ F) in Hin. simpl in Hin.
    rewrite Hid, String.eqb_refl in Hin. discriminate.
Qed.

Lemma stored_product_has (db : Db) (pid : uuid) (p : Product.t) :
  stored_product db pid = Some p -> has_product db pid = true.
Proof.
  unfold stored_product, has_product. intros H. apply find_some in H.
  apply existsb_exists. now exists p.
Qed.

Lemma products_after_ids (formData : StockModal.FormData) (uid : uuid)
    (t2 : timestamptz) (g : uuid) (n : Z) (rows : list Product.t) :
  map Product.id (StockModal.products_after formData uid t2 g n rows)
  = map Product.id rows.
Proof.
  unfold StockModal.products_after. rewrite map_map. apply map_ext.
  intros p. now destruct (String.eqb (Product.id p) (StockModal.product_id formData)).
Qed.

Lemma products_after_find (formData : StockModal.FormData) (uid : uuid)
    (t2 : timestamptz) (g : uuid) (n : Z) (rows : list Product.t) (p : Product.t) :
  find (fun r => String.eqb (Product.id r) (StockModal.product_id formData)) rows = Some p ->
  find (fun r => String.eqb (Product.id r) (StockModal.product_id formData))
       (StockModal.products_after formData uid t2 g n rows)
  = Some (update_product_row (mkCtx uid t2 g) (StockModal.quantity_update n) p).
Proof.
  unfold StockModal.products_after.
  induction rows as [| r rows IH]; simpl; [discriminate |].
  destruct (String.eqb (Product.id r) (StockModal.product_id formData)) eqn:E.
  - intros H. inversion H; subst. simpl. rewrite E. reflexivity.
  - intros H. rewrite E. now apply IH.
Qed.

(** Rows of other products are not touched by the handler's update. *)
Lemma products_after_other (formData : StockModal.FormData) (uid : uuid)
    (t2 : timestamptz) (g : uuid) (n : Z) (rows : list Product.t) (pid : uuid) :
  pid <> StockModal.product_id formData ->
  find (fun r => String.eqb (Product.id r) pid)
       (StockModal.products_after formData uid t2 g n rows)
  = find (fun r => String.eqb (Product.id r) pid) rows.
Proof.
  intros Hne. unfold StockModal.products_after.
  induction rows as [| r rows IH]; simpl; [reflexivity |].
  destruct (String.eqb (Product.id r) (StockModal.product_id formData)) eqn:E.
  - simpl. apply String.eqb_eq in E.
    destruct (String.eqb_spec (Product.id r) pid) as [E' | _]; [congruence | apply IH].
  - destruct (String.eqb (Product.id r) pid); [reflexivity | apply IH].
Qed.

(* ===================================================================== *)
(** ** The generated column *)
(* ===================================================================== *)

(** Takes a statement that succeeded apart along its tests. *)
Ltac split_statement H :=
  repeat match type of H with
         | (if ?c then _ else _) = Ok _ => destruct c eqn:?; try discriminate H
         | match ?x with _ => _ end = Ok _ => destruct x eqn:?; try discriminate H
         end;
  try (injection H as H; subst).

Lemma updated_row_status (cx : Ctx) (payload : ProductPayload.t) (p : Product.t) :
  Product.status (update_product_row cx payload p)
  = classify (Product.quantity (update_product_row cx payload p)).
Proof. reflexivity. Qed.

Lemma set_null_row_status (cx : Ctx) (cid : uuid) (p : Product.t) :
  Product.status p = classify (Product.quantity p) ->
  Product.status (set_null_category cx cid p)
  = classify (Product.quantity (set_null_category cx cid p)).
Proof.
  intros H. unfold set_null_category.
  destruct (opt_eqb (Product.category_id p) cid); [reflexivity | exact H].
Qed.

Lemma exec_keeps_status_derived (cx : Ctx) (r : Request) (db db' : Db) :
  status_derived db -> exec cx r db = Ok db' -> status_derived db'.
Proof.
  unfold status_derived. intros Hinv Hexec.
  destruct r; simpl in Hexec.
  - unfold sign_up in Hexec. split_statement Hexec. exact Hinv.
  - unfold update_profiles in Hexec. split_statement Hexec. exact Hinv.
  - unfold insert_categories in Hexec. split_statement Hexec. exact Hinv.
  - unfold update_categories in Hexec. split_statement Hexec; exact Hinv.
  - unfold delete_categories in Hexec. split_statement Hexec; try exact Hinv.
    simpl. apply Forall_map. eapply Forall_impl; [| exact Hinv].
    intros p. apply set_null_row_status.
  - unfold insert_products in Hexec. split_statement Hexec.
    simpl. apply Forall_app. split; [exact Hinv |]. constructor; [reflexivity | constructor].
  - unfold update_products in Hexec. split_statement Hexec; try exact Hinv.
    simpl. apply Forall_map. eapply Forall_impl; [| exact Hinv].
    intros p Hp. simpl.
    destruct (String.eqb (Product.id p) id); [apply updated_row_status | exact Hp].
  - unfold delete_products in Hexec. split_statement Hexec; try exact Hinv.
    simpl. apply Forall_forall. intros p Hp. apply filter_In in Hp.
    destruct Hp as [Hp _]. revert p Hp. now apply Forall_forall.
  - unfold insert_stock_transactions in Hexec. split_statement Hexec. exact Hinv.
  - unfold update_stock_transactions in Hexec. split_statement Hexec; exact Hinv.
  - unfold delete_stock_transactions in Hexec. split_statement Hexec. exact Hinv.
  - unfold insert_profiles in Hexec. split_statement Hexec. exact Hinv.
  - unfold delete_profiles in Hexec. split_statement Hexec. exact Hinv.
Qed.

(** A statement that names [status] is refused, whoever sends it. *)
Lemma status_not_settable (cx : Ctx) (payload : ProductPayload.t) (pid : uuid)
    (s : Status) (db : Db) :
  ProductPayload.status payload = Some s ->
  insert_products cx payload db = Error generated_always /\
  update_products cx payload pid db = Error generated_always.
Proof.
  intros H. unfold insert_products, update_products. rewrite H. simpl. split; reflexivity.
Qed.

Lemma reachable_status_derived (db : Db) : reachable db -> status_derived db.
Proof.
  intros Hreach.
  induction Hreach as [db [_ [Hp _]] | db cx r db' _ IH Hexec | db uid _ IH].
  - unfold status_derived. rewrite Hp. constructor.
  - eapply exec_keeps_status_derived; eassumption.
  - unfold status_derived, delete_account in *. now destruct (has_user db uid).
Qed.

(* ===================================================================== *)
(** ** Primary keys *)
(* ===================================================================== *)

Lemma NoDup_map_filter {A : Type} (key : A -> uuid) (f : A -> bool) (l : list A) :
  NoDup (map key l) -> NoDup (map key (filter f l)).
Proof.
  induction l as [| a l IH]; simpl; intros H; [constructor |].
  inversion H as [| x xs Hnotin Hnd]; subst.
  destruct (f a); simpl; [| now apply IH].
  constructor; [| now apply IH].
  intros Hin. apply Hnotin. apply in_map_iff in Hin. destruct Hin as [b [Hb Hin]].
  apply filter_In in Hin. rewrite <- Hb. apply in_map. tauto.
Qed.

Lemma NoDup_map_snoc {A : Type} (key : A -> uuid) (l : list A) (a : A) :
  NoDup (map key l) ->
  existsb (fun r => String.eqb (key r) (key a)) l = false ->
  NoDup (map key (l ++ [a])).
Proof.
  intros Hnd Hfresh. rewrite map_app. simpl.
  apply NoDup_app; [exact Hnd | constructor; [intros [] | constructor] |].
  intros k Hin [Hk | []]. subst k.
  apply in_map_iff in Hin. destruct Hin as [b [Hb Hin]].
  assert (existsb (fun r => String.eqb (key r) (key a)) l = true).
  { apply existsb_exists. exists b. split; [exact Hin |]. rewrite Hb. apply String.eqb_refl. }
  congruence.
Qed.

Lemma map_key_kept {A : Type} (key : A -> uuid) (h : A -> A) (l : list A) :
  (forall a, key (h a) = key a) -> map key (map h l) = map key l.
Proof. intros H. rewrite map_map. apply map_ext. exact H. Qed.

Lemma exec_keeps_pk_unique (cx : Ctx) (r : Request) (db db' : Db) :
  pk_unique db -> exec cx r db = Ok db' -> pk_unique db'.
Proof.
  unfold pk_unique. intros [Hprod [Hprof Hled]] Hexec.
  destruct r; simpl in Hexec.
  - unfold sign_up in Hexec. split_statement Hexec. simpl.
    repeat split; try assumption.
    match goal with
    | Hn : _ || _ = false |- _ => apply orb_false_iff in Hn; destruct Hn as [_ Hn]
    end.
    now apply NoDup_map_snoc.
  - unfold update_profiles in Hexec. split_statement Hexec. simpl.
    repeat split; try assumption.
    rewrite map_key_kept; [exact Hprof |].
    intros p. now destruct (_ && _).
  - unfold insert_categories in Hexec. split_statement Hexec. simpl. tauto.
  - unfold update_categories in Hexec. split_statement Hexec; simpl; tauto.
  - unfold delete_categories in Hexec. split_statement Hexec; simpl; try tauto.
    repeat split; try assumption.
    rewrite map_key_kept; [exact Hprod |].
    intros p. unfold set_null_category. now destruct (opt_eqb _ _).
  - unfold insert_products in Hexec. split_statement Hexec. simpl.
    repeat split; try assumption.
    match goal with
    | Hn : _ || _ = false |- _ => apply orb_false_iff in Hn; destruct Hn as [Hn _]
    end.
    now apply NoDup_map_snoc.
  - unfold update_products in Hexec. split_statement Hexec; simpl; try tauto.
    repeat split; try assumption.
    rewrite map_key_kept; [exact Hprod |].
    intros p. now destruct (String.eqb _ _).
  - unfold delete_products in Hexec. split_statement Hexec; simpl; try tauto.
    repeat split; try assumption; now apply NoDup_map_filter.
  - unfold insert_stock_transactions in Hexec. split_statement Hexec. simpl.
    repeat split; try assumption.
    now apply NoDup_map_snoc.
  - unfold update_stock_transactions in Hexec.
    split_statement Hexec; [repeat split; assumption |]. simpl.
    repeat split; try assumption.
    rewrite map_key_kept; [exact Hled |].
    intros t. now destruct (_ && _).
  - unfold delete_stock_transactions in Hexec. split_statement Hexec. simpl.
    repeat split; try assumption. now apply NoDup_map_filter.
  - unfold insert_profiles in Hexec. split_statement Hexec. simpl.
    repeat split; try assumption. now apply NoDup_map_snoc.
  - unfold delete_profiles in Hexec. split_statement Hexec. simpl.
    repeat split; try assumption. now apply NoDup_map_filter.
Qed.

Lemma reachable_pk_unique (db : Db) : reachable db -> pk_unique db.
Proof.
  intros Hreach.
  induction Hreach as [db [Hpf [Hp Hl]] | db cx r db' _ IH Hexec | db uid _ IH].
  - unfold pk_unique. rewrite Hpf, Hp, Hl. repeat split; constructor.
  - eapply exec_keeps_pk_unique; eassumption.
  - unfold pk_unique, delete_account in *. destruct IH as [Hp [Hf Hl]].
    destruct (has_user db uid); simpl; repeat split; try assumption;
      now apply NoDup_map_filter.
Qed.

(* ===================================================================== *)
(** ** Handlers only make requests *)
(* ===================================================================== *)

Lemma request_reachable (cx : Ctx) (r : Request) (db : Db) :
  reachable db -> reachable (fst (request (exec cx r) db)).
Proof.
  intros H. unfold request. destruct (exec cx r db) as [db' |] eqn:E; simpl.
  - eapply reachable_exec; eassumption.
  - exact H.
Qed.

Lemma bind_reachable {A B : Type} (m : App A) (k : A -> App B) (db : Db) :
  reachable (fst (m db)) ->
  (forall a db1, reachable db1 -> reachable (fst (k a db1))) ->
  reachable (fst (bind m k db)).
Proof.
  intros Hm Hk. unfold bind. destruct (m db) as [db1 [a | e]]; simpl in *; auto.
Qed.

Lemma stock_movement_reachable
    (snapshot : list Product.t) (userId : uuid) (formData : StockModal.FormData)
    (uid : uuid) (t1 : timestamptz) (g : uuid) (t2 : timestamptz) (db : Db) :
  reachable db ->
  reachable (fst (StockModal.handleSubmit snapshot userId formData uid t1 g t2 db)).
Proof.
  intros H. unfold StockModal.handleSubmit.
  destruct (find _ snapshot) as [product |]; [| exact H].
  destruct (_ && _); [exact H |].
  apply bind_reachable.
  - exact (request_reachable (mkCtx uid t1 g)
             (InsertStockTransaction
                (StockTransactionPayload.mk (StockModal.product_id formData) userId
                   (to_json (parseInt (StockModal.quantity formData)))
                   (StockModal.type formData) (StockModal.notes formData)))
             db H).
  - intros _ db1 H1.
    match goal with
    | |- context [update_products ?cx ?payload ?pid] =>
        exact (request_reachable cx (UpdateProduct payload pid) db1 H1)
    end.
Qed.

Lemma product_save_reachable (parseFloat : string -> option Z)
    (product : option Product.t) (formData : ProductModal.FormData)
    (uid : uuid) (t : timestamptz) (g : uuid) (db : Db) :
  reachable db ->
  reachable (fst (ProductModal.handleSubmit parseFloat product formData uid t g db)).
Proof.
  intros H. unfold ProductModal.handleSubmit. destruct product as [p |].
  - exact (request_reachable (mkCtx uid t g)
             (UpdateProduct (ProductModal.payload_of parseFloat formData) (Product.id p)) db H).
  - exact (request_reachable (mkCtx uid t g)
             (InsertProduct (ProductModal.payload_of parseFloat formData)) db H).
Qed.

Lemma product_delete_reachable (confirmed : bool) (id uid : uuid) (t : timestamptz)
    (db : Db) :
  reachable db -> reachable (fst (Products.handleDelete confirmed id uid t db)).
Proof.
  intros H. unfold Products.handleDelete. destruct confirmed; simpl; [| exact H].
  exact (request_reachable (mkCtx uid t "") (DeleteProduct id) db H).
Qed.

Lemma category_delete_reachable (confirmed : bool) (id uid : uuid) (t : timestamptz)
    (db : Db) :
  reachable db -> reachable (fst (Categories.handleDelete confirmed id uid t db)).
Proof.
  intros H. unfold Categories.handleDelete. destruct confirmed; simpl; [| exact H].
  exact (request_reachable (mkCtx uid t "") (DeleteCategory id) db H).
Qed.

Lemma user_update_reachable (userId : uuid) (currentStatus confirmed : bool)
    (newRole : Role) (uid : uuid) (t : timestamptz) (db : Db) :
  reachable db ->
  reachable (fst (Users.toggleUserStatus userId currentStatus uid t db)) /\
  reachable (fst (Users.updateUserRole confirmed userId newRole uid t db)).
Proof.
  intros H. split.
  - exact (request_reachable (mkCtx uid t "")
             (UpdateProfile (ProfilePayload.mk None None (Some (Some (negb currentStatus))))
                userId) db H).
  - unfold Users.updateUserRole. destruct confirmed; simpl; [| exact H].
    exact (request_reachable (mkCtx uid t "")
             (UpdateProfile (ProfilePayload.mk None (Some newRole) None) userId) db H).
Qed.

Lemma run_reachable (script : list (Ctx * Request)) (db db' : Db) :
  reachable db -> run script db = Ok db' -> reachable db'.
Proof.
  revert db. induction script as [| [cx r] rest IH]; simpl; intros db Hreach Hrun.
  - injection Hrun as <-. exact Hreach.
  - destruct (exec cx r db) as [db1 |] eqn:E; [| discriminate].
    apply (IH db1); [| exact Hrun]. eapply reachable_exec; eassumption.
Qed.

Lemma empty_shop_reachable : reachable Scenario.empty_shop.
Proof.
  apply run_reachable with (script := Scenario.opening) (db := Scenario.fresh_install).
  - apply reachable_migrated. repeat split; reflexivity.
  - reflexivity.
Qed.

Lemma shop_reachable (quantity : Z) :
  in_int4 quantity = true -> reachable (Scenario.shop quantity).
Proof.
  intros Hq.
  apply reachable_exec with (db := Scenario.empty_shop) (cx := mkCtx "u1" 1 "p1")
                            (r := InsertProduct (ScenarioRequests.new_widget quantity)).
  - exact empty_shop_reachable.
  - simpl. unfold insert_products. simpl. rewrite Hq. reflexivity.
Qed.


(** C4. In every state the store can reach, the status of every product
    row is the classification of its quantity: each statement that
    writes a product row computes the status from the quantity it
    stores, and a request that names [status] itself is refused. *)
Theorem status_always_derived (db : Db) :
  reachable db ->
  (forall p, In p (products db) -> Product.status p = classify (Product.quantity p)) /\
  (forall cx payload pid s,
     ProductPayload.status payload = Some s ->
     insert_products cx payload db = Error generated_always /\
     update_products cx payload pid db = Error generated_always).
Proof.
  intros Hreach. split.
  - apply Forall_forall. now apply reachable_status_derived.
  - intros cx payload pid s H. now apply status_not_settable with (s := s).
Qed.

Lemma status_always_derived_witness :
  (forall p, In p (products (Scenario.shop 3)) ->
             Product.status p = classify (Product.quantity p)) /\
  (forall cx payload pid s,
     ProductPayload.status payload = Some s ->
     insert_products cx payload (Scenario.shop 3) = Error generated_always /\
     update_products cx payload pid (Scenario.shop 3) = Error generated_always).
Proof.
  apply (status_always_derived (Scenario.shop 3)).
  apply shop_reachable. reflexivity.
Defined.


(* ===================================================================== *)
(** ** Movements the store accepts *)
(* ===================================================================== *)

(** What an accepted movement leaves in the store. *)
Lemma accepted_movement
    (snapshot : list Product.t) (userId : uuid) (formData : StockModal.FormData)
    (uid : uuid) (t1 : timestamptz) (g : uuid) (t2 : timestamptz)
    (product : Product.t) (q : Z) (db : Db) :
  find (fun p => String.eqb (Product.id p) (StockModal.product_id formData)) snapshot
  = Some product ->
  parseInt (StockModal.quantity formData) = Int q ->
  (StockModal.type formData = OUT -> q <= Product.quantity product) ->
  caller_is_active db uid = true ->
  has_product db (StockModal.product_id formData) = true ->
  has_user db userId = true ->
  existsb (fun t => String.eqb (StockTransaction.id t) g) (stock_transactions db) = false ->
  in_int4 q = true ->
  in_int4 (StockModal.newQuantity_of formData product q) = true ->
  exists db',
    StockModal.handleSubmit snapshot userId formData uid t1 g t2 db = (db', Ok tt) /\
    products db' =
      StockModal.products_after formData uid t2 g
        (StockModal.newQuantity_of formData product q) (products db) /\
    stock_transactions db' =
      stock_transactions db ++ [StockModal.ledger_row userId formData g t1 q] /\
    exists p',
      stored_product db' (StockModal.product_id formData) = Some p' /\
      Product.quantity p' = StockModal.newQuantity_of formData product q /\
      Product.status p' = classify (Product.quantity p').
Proof.
  intros Hf Hp Hguard Hact Hprod Huser Hfresh Hq Hnew.
  eexists. split.
  { eapply handleSubmit_accepted; eassumption. }
  split; [reflexivity |]. split; [reflexivity |].
  unfold has_product in Hprod.
  destruct (stored_product db (StockModal.product_id formData)) as [p0 |] eqn:F.
  - eexists. split.
    + unfold stored_product in *. simpl. apply products_after_find. eassumption.
    + split; reflexivity.
  - exfalso. unfold stored_product in F.
    apply existsb_exists in Hprod. destruct Hprod as [x [Hin He]].
    apply (find_none _ _ F) in Hin. simpl in Hin. congruence.
Qed.

(** C5. A movement that passes the handler's checks and that the store
    accepts persists [current + quantity] for IN and
    [current - quantity] for OUT, where [current] is the quantity of the
    row the handler read (the one in its [products] prop): the update
    names that value and no other column, and the stored row of the
    product carries it afterwards, with the status derived from it. *)
Theorem movement_persists_new_quantity
    (snapshot : list Product.t) (userId : uuid) (formData : StockModal.FormData)
    (uid : uuid) (t1 : timestamptz) (g : uuid) (t2 : timestamptz)
    (product : Product.t) (q : Z) (db : Db) :
  find (fun p => String.eqb (Product.id p) (StockModal.product_id formData)) snapshot
  = Some product ->
  parseInt (StockModal.quantity formData) = Int q ->
  (StockModal.type formData = OUT -> q <= Product.quantity product) ->
  caller_is_active db uid = true ->
  has_product db (StockModal.product_id formData) = true ->
  has_user db userId = true ->
  existsb (fun t => String.eqb (StockTransaction.id t) g) (stock_transactions db) = false ->
  in_int4 q = true ->
  in_int4 (StockModal.newQuantity_of formData product q) = true ->
  exists db',
    StockModal.handleSubmit snapshot userId formData uid t1 g t2 db = (db', Ok tt) /\
    products db' =
      StockModal.products_after formData uid t2 g
        (match StockModal.type formData with
         | IN => Product.quantity product + q
         | OUT => Product.quantity product - q
         end)
        (products db) /\
    exists p',
      stored_product db' (StockModal.product_id formData) = Some p' /\
      Product.quantity p' =
        match StockModal.type formData with
        | IN => Product.quantity product + q
        | OUT => Product.quantity product - q
        end /\
      Product.status p' = classify (Product.quantity p').
Proof.
  intros Hf Hp Hguard Hact Hprod Huser Hfresh Hq Hnew.
  destruct (accepted_movement snapshot userId formData uid t1 g t2 product q db)
    as [db' [Hrun [Hrows [_ [p' [Hst [Hqty Hstatus]]]]]]]; try assumption.
  exists db'. split; [assumption |]. split; [assumption |].
  exists p'. repeat split; assumption.
Qed.

Lemma movement_persists_new_quantity_witness :
  exists db',
    StockModal.handleSubmit [Scenario.widget 3] "u1" (Scenario.movement IN "2")
      "u1" 2 "t1" 3 (Scenario.shop 3) = (db', Ok tt) /\
    products db' =
      StockModal.products_after (Scenario.movement IN "2") "u1" 3 "t1" (3 + 2)
        [Scenario.widget 3] /\
    exists p',
      stored_product db' "p1" = Some p' /\
      Product.quantity p' = 3 + 2 /\
      Product.status p' = classify (Product.quantity p').
Proof.
  apply (movement_persists_new_quantity
           [Scenario.widget 3] "u1" (Scenario.movement IN "2") "u1" 2 "t1" 3
           (Scenario.widget 3) 2 (Scenario.shop 3)).
  - reflexivity.
  - reflexivity.
  - simpl. intros H. discriminate H.
  - reflexivity.
  - reflexivity.
  - reflexivity.
  - reflexivity.
  - reflexivity.
  - reflexivity.
Defined.

(** C10. The handler compares nothing but [product.quantity < quantity]
    on an OUT movement: whatever the sign of the parsed quantity, it
    ends with [InsufficientStock] exactly when the direction is OUT and
    the row it read holds less than the quantity.  So an OUT movement
    with a negative quantity [q] on a product holding a non-negative
    quantity passes; when the store accepts the two statements, the
    ledger gains a row carrying [q] and the product is set to
    [current - q], which is more than it held. *)
Theorem negative_out_raises_stock
    (snapshot : list Product.t) (userId : uuid) (formData : StockModal.FormData)
    (uid : uuid) (t1 : timestamptz) (g : uuid) (t2 : timestamptz)
    (product : Product.t) (q : Z) (db : Db) :
  find (fun p => String.eqb (Product.id p) (StockModal.product_id formData)) snapshot
  = Some product ->
  parseInt (StockModal.quantity formData) = Int q ->
  (forall db0,
     snd (StockModal.handleSubmit snapshot userId formData uid t1 g t2 db0)
     = Error InsufficientStock
     <-> StockModal.type formData = OUT /\ Product.quantity product < q) /\
  (StockModal.type formData = OUT ->
   q < 0 ->
   0 <= Product.quantity product ->
   caller_is_active db uid = true ->
   has_product db (StockModal.product_id formData) = true ->
   has_user db userId = true ->
   existsb (fun t => String.eqb (StockTransaction.id t) g) (stock_transactions db) = false ->
   in_int4 q = true ->
   in_int4 (Product.quantity product - q) = true ->
   exists db',
     StockModal.handleSubmit snapshot userId formData uid t1 g t2 db = (db', Ok tt) /\
     stock_transactions db' =
       stock_transactions db ++
       [StockTransaction.mk g (StockModal.product_id formData) userId q OUT
          (StockModal.notes formData) t1] /\
     exists p',
       stored_product db' (StockModal.product_id formData) = Some p' /\
       Product.quantity p' = Product.quantity product - q /\
       Product.quantity product < Product.quantity p').
Proof.
  intros Hf Hp. split.
  - intros db0.
    rewrite (handleSubmit_insufficient_iff snapshot userId formData uid t1 g t2 product db0 Hf).
    split.
    + intros [Ht [q' [Hp' Hlt]]]. rewrite Hp in Hp'. inversion Hp'. now subst.
    + intros [Ht Hlt]. split; [assumption |]. now exists q.
  - intros Ht Hneg Hnonneg Hact Hprod Huser Hfresh Hq Hnew.
    assert (Hn : StockModal.newQuantity_of formData product q = Product.quantity product - q)
      by (unfold StockModal.newQuantity_of; now rewrite Ht).
    destruct (accepted_movement snapshot userId formData uid t1 g t2 product q db)
      as [db' [Hrun [_ [Hledger [p' [Hst [Hqty _]]]]]]]; try assumption.
    + intros _. lia.
    + now rewrite Hn.
    + exists db'. split; [assumption |]. split.
      * rewrite Hledger. unfold StockModal.ledger_row. now rewrite Ht.
      * exists p'. rewrite Hn in Hqty. repeat split; try assumption. lia.
Qed.

Lemma negative_out_raises_stock_witness :
  exists db',
    StockModal.handleSubmit [Scenario.widget 3] "u1" (Scenario.movement OUT "-4")
      "u1" 2 "t1" 3 (Scenario.shop 3) = (db', Ok tt) /\
    stock_transactions db' = [StockTransaction.mk "t1" "p1" "u1" (-4) OUT "" 2] /\
    exists p',
      stored_product db' "p1" = Some p' /\
      Product.quantity p' = 3 - (-4) /\
      3 < Product.quantity p'.
Proof.
  apply (negative_out_raises_stock
           [Scenario.widget 3] "u1" (Scenario.movement OUT "-4") "u1" 2 "t1" 3
           (Scenario.widget 3) (-4) (Scenario.shop 3)).
  - reflexivity.
  - reflexivity.
  - reflexivity.
  - lia.
  - simpl. lia.
  - reflexivity.
  - reflexivity.
  - reflexivity.
  - reflexivity.
  - reflexivity.
  - reflexivity.
Defined.

(** C6. On a product that holds 0 and has no ledger row, an IN of [q]
    followed by an OUT of [q] (the page reloading its product list when
    the modal closes, as [handleModalClose] does) leaves the product at
    0 with status [out_of_stock] and exactly two ledger rows for it.
    The store is in a reachable state, [q] is any positive value of the
    [integer] column, the acting user is active and the two generated
    ids are new. *)
Theorem in_then_out_returns_to_zero
    (db : Db) (page0 : list Product.t) (userId uid pid : uuid)
    (s_in s_out notes_in notes_out : string) (q : Z)
    (t1 t2 t3 t4 : timestamptz) (g1 g2 : uuid) (p0 : Product.t) :
  reachable db ->
  loadProducts db page0 ->
  stored_product db pid = Some p0 ->
  Product.quantity p0 = 0 ->
  ledger_of db pid = [] ->
  caller_is_active db uid = true ->
  has_user db userId = true ->
  parseInt s_in = Int q ->
  parseInt s_out = Int q ->
  0 < q <= int4_max ->
  existsb (fun t => String.eqb (StockTransaction.id t) g1) (stock_transactions db) = false ->
  existsb (fun t => String.eqb (StockTransaction.id t) g2) (stock_transactions db) = false ->
  g1 <> g2 ->
  exists db1,
    StockModal.handleSubmit page0 userId (StockModal.mkFormData pid IN s_in notes_in)
      uid t1 g1 t2 db = (db1, Ok tt) /\
    forall page1,
      loadProducts db1 page1 ->
      exists db2 p2,
        StockModal.handleSubmit page1 userId (StockModal.mkFormData pid OUT s_out notes_out)
          uid t3 g2 t4 db1 = (db2, Ok tt) /\
        stored_product db2 pid = Some p2 /\
        Product.quantity p2 = 0 /\
        Product.status p2 = out_of_stock /\
        List.length (ledger_of db2 pid) = 2%nat.
Proof.
  intros Hreach Hload Hst Hzero Hledger Hact Huser Hin Hout [Hpos Hmax] Hg1 Hg2 Hne.
  destruct (reachable_pk_unique db Hreach) as [Hnd _].
  set (fd_in := StockModal.mkFormData pid IN s_in notes_in).
  set (fd_out := StockModal.mkFormData pid OUT s_out notes_out).
  assert (Hq : in_int4 q = true).
  { unfold in_int4, int4_min, int4_max in *.
    apply andb_true_iff. split; apply Z.leb_le; lia. }
  assert (Hf0 : find (fun p => String.eqb (Product.id p) (StockModal.product_id fd_in)) page0
                = Some p0).
  { simpl. rewrite (find_in_loaded_list db page0 pid Hnd Hload). exact Hst. }
  assert (Hn1 : StockModal.newQuantity_of fd_in p0 q = q).
  { unfold StockModal.newQuantity_of. simpl. lia. }
  pose proof (handleSubmit_accepted page0 userId fd_in uid t1 g1 t2 p0 q Hf0 Hin db) as H1.
  rewrite Hn1 in H1.
  eexists. split.
  { apply H1; try assumption.
    - simpl. discriminate.
    - simpl. now apply stored_product_has with (p := p0). }
  clear H1. intros page1 Hload1.
  set (db1 := mkDb (auth_users db) (profiles db) (categories db)
                (StockModal.products_after fd_in uid t2 g1 q (products db))
                (stock_transactions db ++ [StockModal.ledger_row userId fd_in g1 t1 q])) in *.
  set (p1 := update_product_row (mkCtx uid t2 g1) (StockModal.quantity_update q) p0).
  assert (Hst1 : stored_product db1 pid = Some p1).
  { unfold stored_product, db1. simpl.
    apply (products_after_find fd_in uid t2 g1 q (products db) p0). exact Hst. }
  assert (Hnd1 : NoDup (map Product.id (products db1))).
  { unfold db1. simpl. now rewrite products_after_ids. }
  assert (Hf1 : find (fun p => String.eqb (Product.id p) (StockModal.product_id fd_out)) page1
                = Some p1).
  { simpl. rewrite (find_in_loaded_list db1 page1 pid Hnd1 Hload1). exact Hst1. }
  assert (Hn2 : StockModal.newQuantity_of fd_out p1 q = 0).
  { unfold StockModal.newQuantity_of. simpl. lia. }
  pose proof (handleSubmit_accepted page1 userId fd_out uid t3 g2 t4 p1 q Hf1 Hout db1) as H2.
  rewrite Hn2 in H2.
  eexists. exists (update_product_row (mkCtx uid t4 g2) (StockModal.quantity_update 0) p1).
  split.
  { apply H2.
    - intros _. simpl. lia.
    - exact Hact.
    - simpl. now apply stored_product_has with (p := p1).
    - exact Huser.
    - unfold db1. simpl. rewrite existsb_app, Hg2. simpl.
      destruct (String.eqb_spec g1 g2); [contradiction | reflexivity].
    - exact Hq.
    - reflexivity. }
  split.
  { unfold stored_product. simpl.
    apply (products_after_find fd_out uid t4 g2 0 (products db1) p1). exact Hst1. }
  split; [reflexivity |]. split; [reflexivity |].
  unfold ledger_of in *. simpl. rewrite !filter_app, Hledger. simpl.
  rewrite String.eqb_refl. reflexivity.
Qed.

Lemma in_then_out_returns_to_zero_witness :
  exists db1,
    StockModal.handleSubmit [Scenario.widget 0] "u1"
      (StockModal.mkFormData "p1" IN "7" "received") "u1" 2 "t1" 3 (Scenario.shop 0)
    = (db1, Ok tt) /\
    forall page1,
      loadProducts db1 page1 ->
      exists db2 p2,
        StockModal.handleSubmit page1 "u1"
          (StockModal.mkFormData "p1" OUT "7" "issued") "u1" 4 "t2" 5 db1
        = (db2, Ok tt) /\
        stored_product db2 "p1" = Some p2 /\
        Product.quantity p2 = 0 /\
        Product.status p2 = out_of_stock /\
        List.length (ledger_of db2 "p1") = 2%nat.
Proof.
  apply (in_then_out_returns_to_zero
           (Scenario.shop 0) [Scenario.widget 0] "u1" "u1" "p1"
           "7" "7" "received" "issued" 7 2 3 4 5 "t1" "t2" (Scenario.widget 0)).
  - apply shop_reachable. reflexivity.
  - apply Permutation_refl.
  - reflexivity.
  - reflexivity.
  - reflexivity.
  - reflexivity.
  - reflexivity.
  - reflexivity.
  - reflexivity.
  - unfold int4_max. lia.
  - reflexivity.
  - reflexivity.
  - intros H. discriminate H.
Defined.

(* ===================================================================== *)
(** ** The ledger *)
(* ===================================================================== *)

Lemma filter_all {A : Type} (f : A -> bool) (l : list A) :
  (forall a, f a = true) -> filter f l = l.
Proof.
  intros H. induction l as [| a l IH]; simpl; [reflexivity |].
  rewrite H, IH. reflexivity.
Qed.

Lemma map_same {A : Type} (f : A -> A) (l : list A) :
  (forall a, f a = a) -> map f l = l.
Proof.
  intros H. induction l as [| a l IH]; simpl; [reflexivity |].
  rewrite H, IH. reflexivity.
Qed.

(** C9, as the code has it.  No change of the store updates a ledger
    row, and a request aimed at [stock_transactions] can only add one
    row, which the store takes from an active user.  Rows do leave the
    ledger, but only through [ON DELETE CASCADE]: when an admin deletes
    a stored product, exactly the rows of that product go with it, and
    when an account is deleted, exactly the rows that user recorded go
    with it.  Every other request, a product deletion the policy hides
    included, leaves the ledger as it is. *)
Theorem ledger_changes_by_insert_or_cascade (c : Change) (db db' : Db) :
  apply_change c db = Ok db' ->
  match c with
  | ByRequest cx (InsertStockTransaction payload) =>
      caller_is_active db (auth_uid cx) = true /\
      exists q,
        StockTransactionPayload.quantity payload = Some q /\
        stock_transactions db' =
          stock_transactions db ++
          [StockTransaction.mk (gen_random_uuid cx)
             (StockTransactionPayload.product_id payload)
             (StockTransactionPayload.user_id payload) q
             (StockTransactionPayload.type payload)
             (StockTransactionPayload.notes payload) (now cx)]
  | ByRequest cx (DeleteProduct pid) =>
      stock_transactions db' =
        if caller_is_admin db (auth_uid cx) && has_product db pid
        then filter (fun t => negb (String.eqb (StockTransaction.product_id t) pid))
                    (stock_transactions db)
        else stock_transactions db
  | AccountDeleted uid =>
      stock_transactions db' =
        if has_user db uid
        then filter (fun t => negb (String.eqb (StockTransaction.user_id t) uid))
                    (stock_transactions db)
        else stock_transactions db
  | ByRequest _ _ => stock_transactions db' = stock_transactions db
  end.
Proof.
  intros Hchange. destruct c as [cx r | uid]; simpl in Hchange.
  - rename Hchange into Hexec. destruct r; simpl in Hexec.
    + unfold sign_up in Hexec. split_statement Hexec. reflexivity.
    + unfold update_profiles in Hexec. split_statement Hexec. reflexivity.
    + unfold insert_categories in Hexec. split_statement Hexec. reflexivity.
    + unfold update_categories in Hexec. split_statement Hexec; reflexivity.
    + unfold delete_categories in Hexec. split_statement Hexec; reflexivity.
    + unfold insert_products in Hexec. split_statement Hexec. reflexivity.
    + unfold update_products in Hexec. split_statement Hexec; reflexivity.
    + unfold delete_products, policy_products_delete in Hexec.
      destruct (caller_is_admin db (auth_uid cx)); simpl in *;
        [| now injection Hexec as <-].
      destruct (has_product db id); simpl in *; now injection Hexec as <-.
    + unfold insert_stock_transactions, policy_stock_transactions_insert in Hexec.
      split_statement Hexec. split.
      * match goal with
        | Hn : negb (caller_is_active _ _) = false |- _ => now apply negb_false_iff in Hn
        end.
      * eexists. split; reflexivity.
    + unfold update_stock_transactions, policy_stock_transactions_update in Hexec.
      split_statement Hexec; [reflexivity |]. simpl. apply map_same.
      intros t. now rewrite andb_false_r.
    + unfold delete_stock_transactions, policy_stock_transactions_delete in Hexec.
      split_statement Hexec. simpl. apply filter_all.
      intros t. now rewrite andb_false_r.
    + unfold insert_profiles in Hexec. split_statement Hexec. reflexivity.
    + unfold delete_profiles in Hexec. split_statement Hexec. reflexivity.
  - injection Hchange as <-. unfold delete_account.
    now destruct (has_user db uid).
Qed.

Lemma ledger_changes_by_insert_or_cascade_witness :
  [] =
  if caller_is_admin ScenarioStore.after_arrival "a1" &&
     has_product ScenarioStore.after_arrival "p1"
  then filter (fun t => negb (String.eqb (StockTransaction.product_id t) "p1"))
              (stock_transactions ScenarioStore.after_arrival)
  else stock_transactions ScenarioStore.after_arrival.
Proof.
  apply (ledger_changes_by_insert_or_cascade
           (ByRequest (mkCtx "a1" 4 "") (DeleteProduct "p1"))
           ScenarioStore.after_arrival
           (mkDb ["a1"; "u1"; "u2"; "u3"] Scenario.people [Scenario.electronics] [] [])).
  reflexivity.
Defined.

(** C9, as the claim has it, fails.  Staff record an IN of 5 for the
    widget; an admin then deletes the widget on the Products page: the
    ledger row is gone with it. *)
Lemma product_delete_removes_ledger_rows :
  let recorded := StockModal.handleSubmit [Scenario.widget 10] "u1"
                    (Scenario.movement IN "5") "u1" 2 "t1" 3 (Scenario.shop 10) in
  let deleted := Products.handleDelete true "p1" "a1" 4 (fst recorded) in
  snd recorded = Ok tt /\
  stock_transactions (fst recorded) = [StockTransaction.mk "t1" "p1" "u1" 5 IN "" 2] /\
  snd deleted = Ok tt /\
  stock_transactions (fst deleted) = [].
Proof.
  cbv zeta. repeat split; vm_compute; reflexivity.
Qed.

(* ===================================================================== *)
(** ** Deleting a category *)
(* ===================================================================== *)

Lemma category_gone (cid : uuid) (rows : list Category.t) :
  existsb (fun c => String.eqb (Category.id c) cid)
          (filter (fun c => negb (String.eqb (Category.id c) cid)) rows) = false.
Proof.
  induction rows as [| c rows IH]; simpl; [reflexivity |].
  destruct (String.eqb (Category.id c) cid) eqn:E; simpl; [exact IH |].
  rewrite E. exact IH.
Qed.

Lemma opt_eqb_false (c : option uuid) (cid : uuid) :
  c <> Some cid -> opt_eqb c cid = false.
Proof.
  intros H. destruct c as [x |]; simpl; [| reflexivity].
  destruct (String.eqb_spec x cid); [subst; contradiction | reflexivity].
Qed.

(** C7, as the code has it.  When an admin deletes a category, the
    category is gone and no product is: each product that referred to it
    is still there with its category reference null, its [updated_at]
    set to the time of the deletion (the update trigger of [products]
    runs for the referential action too) and every other column as it
    was; every other product row is untouched. *)
Theorem category_delete_detaches_products
    (db : Db) (cid uid : uuid) (t : timestamptz) :
  reachable db ->
  caller_is_admin db uid = true ->
  has_category db cid = true ->
  exists db',
    Categories.handleDelete true cid uid t db = (db', Ok tt) /\
    has_category db' cid = false /\
    List.length (products db') = List.length (products db) /\
    (forall p,
       In p (products db) -> Product.category_id p = Some cid ->
       In (Product.mk (Product.id p) (Product.name p) (Product.sku p) None
             (Product.price p) (Product.quantity p) (Product.status p)
             (Product.description p) (Product.created_at p) t)
          (products db')) /\
    (forall p,
       In p (products db) -> Product.category_id p <> Some cid ->
       In p (products db')).
Proof.
  intros Hreach Hadmin Hcat.
  apply reachable_status_derived in Hreach. unfold status_derived in Hreach.
  rewrite Forall_forall in Hreach.
  unfold Categories.handleDelete, request, delete_categories, policy_categories_delete.
  simpl. rewrite Hadmin, Hcat. simpl.
  eexists. split; [reflexivity |]. simpl.
  split; [apply category_gone |].
  split; [apply length_map |].
  split.
  - intros p Hin Href.
    rewrite (Hreach p Hin).
    apply in_map with (f := set_null_category (mkCtx uid t "") cid) in Hin.
    unfold set_null_category in Hin at 1. rewrite Href in Hin. simpl in Hin.
    rewrite String.eqb_refl in Hin. exact Hin.
  - intros p Hin Href.
    apply in_map with (f := set_null_category (mkCtx uid t "") cid) in Hin.
    unfold set_null_category in Hin at 1.
    rewrite (opt_eqb_false _ _ Href) in Hin. exact Hin.
Qed.

Lemma category_delete_detaches_products_witness :
  exists db',
    Categories.handleDelete true "c1" "a1" 9 (Scenario.shop 3) = (db', Ok tt) /\
    has_category db' "c1" = false /\
    List.length (products db') = List.length (products (Scenario.shop 3)) /\
    (forall p,
       In p (products (Scenario.shop 3)) -> Product.category_id p = Some "c1" ->
       In (Product.mk (Product.id p) (Product.name p) (Product.sku p) None
             (Product.price p) (Product.quantity p) (Product.status p)
             (Product.description p) (Product.created_at p) 9)
          (products db')) /\
    (forall p,
       In p (products (Scenario.shop 3)) -> Product.category_id p <> Some "c1" ->
       In p (products db')).
Proof.
  apply (category_delete_detaches_products (Scenario.shop 3) "c1" "a1" 9).
  - apply shop_reachable. reflexivity.
  - reflexivity.
  - reflexivity.
Defined.

(** C7, as the claim has it, fails on one column.  The widget refers to
    the category and was last updated at time 1; an admin deletes the
    category at time 9.  The widget is kept and detached, but the row
    that differs from the old one in [category_id] alone is not in the
    table: [updated_at] is 9. *)
Lemma category_delete_stamps_updated_at :
  let deleted := Categories.handleDelete true "c1" "a1" 9 (Scenario.shop 3) in
  products (Scenario.shop 3)
  = [Product.mk "p1" "Widget" "W-1" (Some "c1") 1999 3 low_stock "" 1 1] /\
  snd deleted = Ok tt /\
  products (fst deleted) = [Product.mk "p1" "Widget" "W-1" None 1999 3 low_stock "" 1 9] /\
  ~ In (Product.mk "p1" "Widget" "W-1" None 1999 3 low_stock "" 1 1)
       (products (fst deleted)).
Proof.
  cbv zeta. split; [reflexivity |]. split; [reflexivity |]. split; [reflexivity |].
  vm_compute. intros [H | H]; [inversion H | exact H].
Qed.

(* ===================================================================== *)
(** ** Who may create a product *)
(* ===================================================================== *)

Lemma caller_is_active_iff (db : Db) (uid : uuid) :
  caller_is_active db uid = true <->
  exists p, In p (profiles db) /\ Profile.id p = uid /\ Profile.is_active p = Some true.
Proof.
  unfold caller_is_active. rewrite existsb_exists. split.
  - intros [p [Hin H]]. apply andb_true_iff in H. destruct H as [Hid Hact].
    exists p. split; [assumption |]. split; [now apply String.eqb_eq |].
    destruct (Profile.is_active p) as [[|] |]; try discriminate. reflexivity.
  - intros [p [Hin [Hid Hact]]]. exists p. split; [assumption |].
    rewrite Hid, String.eqb_refl, Hact. reflexivity.
Qed.

(** The one profile of a user decides. *)
Lemma caller_is_active_profile (db : Db) (p : Profile.t) :
  NoDup (map Profile.id (profiles db)) ->
  In p (profiles db) ->
  caller_is_active db (Profile.id p)
  = match Profile.is_active p with Some true => true | _ => false end.
Proof.
  intros Hnd Hin.
  destruct (caller_is_active db (Profile.id p)) eqn:E.
  - apply caller_is_active_iff in E. destruct E as [p' [Hin' [Hid Hact]]].
    assert (p' = p) by (apply (same_key_same_row Profile.id (profiles db)); assumption).
    subst p'. now rewrite Hact.
  - destruct (Profile.is_active p) as [[|] |] eqn:A; try reflexivity.
    assert (caller_is_active db (Profile.id p) = true)
      by (apply caller_is_active_iff; exists p; auto).
    congruence.
Qed.

(** An insert that passes the policy and the constraints of the table
    adds the row. *)
Lemma insert_products_accepted (cx : Ctx) (db : Db) (n s : string)
    (cat : option uuid) (pr q : Z) (d : string) :
  policy_products_insert db (auth_uid cx) = true ->
  in_decimal_10_2 pr = true ->
  in_int4 q = true ->
  has_product db (gen_random_uuid cx) = false ->
  existsb (fun p => String.eqb (Product.sku p) s) (products db) = false ->
  category_ref_ok db cat = true ->
  insert_products cx
    (ProductPayload.mk (Some n) (Some s) (Some cat) (Some (Some pr)) (Some (Some q))
       None (Some d)) db
  = Ok (with_products db
          (products db ++
           [Product.mk (gen_random_uuid cx) n s cat pr q (classify q) d (now cx) (now cx)])).
Proof.
  intros Hpol Hpr Hq Hid Hsku Hcat. unfold insert_products. simpl.
  rewrite Hpr, Hq, Hpol, Hid, Hsku, Hcat. reflexivity.
Qed.

(** C8. For a staff user, the policy "Staff and admins can insert
    products" follows the [is_active] flag of the user's profile: with
    the flag false the predicate is false and every insert into
    [products] by that user is refused; with the flag true the predicate
    is true and an insert that meets the constraints of the table adds
    the product. *)
Theorem staff_may_create_product_iff_active (db : Db) (p : Profile.t) :
  reachable db ->
  In p (profiles db) ->
  Profile.role p = staff ->
  (Profile.is_active p = Some false ->
   policy_products_insert db (Profile.id p) = false /\
   forall cx payload,
     auth_uid cx = Profile.id p ->
     exists e, insert_products cx payload db = Error e) /\
  (Profile.is_active p = Some true ->
   policy_products_insert db (Profile.id p) = true /\
   forall cx n s cat pr q d,
     auth_uid cx = Profile.id p ->
     in_decimal_10_2 pr = true ->
     in_int4 q = true ->
     has_product db (gen_random_uuid cx) = false ->
     existsb (fun r => String.eqb (Product.sku r) s) (products db) = false ->
     category_ref_ok db cat = true ->
     insert_products cx
       (ProductPayload.mk (Some n) (Some s) (Some cat) (Some (Some pr)) (Some (Some q))
          None (Some d)) db
     = Ok (with_products db
             (products db ++
              [Product.mk (gen_random_uuid cx) n s cat pr q (classify q) d
                 (now cx) (now cx)]))).
Proof.
  intros Hreach Hin _.
  destruct (reachable_pk_unique db Hreach) as [_ [Hnd _]].
  pose proof (caller_is_active_profile db p Hnd Hin) as Hpol.
  split; intros Hact; rewrite Hact in Hpol; (split; [exact Hpol |]).
  - intros cx payload Hcx. unfold insert_products.
    destruct (is_some (ProductPayload.status payload)); [eauto |].
    destruct (negb (_ && _)); [eauto |].
    unfold policy_products_insert. rewrite Hcx, Hpol. simpl. eauto.
  - intros cx n s cat pr q d Hcx Hpr Hq Hid Hsku Hcat.
    apply insert_products_accepted; try assumption.
    unfold policy_products_insert. now rewrite Hcx.
Qed.

Lemma staff_may_create_product_iff_active_witness :
  policy_products_insert (Scenario.shop 3) "u3" = false /\
  forall cx payload,
    auth_uid cx = "u3" ->
    exists e, insert_products cx payload (Scenario.shop 3) = Error e.
Proof.
  apply (staff_may_create_product_iff_active (Scenario.shop 3)
           (Profile.mk "u3" "Dana" staff (Some false) 0 0)).
  - apply shop_reachable. reflexivity.
  - simpl. right. right. right. left. reflexivity.
  - reflexivity.
  - reflexivity.
Defined.

(* ===================================================================== *)
(** ** Runs *)
(* ===================================================================== *)

(** The scenario of the specification: 3 in stock (low), IN 2 gives 5
    (in stock), OUT 5 gives 0 (out of stock), and a further OUT 1 is
    refused and leaves 0.  The page reloads its list after each
    movement. *)
Example three_movements :
  let s0 := Scenario.shop 3 in
  let r1 := StockModal.handleSubmit (products s0) "u1" (Scenario.movement IN "2")
              "u1" 2 "t1" 3 s0 in
  let r2 := StockModal.handleSubmit (products (fst r1)) "u1" (Scenario.movement OUT "5")
              "u1" 4 "t2" 5 (fst r1) in
  let r3 := StockModal.handleSubmit (products (fst r2)) "u1" (Scenario.movement OUT "1")
              "u1" 6 "t3" 7 (fst r2) in
  map (fun p => (Product.quantity p, Product.status p)) (products s0) = [(3, low_stock)] /\
  snd r1 = Ok tt /\
  map (fun p => (Product.quantity p, Product.status p)) (products (fst r1)) = [(5, in_stock)] /\
  snd r2 = Ok tt /\
  map (fun p => (Product.quantity p, Product.status p)) (products (fst r2))
  = [(0, out_of_stock)] /\
  r3 = (fst r2, Error InsufficientStock).
Proof. cbv zeta. repeat split; vm_compute; reflexivity. Qed.

(** A text that is not a number passes the handler's guard ([NaN]
    compares false) and is stopped by the store: [quantity] is
    [NOT NULL]. *)
Example not_a_number_is_refused_by_the_store :
  StockModal.handleSubmit [Scenario.widget 3] "u1" (Scenario.movement OUT "")
    "u1" 2 "t1" 3 (Scenario.shop 3)
  = (Scenario.shop 3, Error (PersistenceFailure not_null_violation)).
Proof. reflexivity. Qed.

(** A quantity beyond the [integer] column is refused by the store. *)
Example beyond_integer_is_refused_by_the_store :
  StockModal.handleSubmit [Scenario.widget 3] "u1" (Scenario.movement IN "2147483648")
    "u1" 2 "t1" 3 (Scenario.shop 3)
  = (Scenario.shop 3, Error (PersistenceFailure numeric_value_out_of_range)).
Proof. reflexivity. Qed.

(** Dana, inactive, cannot add a product; once an admin has switched
    her on in the Users page, the same form goes through. *)
Example inactive_then_active :
  let form := ScenarioRequests.gadget_form in
  let refused := ProductModal.handleSubmit ScenarioRequests.whole_price None form
                   "u3" 2 "p2" (Scenario.shop 3) in
  let toggled := Users.toggleUserStatus "u3" false "a1" 3 (Scenario.shop 3) in
  let accepted := ProductModal.handleSubmit ScenarioRequests.whole_price None form
                    "u3" 4 "p2" (fst toggled) in
  refused = (Scenario.shop 3, Error (PersistenceFailure insufficient_privilege)) /\
  snd toggled = Ok tt /\
  snd accepted = Ok tt /\
  products (fst accepted)
  = [Scenario.widget 3; Product.mk "p2" "Gadget" "G-1" None 2500 4 low_stock "" 4 4].
Proof. cbv zeta. repeat split; vm_compute; reflexivity. Qed.


(* ===================================================================== *)
(** ** Foreign keys, unique SKUs and column ranges *)
(* ===================================================================== *)

Lemma existsb_key {A : Type} (key : A -> uuid) (k : uuid) (l : list A) :
  existsb (fun r => String.eqb (key r) k) l = true <-> In k (map key l).
Proof.
  rewrite existsb_exists, in_map_iff. split.
  - intros [r [Hin He]]. exists r. split; [now apply String.eqb_eq | assumption].
  - intros [r [He Hin]]. exists r. split; [assumption | now apply String.eqb_eq].
Qed.

Lemma has_product_iff (db : Db) (k : uuid) :
  has_product db k = true <-> In k (map Product.id (products db)).
Proof. apply existsb_key. Qed.

Lemma has_category_iff (db : Db) (k : uuid) :
  has_category db k = true <-> In k (map Category.id (categories db)).
Proof. apply existsb_key. Qed.

Lemma has_user_iff (db : Db) (k : uuid) :
  has_user db k = true <-> In k (auth_users db).
Proof.
  unfold has_user. rewrite <- (map_id (auth_users db)) at 2.
  apply (existsb_key (fun u : uuid => u)).
Qed.

(** What a request leaves of the keys other rows may refer to. *)
Lemma exec_keeps_users (cx : Ctx) (r : Request) (db db' : Db) (k : uuid) :
  exec cx r db = Ok db' -> has_user db k = true -> has_user db' k = true.
Proof.
  intros Hexec Hk. rewrite has_user_iff in *.
  destruct r; simpl in Hexec;
    [ unfold sign_up in Hexec | unfold update_profiles in Hexec
    | unfold insert_categories in Hexec | unfold update_categories in Hexec
    | unfold delete_categories in Hexec | unfold insert_products in Hexec
    | unfold update_products in Hexec | unfold delete_products in Hexec
    | unfold insert_stock_transactions in Hexec
    | unfold update_stock_transactions in Hexec
    | unfold delete_stock_transactions in Hexec
    | unfold insert_profiles in Hexec | unfold delete_profiles in Hexec ];
    split_statement Hexec; simpl; try assumption.
  apply in_or_app. now left.
Qed.

Lemma in_rows_has_product (db : Db) (p : Product.t) :
  In p (products db) -> has_product db (Product.id p) = true.
Proof. intros H. apply has_product_iff. now apply in_map. Qed.

Lemma same_ids_has_product (db db' : Db) (k : uuid) :
  map Product.id (products db') = map Product.id (products db) ->
  has_product db k = true -> has_product db' k = true.
Proof. intros E H. rewrite has_product_iff in *. now rewrite E. Qed.

Lemma same_ids_has_category (db db' : Db) (k : uuid) :
  map Category.id (categories db') = map Category.id (categories db) ->
  has_category db k = true -> has_category db' k = true.
Proof. intros E H. rewrite has_category_iff in *. now rewrite E. Qed.

Lemma exec_keeps_references (cx : Ctx) (r : Request) (db db' : Db) :
  references_ok db -> exec cx r db = Ok db' -> references_ok db'.
Proof.
  intros [Hl [Hp Hf]] Hexec.
  pose proof (exec_keeps_users cx r db db') as Hu. specialize (fun k => Hu k Hexec).
  destruct r; simpl in Hexec.
  - (* SignUp *)
    unfold sign_up in Hexec. split_statement Hexec.
    repeat split; simpl in *.
    + now apply Hl.
    + apply Hu. now apply Hl.
    + intros p c. apply Hp.
    + intros p Hin. apply in_app_or in Hin. destruct Hin as [Hin | [<- | []]].
      * apply Hu. now apply Hf.
      * simpl. apply has_user_iff. simpl. apply in_or_app. right. now left.
  - (* UpdateProfile *)
    unfold update_profiles in Hexec. split_statement Hexec.
    repeat split; simpl in *; try (now apply Hl).
    + intros p c. apply Hp.
    + intros p Hin. apply in_map_iff in Hin. destruct Hin as [p0 [E Hin]].
      specialize (Hf p0 Hin). destruct (_ && _) in E; subst p; exact Hf.
  - (* InsertCategory *)
    unfold insert_categories in Hexec. split_statement Hexec.
    repeat split; simpl in *; try (now apply Hl); try (now apply Hf).
    intros p c Hin Hc. specialize (Hp p c Hin Hc).
    rewrite has_category_iff in *. simpl. rewrite map_app. apply in_or_app. now left.
  - (* UpdateCategory *)
    unfold update_categories in Hexec.
    split_statement Hexec; [split; [| split]; assumption .. |].
    repeat split; simpl in *; try (now apply Hl); try (now apply Hf).
    intros p c Hin Hc. specialize (Hp p c Hin Hc).
    rewrite has_category_iff in *. simpl. rewrite map_key_kept; [exact Hp |].
    intros a. now destruct (String.eqb _ _).
  - (* DeleteCategory *)
    unfold delete_categories in Hexec.
    split_statement Hexec; [split; [| split]; assumption .. |].
    repeat split; simpl in *; try (now apply Hf).
    + specialize (Hl t H). destruct Hl as [Hl _].
      rewrite has_product_iff in *. simpl. rewrite map_key_kept; [exact Hl |].
      intros a. unfold set_null_category. now destruct (opt_eqb _ _).
    + now apply Hl.
    + intros p c Hin Hc. apply in_map_iff in Hin. destruct Hin as [p0 [E Hin]].
      unfold set_null_category in E.
      destruct (opt_eqb (Product.category_id p0) id) eqn:O; subst p; simpl in Hc;
        [discriminate |].
      specialize (Hp p0 c Hin Hc). rewrite Hc in O. simpl in O.
      rewrite has_category_iff in *. simpl.
      apply in_map_iff in Hp. destruct Hp as [cat [Ec Hcat]].
      apply in_map_iff. exists cat. split; [exact Ec |].
      apply filter_In. split; [exact Hcat |]. rewrite Ec, O. reflexivity.
  - (* InsertProduct *)
    unfold insert_products in Hexec. split_statement Hexec.
    repeat split; simpl in *; try (now apply Hl); try (now apply Hf).
    + specialize (Hl t H). destruct Hl as [Hl _].
      rewrite has_product_iff in *. simpl. rewrite map_app. apply in_or_app. now left.
    + intros p c Hin Hc. apply in_app_or in Hin. destruct Hin as [Hin | [<- | []]].
      * exact (Hp p c Hin Hc).
      * simpl in Hc.
        match goal with
        | Hn : negb (category_ref_ok _ _) = false |- _ =>
            apply negb_false_iff in Hn; rewrite Hc in Hn; exact Hn
        end.
  - (* UpdateProduct *)
    unfold update_products in Hexec.
    split_statement Hexec; [split; [| split]; assumption .. |].
    repeat split; simpl in *; try (now apply Hl); try (now apply Hf).
    + specialize (Hl t H). destruct Hl as [Hl _].
      rewrite has_product_iff in *. simpl. rewrite map_key_kept; [exact Hl |].
      intros a. now destruct (String.eqb _ _).
    + intros p c Hin Hc. apply in_map_iff in Hin. destruct Hin as [p0 [E Hin]].
      destruct (String.eqb (Product.id p0) id); subst p; [| exact (Hp p0 c Hin Hc)].
      simpl in Hc.
      match goal with
      | Hn : negb (category_ref_ok _ _) = false |- _ => apply negb_false_iff in Hn
      end.
      destruct (ProductPayload.category_id payload) as [[c' |] |]; simpl in *.
      * injection Hc as <-. assumption.
      * discriminate.
      * exact (Hp p0 c Hin Hc).
  - (* DeleteProduct *)
    unfold delete_products in Hexec.
    split_statement Hexec; [split; [| split]; assumption .. |].
    repeat split; simpl in *; try (now apply Hf).
    + apply filter_In in H. destruct H as [Hin Hne].
      specialize (Hl t Hin). destruct Hl as [Hl _].
      rewrite has_product_iff in *. simpl.
      apply in_map_iff in Hl. destruct Hl as [p [Ep Hpin]].
      apply in_map_iff. exists p. split; [exact Ep |].
      apply filter_In. split; [exact Hpin |]. now rewrite Ep.
    + apply filter_In in H. destruct H as [Hin _]. now apply Hl.
    + intros p c Hin Hc. apply filter_In in Hin. destruct Hin as [Hin _].
      exact (Hp p c Hin Hc).
  - (* InsertStockTransaction *)
    unfold insert_stock_transactions in Hexec. split_statement Hexec.
    match goal with
    | Hn : negb (_ && _) = false |- _ =>
        apply negb_false_iff in Hn; apply andb_true_iff in Hn; destruct Hn as [Hn1 Hn2]
    end.
    repeat split; simpl in *; try (now apply Hf); try apply Hp.
    + apply in_app_or in H. destruct H as [Hin | [<- | []]]; [now apply Hl | exact Hn1].
    + apply in_app_or in H. destruct H as [Hin | [<- | []]]; [now apply Hl | exact Hn2].
  - (* UpdateStockTransaction *)
    unfold update_stock_transactions, policy_stock_transactions_update in Hexec.
    split_statement Hexec; [split; [| split]; assumption |].
    rewrite map_same by (intros a; now rewrite andb_false_r).
    repeat split; simpl in *; try (now apply Hl); try (now apply Hf); apply Hp.
  - (* DeleteStockTransaction *)
    unfold delete_stock_transactions, policy_stock_transactions_delete in Hexec.
    split_statement Hexec.
    rewrite filter_all by (intros a; now rewrite andb_false_r).
    repeat split; simpl in *; try (now apply Hl); try (now apply Hf); apply Hp.
  - (* InsertProfile *)
    unfold insert_profiles in Hexec. split_statement Hexec.
    repeat split; simpl in *; try (now apply Hl); try apply Hp.
    intros p Hin. apply in_app_or in Hin. destruct Hin as [Hin | [<- | []]];
      [now apply Hf |].
    simpl.
    match goal with
    | Hn : negb (has_user _ _) = false |- _ => now apply negb_false_iff in Hn
    end.
  - (* DeleteProfile *)
    unfold delete_profiles, policy_profiles_delete in Hexec. split_statement Hexec.
    rewrite filter_all by (intros a; now rewrite andb_false_r).
    repeat split; simpl in *; try (now apply Hl); try (now apply Hf); apply Hp.
Qed.

Lemma update_keeps_sku_unique (pid : uuid) (s : string) (h : Product.t -> Product.t)
    (rows : list Product.t) :
  (forall r, Product.sku (h r) = s) ->
  NoDup (map Product.id rows) ->
  NoDup (map Product.sku rows) ->
  existsb (fun p => negb (String.eqb (Product.id p) pid) && String.eqb (Product.sku p) s)
          rows = false ->
  NoDup (map Product.sku
           (map (fun p => if String.eqb (Product.id p) pid then h p else p) rows)).
Proof.
  intros Hs. induction rows as [| r rows IH]; simpl; intros Hid Hsku Hother; [constructor |].
  inversion Hid as [| x xs Hid1 Hid2]; subst.
  inversion Hsku as [| y ys Hsku1 Hsku2]; subst.
  apply orb_false_iff in Hother. destruct Hother as [Hr Hrows].
  constructor; [| now apply IH].
  intros Hin. apply in_map_iff in Hin. destruct Hin as [p' [E Hin]].
  apply in_map_iff in Hin. destruct Hin as [p [Ep Hin]]. subst p'.
  assert (Hp : negb (String.eqb (Product.id p) pid) && String.eqb (Product.sku p) s = false).
  { destruct (negb (String.eqb (Product.id p) pid) && String.eqb (Product.sku p) s) eqn:E';
      [| reflexivity].
    assert (existsb (fun p => negb (String.eqb (Product.id p) pid) &&
                              String.eqb (Product.sku p) s) rows = true)
      by (apply existsb_exists; now exists p).
    congruence. }
  destruct (String.eqb (Product.id r) pid) eqn:Er;
    destruct (String.eqb (Product.id p) pid) eqn:Eq; simpl in *.
  - apply String.eqb_eq in Er, Eq. apply Hid1. rewrite Er, <- Eq. now apply in_map.
  - rewrite Hs in E. rewrite E, String.eqb_refl in Hp. discriminate.
  - rewrite Hs in E. rewrite <- E, String.eqb_refl in Hr. discriminate.
  - apply Hsku1. rewrite <- E. now apply in_map.
Qed.

Lemma exec_keeps_sku_unique (cx : Ctx) (r : Request) (db db' : Db) :
  pk_unique db -> sku_unique db -> exec cx r db = Ok db' -> sku_unique db'.
Proof.
  unfold sku_unique. intros [Hpk _] Hsku Hexec.
  destruct r; simpl in Hexec;
    [ unfold sign_up in Hexec | unfold update_profiles in Hexec
    | unfold insert_categories in Hexec | unfold update_categories in Hexec
    | unfold delete_categories in Hexec | unfold insert_products in Hexec
    | unfold update_products in Hexec | unfold delete_products in Hexec
    | unfold insert_stock_transactions in Hexec
    | unfold update_stock_transactions in Hexec
    | unfold delete_stock_transactions in Hexec
    | unfold insert_profiles in Hexec | unfold delete_profiles in Hexec ];
    split_statement Hexec; simpl; try assumption.
  - (* DeleteCategory *)
    rewrite map_key_kept; [exact Hsku |].
    intros p. unfold set_null_category. now destruct (opt_eqb _ _).
  - (* InsertProduct *)
    match goal with
    | Hn : _ || _ = false |- _ => apply orb_false_iff in Hn; destruct Hn as [_ Hn]
    end.
    now apply NoDup_map_snoc.
  - (* UpdateProduct *)
    destruct (ProductPayload.sku payload) as [s |] eqn:Hs.
    + apply update_keeps_sku_unique with (s := s); try assumption.
      intros p. unfold update_product_row. simpl. now rewrite Hs.
    + rewrite map_key_kept; [exact Hsku |].
      intros p. destruct (String.eqb _ _); [| reflexivity].
      unfold update_product_row. simpl. now rewrite Hs.
  - (* DeleteProduct *)
    now apply NoDup_map_filter.
Qed.

Lemma exec_keeps_columns_in_range (cx : Ctx) (r : Request) (db db' : Db) :
  columns_in_range db -> exec cx r db = Ok db' -> columns_in_range db'.
Proof.
  unfold columns_in_range. intros [Hp Hl] Hexec.
  destruct r; simpl in Hexec;
    [ unfold sign_up in Hexec | unfold update_profiles in Hexec
    | unfold insert_categories in Hexec | unfold update_categories in Hexec
    | unfold delete_categories in Hexec | unfold insert_products in Hexec
    | unfold update_products in Hexec | unfold delete_products in Hexec
    | unfold insert_stock_transactions in Hexec
    | unfold update_stock_transactions, policy_stock_transactions_update in Hexec
    | unfold delete_stock_transactions, policy_stock_transactions_delete in Hexec
    | unfold insert_profiles in Hexec | unfold delete_profiles in Hexec ];
    split_statement Hexec; simpl; try (split; assumption).
  - (* DeleteCategory *)
    split; [| exact Hl]. apply Forall_map. eapply Forall_impl; [| exact Hp].
    intros p. unfold set_null_category. now destruct (opt_eqb _ _).
  - (* InsertProduct *)
    split; [| exact Hl]. apply Forall_app. split; [exact Hp |].
    constructor; [| constructor]. simpl.
    match goal with
    | Hn : negb (_ && _) = false |- _ =>
        apply negb_false_iff in Hn; apply andb_true_iff in Hn; destruct Hn as [Hn1 Hn2]
    end.
    destruct (ProductPayload.price payload) as [[pr |] |];
      destruct (ProductPayload.quantity payload) as [[q |] |]; simpl in *;
      repeat match goal with
             | E : Some _ = Some _ |- _ => injection E as <-
             | E : None = Some _ |- _ => discriminate E
             end; split; try assumption; reflexivity.
  - (* UpdateProduct *)
    split; [| exact Hl]. apply Forall_map. eapply Forall_impl; [| exact Hp].
    intros p [Hq Hpr]. destruct (String.eqb _ _); [| now split].
    unfold update_product_row. simpl.
    match goal with
    | Hn : negb (_ && _) = false |- _ =>
        apply negb_false_iff in Hn; apply andb_true_iff in Hn; destruct Hn as [Hn1 Hn2]
    end.
    destruct (ProductPayload.price payload) as [[pr |] |];
      destruct (ProductPayload.quantity payload) as [[q |] |]; simpl in *;
      split; assumption.
  - (* DeleteProduct *)
    split.
    + apply Forall_forall. intros p Hin. apply filter_In in Hin.
      rewrite Forall_forall in Hp. now apply Hp.
    + apply Forall_forall. intros t Hin. apply filter_In in Hin.
      rewrite Forall_forall in Hl. now apply Hl.
  - (* InsertStockTransaction *)
    split; [exact Hp |]. apply Forall_app. split; [exact Hl |].
    constructor; [| constructor]. simpl.
    match goal with
    | Hn : negb (in_int4 _) = false |- _ => now apply negb_false_iff in Hn
    end.
  - (* UpdateStockTransaction *)
    split; [exact Hp |].
    rewrite map_same by (intros a; now rewrite andb_false_r). exact Hl.
  - (* DeleteStockTransaction *)
    split; [exact Hp |].
    rewrite filter_all by (intros a; now rewrite andb_false_r). exact Hl.
Qed.

Lemma delete_account_keeps_references (uid : uuid) (db : Db) :
  references_ok db -> references_ok (delete_account uid db).
Proof.
  intros [Hl [Hp Hf]]. unfold delete_account.
  destruct (has_user db uid); [| split; [| split]; assumption].
  assert (Hstay : forall k, has_user db k = true -> String.eqb k uid = false ->
            has_user
              (mkDb (filter (fun u => negb (String.eqb u uid)) (auth_users db))
                 (filter (fun p => negb (String.eqb (Profile.id p) uid)) (profiles db))
                 (categories db) (products db)
                 (filter (fun t => negb (String.eqb (StockTransaction.user_id t) uid))
                    (stock_transactions db))) k = true).
  { intros k Hk Hne. rewrite has_user_iff in *. simpl.
    apply filter_In. split; [exact Hk | now rewrite Hne]. }
  split; [| split].
  - intros t Hin. simpl in Hin. apply filter_In in Hin. destruct Hin as [Hin Hne].
    destruct (Hl t Hin) as [Hprod Huser]. split; [exact Hprod |].
    apply Hstay; [exact Huser | now apply negb_true_iff].
  - exact Hp.
  - intros p Hin. simpl in Hin. apply filter_In in Hin. destruct Hin as [Hin Hne].
    apply Hstay; [now apply Hf | now apply negb_true_iff].
Qed.

Lemma delete_account_keeps_columns_in_range (uid : uuid) (db : Db) :
  columns_in_range db -> columns_in_range (delete_account uid db).
Proof.
  intros [Hp Hl]. unfold delete_account, columns_in_range.
  destruct (has_user db uid); simpl; [| split; assumption].
  split; [exact Hp |].
  apply Forall_forall. intros t Hin. apply filter_In in Hin.
  rewrite Forall_forall in Hl. now apply Hl.
Qed.

Lemma reachable_well_formed (db : Db) :
  reachable db ->
  pk_unique db /\ status_derived db /\ references_ok db /\ sku_unique db /\
  columns_in_range db.
Proof.
  intros Hreach.
  induction Hreach as [db [Hpf [Hp Hl]] | db cx r db' Hreach IH Hexec | db uid Hreach IH].
  - unfold pk_unique, status_derived, references_ok, sku_unique, columns_in_range.
    rewrite Hpf, Hp, Hl. simpl.
    repeat split; try constructor; intros; contradiction.
  - destruct IH as [Hpk [Hst [Href [Hsku Hrange]]]].
    split; [eapply exec_keeps_pk_unique; eassumption |].
    split; [eapply exec_keeps_status_derived; eassumption |].
    split; [eapply exec_keeps_references; eassumption |].
    split; [eapply exec_keeps_sku_unique; eassumption |].
    eapply exec_keeps_columns_in_range; eassumption.
  - destruct IH as [_ [_ [Href [Hsku Hrange]]]].
    split; [apply reachable_pk_unique; now apply reachable_account_deleted |].
    split; [apply reachable_status_derived; now apply reachable_account_deleted |].
    split; [now apply delete_account_keeps_references |].
    split; [| now apply delete_account_keeps_columns_in_range].
    unfold sku_unique, delete_account in *. now destruct (has_user db uid).
Qed.

Lemma after_arrival_reachable : reachable ScenarioStore.after_arrival.
Proof.
  apply stock_movement_reachable. apply shop_reachable. reflexivity.
Qed.

(** X1. In every reachable state the foreign keys hold: each ledger row
    belongs to a product that is in [products] and to an account that
    exists, each product's category, when it has one, is in
    [categories], and each profile belongs to an account. *)
Theorem no_dangling_references (db : Db) :
  reachable db ->
  (forall t, In t (stock_transactions db) ->
     (exists p, In p (products db) /\ Product.id p = StockTransaction.product_id t) /\
     In (StockTransaction.user_id t) (auth_users db)) /\
  (forall p c, In p (products db) -> Product.category_id p = Some c ->
     exists cat, In cat (categories db) /\ Category.id cat = c) /\
  (forall p, In p (profiles db) -> In (Profile.id p) (auth_users db)).
Proof.
  intros Hreach.
  destruct (reachable_well_formed db Hreach) as [_ [_ [[Hl [Hp Hf]] _]]].
  repeat split.
  - destruct (Hl t H) as [Hprod _]. apply has_product_iff in Hprod.
    apply in_map_iff in Hprod. destruct Hprod as [p [E Hin]]. now exists p.
  - destruct (Hl t H) as [_ Huser]. now apply has_user_iff.
  - intros p c Hin Hc. specialize (Hp p c Hin Hc). apply has_category_iff in Hp.
    apply in_map_iff in Hp. destruct Hp as [cat [E Hcat]]. now exists cat.
  - intros p Hin. apply has_user_iff. now apply Hf.
Qed.

Lemma no_dangling_references_witness :
  (forall t, In t (stock_transactions ScenarioStore.after_arrival) ->
     (exists p, In p (products ScenarioStore.after_arrival) /\
                Product.id p = StockTransaction.product_id t) /\
     In (StockTransaction.user_id t) (auth_users ScenarioStore.after_arrival)) /\
  (forall p c, In p (products ScenarioStore.after_arrival) ->
     Product.category_id p = Some c ->
     exists cat, In cat (categories ScenarioStore.after_arrival) /\ Category.id cat = c) /\
  (forall p, In p (profiles ScenarioStore.after_arrival) ->
     In (Profile.id p) (auth_users ScenarioStore.after_arrival)).
Proof.
  apply (no_dangling_references ScenarioStore.after_arrival).
  exact after_arrival_reachable.
Defined.

(** X2. In every reachable state each SKU and each id occurs once in
    [products], whatever sequence of inserts, edits and deletions led
    there.  Nor can an edit break this: saving the form of one product
    with the SKU of another stored product leaves the store as it was,
    and for an active user editing a stored product it ends in an
    error. *)
Theorem skus_and_ids_stay_unique (parseFloat : string -> option Z) (db : Db)
    (p r : Product.t) (formData : ProductModal.FormData) (uid : uuid)
    (t : timestamptz) (g : uuid) :
  reachable db ->
  NoDup (map Product.sku (products db)) /\
  NoDup (map Product.id (products db)) /\
  (In r (products db) ->
   Product.id r <> Product.id p ->
   Product.sku r = ProductModal.sku formData ->
   fst (ProductModal.handleSubmit parseFloat (Some p) formData uid t g db) = db /\
   (caller_is_active db uid = true ->
    has_product db (Product.id p) = true ->
    exists e,
      snd (ProductModal.handleSubmit parseFloat (Some p) formData uid t g db) = Error e)).
Proof.
  intros Hreach.
  destruct (reachable_well_formed db Hreach) as [[Hpk _] [_ [_ [Hsku _]]]].
  split; [exact Hsku |]. split; [exact Hpk |].
  intros Hin Hne Hs.
  assert (Hclash : existsb (fun x => negb (String.eqb (Product.id x) (Product.id p)) &&
                                     String.eqb (Product.sku x) (ProductModal.sku formData))
                           (products db) = true).
  { apply existsb_exists. exists r. split; [exact Hin |].
    rewrite Hs, String.eqb_refl, andb_true_r.
    destruct (String.eqb_spec (Product.id r) (Product.id p)); [contradiction | reflexivity]. }
  unfold ProductModal.handleSubmit, request, update_products, policy_products_update,
    ProductModal.payload_of. simpl.
  destruct (caller_is_active db uid); simpl;
    [| split; [reflexivity | intros H; discriminate H]].
  destruct (has_product db (Product.id p)); simpl;
    [| split; [reflexivity | intros _ H; discriminate H]].
  rewrite Hclash.
  destruct (parseFloat (ProductModal.price formData));
    destruct (to_json (parseInt (ProductModal.quantity formData))); simpl;
    repeat (match goal with
            | |- context [if ?c then _ else _] => destruct c
            end; simpl);
    split; eauto.
Qed.

Lemma two_products_reachable : reachable ScenarioShelf.two_products.
Proof.
  apply product_save_reachable. apply shop_reachable. reflexivity.
Qed.

Lemma skus_and_ids_stay_unique_witness :
  NoDup (map Product.sku (products ScenarioShelf.two_products)) /\
  NoDup (map Product.id (products ScenarioShelf.two_products)) /\
  fst (ProductModal.handleSubmit ScenarioRequests.whole_price (Some (Scenario.widget 3))
         ScenarioShelf.widget_as_gadget "u1" 9 "" ScenarioShelf.two_products)
  = ScenarioShelf.two_products /\
  exists e,
    snd (ProductModal.handleSubmit ScenarioRequests.whole_price (Some (Scenario.widget 3))
           ScenarioShelf.widget_as_gadget "u1" 9 "" ScenarioShelf.two_products)
    = Error e.
Proof.
  destruct (skus_and_ids_stay_unique ScenarioRequests.whole_price
              ScenarioShelf.two_products (Scenario.widget 3) ScenarioShelf.gadget
              ScenarioShelf.widget_as_gadget "u1" 9 "" two_products_reachable)
    as [Hsku [Hid Hedit]].
  split; [exact Hsku |]. split; [exact Hid |].
  destruct Hedit as [Hstore Herror].
  - right. left. reflexivity.
  - discriminate.
  - reflexivity.
  - split; [exact Hstore |]. apply Herror; reflexivity.
Defined.

(* ===================================================================== *)
(** ** Accounts, roles and the active flag *)
(* ===================================================================== *)

Lemma caller_is_admin_iff (db : Db) (uid : uuid) :
  caller_is_admin db uid = true <->
  exists p, In p (profiles db) /\ Profile.id p = uid /\ Profile.role p = admin.
Proof.
  unfold caller_is_admin. rewrite existsb_exists. split.
  - intros [p [Hin H]]. apply andb_true_iff in H. destruct H as [Hid Hrole].
    exists p. split; [assumption |]. split; [now apply String.eqb_eq |].
    now destruct (Profile.role p).
  - intros [p [Hin [Hid Hrole]]]. exists p. split; [assumption |].
    rewrite Hid, String.eqb_refl, Hrole. reflexivity.
Qed.

(** X3. A new account starts as active staff: once [sign_up] has gone
    through, the new user passes the policies that ask for an active
    profile (inserting and updating products, inserting stock
    transactions), is no admin, and nobody else's standing has
    changed. *)
Theorem sign_up_gives_active_staff (cx : Ctx) (meta_name : option string) (db db' : Db) :
  sign_up cx meta_name db = Ok db' ->
  policy_products_insert db' (gen_random_uuid cx) = true /\
  policy_stock_transactions_insert db' (gen_random_uuid cx) = true /\
  caller_is_admin db' (gen_random_uuid cx) = false /\
  (forall uid, caller_is_admin db' uid = caller_is_admin db uid) /\
  (forall uid, uid <> gen_random_uuid cx ->
     caller_is_active db' uid = caller_is_active db uid).
Proof.
  unfold sign_up. intros H.
  destruct (has_user db (gen_random_uuid cx) ||
            existsb (fun p => String.eqb (Profile.id p) (gen_random_uuid cx)) (profiles db))
    eqn:Hfresh; [discriminate |].
  injection H as <-.
  apply orb_false_iff in Hfresh. destruct Hfresh as [_ Hfresh].
  assert (Hadm : forall uid, caller_is_admin
                   (handle_new_user cx (gen_random_uuid cx) meta_name
                      (mkDb (auth_users db ++ [gen_random_uuid cx]) (profiles db)
                         (categories db) (products db) (stock_transactions db))) uid
                 = caller_is_admin db uid).
  { intros uid. unfold caller_is_admin, handle_new_user. simpl.
    rewrite existsb_app. simpl. now rewrite andb_false_r, !orb_false_r. }
  assert (Hact : forall uid, caller_is_active
                   (handle_new_user cx (gen_random_uuid cx) meta_name
                      (mkDb (auth_users db ++ [gen_random_uuid cx]) (profiles db)
                         (categories db) (products db) (stock_transactions db))) uid
                 = caller_is_active db uid || String.eqb (gen_random_uuid cx) uid).
  { intros uid. unfold caller_is_active, handle_new_user. simpl.
    rewrite existsb_app. simpl. now rewrite andb_true_r, orb_false_r. }
  unfold policy_products_insert, policy_stock_transactions_insert.
  repeat split.
  - rewrite Hact, String.eqb_refl. apply orb_true_r.
  - rewrite Hact, String.eqb_refl. apply orb_true_r.
  - rewrite Hadm.
    destruct (caller_is_admin db (gen_random_uuid cx)) eqn:E; [| reflexivity].
    apply caller_is_admin_iff in E. destruct E as [p [Hin [Hid _]]].
    assert (existsb (fun p => String.eqb (Profile.id p) (gen_random_uuid cx)) (profiles db)
            = true).
    { apply existsb_exists. exists p. split; [exact Hin | now apply String.eqb_eq]. }
    congruence.
  - exact Hadm.
  - intros uid Hne. rewrite Hact.
    destruct (String.eqb_spec (gen_random_uuid cx) uid); [congruence | apply orb_false_r].
Qed.

Lemma sign_up_gives_active_staff_witness :
  policy_products_insert
    (handle_new_user (mkCtx "" 5 "u9") "u9" (Some "Eli")
       (mkDb (auth_users Scenario.empty_shop ++ ["u9"]) (profiles Scenario.empty_shop)
          (categories Scenario.empty_shop) (products Scenario.empty_shop)
          (stock_transactions Scenario.empty_shop))) "u9" = true.
Proof.
  apply (sign_up_gives_active_staff (mkCtx "" 5 "u9") (Some "Eli") Scenario.empty_shop).
  reflexivity.
Defined.

(** X4. The policy "Users can update own profile" looks at the row's id
    and at no column: whoever has a profile can set their own role to
    admin, and a user who was switched off can switch themselves on
    again; the store accepts both updates and the caller passes the
    admin, respectively the active, predicate afterwards. *)
Theorem own_profile_update_is_unrestricted (db : Db) (p : Profile.t) (t : timestamptz)
    (g : uuid) :
  In p (profiles db) ->
  (exists db',
     exec (mkCtx (Profile.id p) t g)
       (UpdateProfile (ProfilePayload.mk None (Some admin) None) (Profile.id p)) db
     = Ok db' /\
     caller_is_admin db' (Profile.id p) = true) /\
  (exists db',
     exec (mkCtx (Profile.id p) t g)
       (UpdateProfile (ProfilePayload.mk None None (Some (Some true))) (Profile.id p)) db
     = Ok db' /\
     caller_is_active db' (Profile.id p) = true).
Proof.
  intros Hin. split; eexists; (split; [reflexivity |]).
  - apply caller_is_admin_iff. eexists. split.
    + simpl. apply in_map_iff. exists p. split; [reflexivity | exact Hin].
    + unfold policy_profiles_update. simpl. rewrite !String.eqb_refl. simpl. split; reflexivity.
  - apply caller_is_active_iff. eexists. split.
    + simpl. apply in_map_iff. exists p. split; [reflexivity | exact Hin].
    + unfold policy_profiles_update. simpl. rewrite !String.eqb_refl. simpl. split; reflexivity.
Qed.

Lemma own_profile_update_is_unrestricted_witness :
  (exists db',
     exec (mkCtx "u3" 7 "")
       (UpdateProfile (ProfilePayload.mk None (Some admin) None) "u3") (Scenario.shop 3)
     = Ok db' /\
     caller_is_admin db' "u3" = true) /\
  (exists db',
     exec (mkCtx "u3" 7 "")
       (UpdateProfile (ProfilePayload.mk None None (Some (Some true))) "u3") (Scenario.shop 3)
     = Ok db' /\
     caller_is_active db' "u3" = true).
Proof.
  apply (own_profile_update_is_unrestricted (Scenario.shop 3)
           (Profile.mk "u3" "Dana" staff (Some false) 0 0) 7 "").
  simpl. right. right. right. left. reflexivity.
Defined.

Lemma with_profiles_same (db : Db) : with_profiles db (profiles db) = db.
Proof. now destruct db. Qed.

Lemma with_products_same (db : Db) : with_products db (products db) = db.
Proof. now destruct db. Qed.

Lemma with_stock_transactions_same (db : Db) :
  with_stock_transactions db (stock_transactions db) = db.
Proof. now destruct db. Qed.

Lemma with_categories_same (db : Db) : with_categories db (categories db) = db.
Proof. now destruct db. Qed.

Lemma existsb_map_pointwise {A : Type} (f : A -> bool) (h : A -> A) (l : list A) :
  (forall a, f (h a) = f a) -> existsb f (map h l) = existsb f l.
Proof.
  intros H. induction l as [| a l IH]; simpl; [reflexivity |]. now rewrite H, IH.
Qed.

(** X5. When an admin presses Disable or Enable for a user in the Users
    page, the store sets that user's flag to the opposite of the status
    the page showed; from then on the policies that ask for an active
    profile answer accordingly for that user, and for nobody else does
    the answer change.  Products and ledger are untouched. *)
Theorem admin_toggle_sets_the_flag (db : Db) (p : Profile.t) (currentStatus : bool)
    (uid : uuid) (t : timestamptz) :
  reachable db ->
  caller_is_admin db uid = true ->
  In p (profiles db) ->
  exists db',
    Users.toggleUserStatus (Profile.id p) currentStatus uid t db = (db', Ok tt) /\
    caller_is_active db' (Profile.id p) = negb currentStatus /\
    (forall u, u <> Profile.id p -> caller_is_active db' u = caller_is_active db u) /\
    products db' = products db /\
    stock_transactions db' = stock_transactions db.
Proof.
  intros Hreach Hadmin Hin.
  destruct (reachable_pk_unique db Hreach) as [_ [Hnd _]].
  unfold Users.toggleUserStatus, request, update_profiles. simpl.
  eexists. split; [reflexivity |].
  set (upd := fun q : Profile.t =>
                if String.eqb (Profile.id q) (Profile.id p) &&
                   policy_profiles_update db uid (Profile.id q)
                then Profile.mk (Profile.id q) (Profile.name q) (Profile.role q)
                       (Some (negb currentStatus)) (Profile.created_at q) t
                else q).
  assert (Hids : map Profile.id (map upd (profiles db)) = map Profile.id (profiles db)).
  { apply map_key_kept. intros a. unfold upd. now destruct (_ && _). }
  split; [| split; [| split; reflexivity]].
  - assert (Hp' : In (upd p) (map upd (profiles db))) by now apply in_map.
    assert (Hid' : Profile.id (upd p) = Profile.id p)
      by (unfold upd; now destruct (_ && _)).
    pose proof (caller_is_active_profile
                  (with_profiles db (map upd (profiles db))) (upd p)) as H.
    simpl in H. rewrite Hids, Hid' in H. specialize (H Hnd Hp').
    change (caller_is_active (with_profiles db (map upd (profiles db))) (Profile.id p)
            = negb currentStatus).
    rewrite H. unfold upd, policy_profiles_update.
    rewrite String.eqb_refl, Hadmin, orb_true_r. simpl.
    now destruct currentStatus.
  - intros u Hne. unfold caller_is_active. simpl.
    change (existsb (fun q => String.eqb (Profile.id q) u &&
                              match Profile.is_active q with Some true => true | _ => false end)
              (map upd (profiles db)) = 
            existsb (fun q => String.eqb (Profile.id q) u &&
                              match Profile.is_active q with Some true => true | _ => false end)
              (profiles db)).
    apply existsb_map_pointwise. intros a. unfold upd.
    destruct (String.eqb_spec (Profile.id a) (Profile.id p)) as [E | N]; simpl;
      [| reflexivity].
    destruct (policy_profiles_update db uid (Profile.id a)); [| reflexivity].
    simpl. destruct (String.eqb_spec (Profile.id a) u); [congruence | reflexivity].
Qed.

Lemma admin_toggle_sets_the_flag_witness :
  exists db',
    Users.toggleUserStatus "u1" true "a1" 8 (Scenario.shop 3) = (db', Ok tt) /\
    caller_is_active db' "u1" = false /\
    (forall u, u <> "u1" -> caller_is_active db' u = caller_is_active (Scenario.shop 3) u) /\
    products db' = products (Scenario.shop 3) /\
    stock_transactions db' = stock_transactions (Scenario.shop 3).
Proof.
  apply (admin_toggle_sets_the_flag (Scenario.shop 3)
           (Profile.mk "u1" "Bram" staff (Some true) 0 0) true "a1" 8).
  - apply shop_reachable. reflexivity.
  - reflexivity.
  - simpl. right. left. reflexivity.
Defined.

(** X6. Pressing the same buttons without being an admin, on somebody
    else's row, does nothing at all: the policy hides the row from the
    update, the store is as before, and the handler is told of no
    error. *)
Theorem profile_update_by_others_is_a_silent_no_op (db : Db) (userId uid : uuid)
    (currentStatus confirmed : bool) (newRole : Role) (t : timestamptz) :
  caller_is_admin db uid = false ->
  uid <> userId ->
  Users.toggleUserStatus userId currentStatus uid t db = (db, Ok tt) /\
  Users.updateUserRole confirmed userId newRole uid t db = (db, Ok tt).
Proof.
  intros Hadmin Hne.
  assert (Hsame : forall payload,
             update_profiles (mkCtx uid t "") payload userId db = Ok db).
  { intros payload. unfold update_profiles. simpl. rewrite map_same.
    - now rewrite with_profiles_same.
    - intros a. unfold policy_profiles_update. rewrite Hadmin, orb_false_r.
      destruct (String.eqb_spec (Profile.id a) userId) as [E | N]; simpl; [| reflexivity].
      destruct (String.eqb_spec uid (Profile.id a)); [congruence | reflexivity]. }
  unfold Users.toggleUserStatus, Users.updateUserRole, request.
  split.
  - now rewrite Hsame.
  - destruct confirmed; cbn [negb]; [now rewrite Hsame | reflexivity].
Qed.

Lemma profile_update_by_others_is_a_silent_no_op_witness :
  Users.toggleUserStatus "u2" true "u1" 8 (Scenario.shop 3) = (Scenario.shop 3, Ok tt) /\
  Users.updateUserRole true "u2" admin "u1" 8 (Scenario.shop 3) = (Scenario.shop 3, Ok tt).
Proof.
  apply (profile_update_by_others_is_a_silent_no_op (Scenario.shop 3) "u2" "u1"
           true true admin 8).
  - reflexivity.
  - intros H. discriminate H.
Defined.

(** X7. A caller whose profile is neither active nor admin cannot change
    a product, a category or the ledger: whatever request of theirs the
    store accepts leaves the three tables as they were. *)
Theorem without_standing_no_data_changes (cx : Ctx) (r : Request) (db db' : Db) :
  caller_is_active db (auth_uid cx) = false ->
  caller_is_admin db (auth_uid cx) = false ->
  exec cx r db = Ok db' ->
  products db' = products db /\
  categories db' = categories db /\
  stock_transactions db' = stock_transactions db.
Proof.
  intros Hact Hadm Hexec.
  destruct r; simpl in Hexec;
    [ unfold sign_up in Hexec | unfold update_profiles in Hexec
    | unfold insert_categories, policy_categories_insert in Hexec
    | unfold update_categories, policy_categories_update in Hexec
    | unfold delete_categories, policy_categories_delete in Hexec
    | unfold insert_products, policy_products_insert in Hexec
    | unfold update_products, policy_products_update in Hexec
    | unfold delete_products, policy_products_delete in Hexec
    | unfold insert_stock_transactions, policy_stock_transactions_insert in Hexec
    | unfold update_stock_transactions, policy_stock_transactions_update in Hexec
    | unfold delete_stock_transactions, policy_stock_transactions_delete in Hexec
    | unfold insert_profiles in Hexec | unfold delete_profiles in Hexec ];
    rewrite ?Hact, ?Hadm in Hexec; simpl in Hexec;
    try discriminate Hexec;
    split_statement Hexec; simpl; repeat split;
    try reflexivity.
  - apply map_same. intros a. now rewrite andb_false_r.
  - apply filter_all. intros a. now rewrite andb_false_r.
Qed.

Lemma without_standing_no_data_changes_witness :
  products (Scenario.shop 3) = products (Scenario.shop 3) /\
  categories (Scenario.shop 3) = categories (Scenario.shop 3) /\
  stock_transactions (Scenario.shop 3) = stock_transactions (Scenario.shop 3).
Proof.
  apply (without_standing_no_data_changes (mkCtx "u3" 8 "")
           (UpdateProduct (ProductPayload.mk None None None None (Some (Some 99)) None None)
              "p1")
           (Scenario.shop 3) (Scenario.shop 3)); reflexivity.
Defined.

(* ===================================================================== *)
(** ** Deleting from the Products and Categories pages *)
(* ===================================================================== *)

Lemma find_after_delete_same (pid : uuid) (rows : list Product.t) :
  find (fun p => String.eqb (Product.id p) pid)
       (filter (fun p => negb (String.eqb (Product.id p) pid)) rows) = None.
Proof.
  induction rows as [| r rows IH]; simpl; [reflexivity |].
  destruct (String.eqb (Product.id r) pid) eqn:E; simpl; [exact IH |].
  rewrite E. exact IH.
Qed.

Lemma find_after_delete_other (pid k : uuid) (rows : list Product.t) :
  k <> pid ->
  find (fun p => String.eqb (Product.id p) k)
       (filter (fun p => negb (String.eqb (Product.id p) pid)) rows)
  = find (fun p => String.eqb (Product.id p) k) rows.
Proof.
  intros Hne. induction rows as [| r rows IH]; simpl; [reflexivity |].
  destruct (String.eqb_spec (Product.id r) pid) as [E | N]; simpl.
  - destruct (String.eqb_spec (Product.id r) k); [congruence | exact IH].
  - destruct (String.eqb (Product.id r) k); [reflexivity | exact IH].
Qed.

Lemma ledger_after_delete_same (pid : uuid) (rows : list StockTransaction.t) :
  filter (fun t => String.eqb (StockTransaction.product_id t) pid)
         (filter (fun t => negb (String.eqb (StockTransaction.product_id t) pid)) rows) = [].
Proof.
  induction rows as [| r rows IH]; simpl; [reflexivity |].
  destruct (String.eqb (StockTransaction.product_id r) pid) eqn:E; simpl; [exact IH |].
  rewrite E. exact IH.
Qed.

Lemma ledger_after_delete_other (pid k : uuid) (rows : list StockTransaction.t) :
  k <> pid ->
  filter (fun t => String.eqb (StockTransaction.product_id t) k)
         (filter (fun t => negb (String.eqb (StockTransaction.product_id t) pid)) rows)
  = filter (fun t => String.eqb (StockTransaction.product_id t) k) rows.
Proof.
  intros Hne. induction rows as [| r rows IH]; simpl; [reflexivity |].
  destruct (String.eqb_spec (StockTransaction.product_id r) pid) as [E | N]; simpl.
  - destruct (String.eqb_spec (StockTransaction.product_id r) k); [congruence | exact IH].
  - destruct (String.eqb (StockTransaction.product_id r) k); [now rewrite IH | exact IH].
Qed.

(** X9. When an admin confirms the deletion of a stored product, the
    product is gone together with every ledger row recorded for it, and
    that is all: every other product and the ledger rows of every other
    product are as before, and so are categories and profiles. *)
Theorem admin_delete_takes_product_and_its_ledger (db : Db) (id uid : uuid)
    (t : timestamptz) :
  caller_is_admin db uid = true ->
  has_product db id = true ->
  exists db',
    Products.handleDelete true id uid t db = (db', Ok tt) /\
    stored_product db' id = None /\
    ledger_of db' id = [] /\
    (forall k, k <> id ->
       stored_product db' k = stored_product db k /\
       ledger_of db' k = ledger_of db k) /\
    categories db' = categories db /\
    profiles db' = profiles db.
Proof.
  intros Hadmin Hprod.
  unfold Products.handleDelete, request, delete_products, policy_products_delete.
  simpl. rewrite Hadmin, Hprod. simpl.
  eexists. split; [reflexivity |].
  unfold stored_product, ledger_of. simpl.
  split; [apply find_after_delete_same |].
  split; [apply ledger_after_delete_same |].
  split; [| split; reflexivity].
  intros k Hne. split;
    [now apply find_after_delete_other | now apply ledger_after_delete_other].
Qed.

Lemma admin_delete_takes_product_and_its_ledger_witness :
  exists db',
    Products.handleDelete true "p1" "a1" 9 ScenarioStore.after_arrival = (db', Ok tt) /\
    stored_product db' "p1" = None /\
    ledger_of db' "p1" = [] /\
    (forall k, k <> "p1" ->
       stored_product db' k = stored_product ScenarioStore.after_arrival k /\
       ledger_of db' k = ledger_of ScenarioStore.after_arrival k) /\
    categories db' = categories ScenarioStore.after_arrival /\
    profiles db' = profiles ScenarioStore.after_arrival.
Proof.
  apply (admin_delete_takes_product_and_its_ledger ScenarioStore.after_arrival "p1" "a1" 9);
    reflexivity.
Defined.

(** X10. A deletion that is not confirmed, or that comes from a caller
    who is no admin, changes nothing, on the Products page and on the
    Categories page alike; in the second case the request is sent, the
    policy hides every row from it, and the handler sees no error. *)
Theorem delete_without_admin_is_a_silent_no_op (db : Db) (confirmed : bool)
    (id uid : uuid) (t : timestamptz) :
  confirmed = false \/ caller_is_admin db uid = false ->
  Products.handleDelete confirmed id uid t db = (db, Ok tt) /\
  Categories.handleDelete confirmed id uid t db = (db, Ok tt).
Proof.
  intros H. unfold Products.handleDelete, Categories.handleDelete.
  destruct confirmed; cbn [negb]; [| split; reflexivity].
  destruct H as [H | H]; [discriminate |].
  unfold request, delete_products, delete_categories, policy_products_delete,
    policy_categories_delete. simpl. rewrite H. simpl. split; reflexivity.
Qed.

Lemma delete_without_admin_is_a_silent_no_op_witness :
  Products.handleDelete true "p1" "u1" 9 ScenarioStore.after_arrival
  = (ScenarioStore.after_arrival, Ok tt) /\
  Categories.handleDelete true "p1" "u1" 9 ScenarioStore.after_arrival
  = (ScenarioStore.after_arrival, Ok tt).
Proof.
  apply (delete_without_admin_is_a_silent_no_op ScenarioStore.after_arrival true
           "p1" "u1" 9).
  right. reflexivity.
Defined.

(* ===================================================================== *)
(** ** The product form *)
(* ===================================================================== *)

Lemma update_products_frame (cx : Ctx) (payload : ProductPayload.t) (pid : uuid)
    (db db' : Db) :
  update_products cx payload pid db = Ok db' ->
  stock_transactions db' = stock_transactions db /\
  categories db' = categories db /\
  profiles db' = profiles db /\
  map Product.id (products db') = map Product.id (products db).
Proof.
  unfold update_products. intros H. split_statement H; simpl; repeat split.
  apply map_key_kept. intros a. now destruct (String.eqb _ _).
Qed.

Lemma insert_products_frame (cx : Ctx) (payload : ProductPayload.t) (db db' : Db) :
  insert_products cx payload db = Ok db' ->
  stock_transactions db' = stock_transactions db /\
  categories db' = categories db /\
  profiles db' = profiles db /\
  exists row, products db' = products db ++ [row].
Proof.
  unfold insert_products. intros H. split_statement H; simpl; repeat split.
  eexists. reflexivity.
Qed.

(** X11. Saving the product form never writes the ledger, whether it
    creates a product or edits one (quantity included), whether the
    store accepts or refuses: stock transactions, categories and
    profiles are as before, and every product that was stored still
    is. *)
Theorem product_form_never_writes_the_ledger (parseFloat : string -> option Z)
    (product : option Product.t)
    (formData : ProductModal.FormData) (uid : uuid) (t : timestamptz) (g : uuid)
    (db : Db) :
  let db' := fst (ProductModal.handleSubmit parseFloat product formData uid t g db) in
  stock_transactions db' = stock_transactions db /\
  categories db' = categories db /\
  profiles db' = profiles db /\
  (forall k, has_product db k = true -> has_product db' k = true).
Proof.
  unfold ProductModal.handleSubmit, request.
  destruct product as [p |].
  - destruct (update_products _ _ _ db) as [db1 | e] eqn:E; simpl;
      [| repeat split; auto].
    destruct (update_products_frame _ _ _ _ _ E) as [Hl [Hc [Hf Hids]]].
    repeat split; try assumption.
    intros k Hk. now apply (same_ids_has_product db db1).
  - destruct (insert_products _ _ db) as [db1 | e] eqn:E; simpl;
      [| repeat split; auto].
    destruct (insert_products_frame _ _ _ _ E) as [Hl [Hc [Hf [row Hrows]]]].
    repeat split; try assumption.
    intros k Hk. rewrite has_product_iff in *. rewrite Hrows, map_app.
    apply in_or_app. now left.
Qed.

Lemma find_updated_row (pid : uuid) (h : Product.t -> Product.t)
    (rows : list Product.t) (p0 : Product.t) :
  (forall r, Product.id (h r) = Product.id r) ->
  find (fun r => String.eqb (Product.id r) pid) rows = Some p0 ->
  find (fun r => String.eqb (Product.id r) pid)
       (map (fun r => if String.eqb (Product.id r) pid then h r else r) rows)
  = Some (h p0).
Proof.
  intros Hh. induction rows as [| r rows IH]; simpl; [discriminate |].
  destruct (String.eqb (Product.id r) pid) eqn:E.
  - intros H. injection H as <-. simpl. now rewrite Hh, E.
  - intros H. rewrite E. now apply IH.
Qed.

Lemma find_other_row (pid k : uuid) (h : Product.t -> Product.t)
    (rows : list Product.t) :
  (forall r, Product.id (h r) = Product.id r) ->
  k <> pid ->
  find (fun r => String.eqb (Product.id r) k)
       (map (fun r => if String.eqb (Product.id r) pid then h r else r) rows)
  = find (fun r => String.eqb (Product.id r) k) rows.
Proof.
  intros Hh Hne. induction rows as [| r rows IH]; simpl; [reflexivity |].
  destruct (String.eqb_spec (Product.id r) pid) as [E | N].
  - rewrite Hh. destruct (String.eqb_spec (Product.id r) k); [congruence | exact IH].
  - destruct (String.eqb (Product.id r) k); [reflexivity | exact IH].
Qed.

(** What an accepted edit leaves in the store. *)
Lemma edit_accepted (parseFloat : string -> option Z) (p p0 : Product.t)
    (formData : ProductModal.FormData) (uid : uuid) (t : timestamptz) (g : uuid)
    (db : Db) (q pr : Z) :
  stored_product db (Product.id p) = Some p0 ->
  caller_is_active db uid = true ->
  parseInt (ProductModal.quantity formData) = Int q ->
  in_int4 q = true ->
  parseFloat (ProductModal.price formData) = Some pr ->
  in_decimal_10_2 pr = true ->
  existsb (fun r => negb (String.eqb (Product.id r) (Product.id p)) &&
                    String.eqb (Product.sku r) (ProductModal.sku formData))
          (products db) = false ->
  category_ref_ok db (form_category formData) = true ->
  exists db',
    ProductModal.handleSubmit parseFloat (Some p) formData uid t g db = (db', Ok tt) /\
    stored_product db' (Product.id p) =
      Some (Product.mk (Product.id p0) (ProductModal.name formData)
              (ProductModal.sku formData) (form_category formData) pr q (classify q)
              (ProductModal.description formData) (Product.created_at p0) t) /\
    (forall k, k <> Product.id p -> stored_product db' k = stored_product db k) /\
    stock_transactions db' = stock_transactions db.
Proof.
  intros Hst Hact Hq Hqr Hpr Hprr Hsku Hcat.
  unfold ProductModal.handleSubmit, request, update_products, policy_products_update,
    ProductModal.payload_of. simpl.
  rewrite Hq, Hpr. simpl. rewrite Hqr, Hprr, Hact. simpl.
  rewrite (stored_product_has db (Product.id p) p0 Hst). simpl.
  rewrite Hsku. unfold form_category in *.
  destruct (String.eqb (ProductModal.category_id formData) "") eqn:Ec; simpl in *;
    rewrite ?Hcat; simpl;
    (eexists; split; [reflexivity |]);
    unfold stored_product in *; simpl;
    (split; [| split; [| reflexivity]]).
  - erewrite find_updated_row; [| intros r; reflexivity | exact Hst].
    unfold update_product_row. simpl. reflexivity.
  - intros k Hne. apply find_other_row; [intros r; reflexivity | exact Hne].
  - erewrite find_updated_row; [| intros r; reflexivity | exact Hst].
    unfold update_product_row. simpl. reflexivity.
  - intros k Hne. apply find_other_row; [intros r; reflexivity | exact Hne].
Qed.

(** X12. An edit the store accepts writes the form onto the product:
    name, SKU, category, price, quantity and description are those of
    the form, the status is the classification of the new quantity,
    [updated_at] is the time of the edit, id and [created_at] stay.
    The quantity changes without any ledger row being written, and no
    other product is touched. *)
Theorem accepted_edit_writes_the_form (parseFloat : string -> option Z) (p p0 : Product.t)
    (formData : ProductModal.FormData) (uid : uuid) (t : timestamptz) (g : uuid)
    (db : Db) (q pr : Z) :
  stored_product db (Product.id p) = Some p0 ->
  caller_is_active db uid = true ->
  parseInt (ProductModal.quantity formData) = Int q ->
  in_int4 q = true ->
  parseFloat (ProductModal.price formData) = Some pr ->
  in_decimal_10_2 pr = true ->
  existsb (fun r => negb (String.eqb (Product.id r) (Product.id p)) &&
                    String.eqb (Product.sku r) (ProductModal.sku formData))
          (products db) = false ->
  category_ref_ok db (form_category formData) = true ->
  exists db',
    ProductModal.handleSubmit parseFloat (Some p) formData uid t g db = (db', Ok tt) /\
    stored_product db' (Product.id p) =
      Some (Product.mk (Product.id p0) (ProductModal.name formData)
              (ProductModal.sku formData) (form_category formData) pr q (classify q)
              (ProductModal.description formData) (Product.created_at p0) t) /\
    (forall k, k <> Product.id p -> stored_product db' k = stored_product db k) /\
    stock_transactions db' = stock_transactions db.
Proof.
  intros Hst Hact Hq Hqr Hpr Hprr Hsku Hcat.
  now apply edit_accepted.
Qed.

(** X13. A new product whose SKU is already taken is never created:
    whoever submits the form, the handler ends in an error and the
    store is as it was. *)
Theorem duplicate_sku_is_never_created (parseFloat : string -> option Z)
    (formData : ProductModal.FormData)
    (uid : uuid) (t : timestamptz) (g : uuid) (db : Db) (r : Product.t) :
  In r (products db) ->
  Product.sku r = ProductModal.sku formData ->
  exists e,
    ProductModal.handleSubmit parseFloat None formData uid t g db = (db, Error e).
Proof.
  intros Hin Hsku.
  assert (Hdup : existsb (fun p => String.eqb (Product.sku p) (ProductModal.sku formData))
                         (products db) = true).
  { apply existsb_exists. exists r. split; [exact Hin | now apply String.eqb_eq]. }
  unfold ProductModal.handleSubmit, request, insert_products, ProductModal.payload_of.
  simpl.
  destruct (negb (_ && _)); [eauto |].
  destruct (negb (policy_products_insert db uid)); [eauto |].
  destruct (parseFloat (ProductModal.price formData)); simpl; [| eauto].
  destruct (to_json (parseInt (ProductModal.quantity formData))); simpl; [| eauto].
  rewrite Hdup, orb_true_r. eauto.
Qed.

(** X14. For a user who is not active the two branches of the form
    differ: creating a product is refused with an error, while editing
    one, with numbers the columns can hold, closes the form as if saved
    although no row was visible to the update and nothing changed. *)
Theorem inactive_edit_is_silent_create_is_refused (parseFloat : string -> option Z)
    (p : Product.t)
    (formData : ProductModal.FormData) (uid : uuid) (t : timestamptz) (g : uuid)
    (db : Db) (q pr : Z) :
  caller_is_active db uid = false ->
  parseInt (ProductModal.quantity formData) = Int q ->
  in_int4 q = true ->
  parseFloat (ProductModal.price formData) = Some pr ->
  in_decimal_10_2 pr = true ->
  ProductModal.handleSubmit parseFloat (Some p) formData uid t g db = (db, Ok tt) /\
  ProductModal.handleSubmit parseFloat None formData uid t g db
  = (db, Error (PersistenceFailure insufficient_privilege)).
Proof.
  intros Hact Hq Hqr Hpr Hprr.
  unfold ProductModal.handleSubmit, request, update_products, insert_products,
    policy_products_update, policy_products_insert, ProductModal.payload_of. simpl.
  rewrite Hq, Hpr. simpl. rewrite Hqr, Hprr, Hact. simpl. split; reflexivity.
Qed.


Lemma accepted_edit_writes_the_form_witness :
  exists db',
    ProductModal.handleSubmit ScenarioRequests.whole_price (Some (Scenario.widget 3))
      ScenarioForms.widget_edit "u1" 9 "" (Scenario.shop 3) = (db', Ok tt) /\
    stored_product db' "p1" =
      Some (Product.mk "p1" "Widget Pro" "W-1" None 2500 7 (classify 7) "recounted" 1 9) /\
    (forall k, k <> "p1" -> stored_product db' k = stored_product (Scenario.shop 3) k) /\
    stock_transactions db' = stock_transactions (Scenario.shop 3).
Proof.
  apply (accepted_edit_writes_the_form ScenarioRequests.whole_price
           (Scenario.widget 3) (Scenario.widget 3) ScenarioForms.widget_edit
           "u1" 9 "" (Scenario.shop 3) 7 2500); reflexivity.
Defined.

Lemma duplicate_sku_is_never_created_witness :
  exists e,
    ProductModal.handleSubmit ScenarioRequests.whole_price None ScenarioForms.clash
      "u1" 9 "p2" (Scenario.shop 3) = (Scenario.shop 3, Error e).
Proof.
  apply (duplicate_sku_is_never_created ScenarioRequests.whole_price ScenarioForms.clash
           "u1" 9 "p2" (Scenario.shop 3) (Scenario.widget 3)).
  - left. reflexivity.
  - reflexivity.
Defined.

Lemma inactive_edit_is_silent_create_is_refused_witness :
  ProductModal.handleSubmit ScenarioRequests.whole_price (Some (Scenario.widget 3))
    ScenarioForms.widget_edit "u3" 9 "p2" (Scenario.shop 3) = (Scenario.shop 3, Ok tt) /\
  ProductModal.handleSubmit ScenarioRequests.whole_price None
    ScenarioForms.widget_edit "u3" 9 "p2" (Scenario.shop 3)
  = (Scenario.shop 3, Error (PersistenceFailure insufficient_privilege)).
Proof.
  apply (inactive_edit_is_silent_create_is_refused ScenarioRequests.whole_price
           (Scenario.widget 3) ScenarioForms.widget_edit "u3" 9 "p2" (Scenario.shop 3)
           7 2500); reflexivity.
Defined.

(* ===================================================================== *)
(** ** More on stock movements *)
(* ===================================================================== *)

Lemma insert_stock_transactions_shape (cx : Ctx) (payload : StockTransactionPayload.t)
    (db db1 : Db) :
  insert_stock_transactions cx payload db = Ok db1 ->
  exists q,
    StockTransactionPayload.quantity payload = Some q /\
    db1 = with_stock_transactions db
            (stock_transactions db ++
             [StockTransaction.mk (gen_random_uuid cx)
                (StockTransactionPayload.product_id payload)
                (StockTransactionPayload.user_id payload) q
                (StockTransactionPayload.type payload)
                (StockTransactionPayload.notes payload) (now cx)]).
Proof.
  unfold insert_stock_transactions. intros H. split_statement H.
  eexists. split; reflexivity.
Qed.

(** X15. However a stock movement ends, the handler has done one of
    three things.  Either it wrote nothing and reports an error; or it
    added exactly one ledger row (for the chosen product, by [userId],
    with the parsed quantity) and ended normally; or it added that row,
    the update of the product was refused, and it reports the error with
    the products as they were.  So no product is ever changed without a
    ledger row, but a ledger row can be left without its product
    change.  Accounts, profiles and categories are never touched, and no
    product appears or disappears. *)
Theorem movement_outcomes (snapshot : list Product.t) (userId : uuid)
    (formData : StockModal.FormData) (uid : uuid) (t1 : timestamptz) (g : uuid)
    (t2 : timestamptz) (db : Db) :
  let r := StockModal.handleSubmit snapshot userId formData uid t1 g t2 db in
  ((fst r = db /\ exists e, snd r = Error e) \/
   (exists q,
      parseInt (StockModal.quantity formData) = Int q /\
      stock_transactions (fst r) =
        stock_transactions db ++ [StockModal.ledger_row userId formData g t1 q] /\
      (snd r = Ok tt \/
       (products (fst r) = products db /\
        exists e, snd r = Error (PersistenceFailure e))))) /\
  auth_users (fst r) = auth_users db /\
  profiles (fst r) = profiles db /\
  categories (fst r) = categories db /\
  map Product.id (products (fst r)) = map Product.id (products db).
Proof.
  unfold StockModal.handleSubmit.
  destruct (find _ snapshot) as [product |]; simpl; [| split; [left |]; eauto 6].
  destruct (_ && _); simpl; [split; [left |]; eauto 6 |].
  unfold bind, request.
  destruct (insert_stock_transactions _ _ db) as [db1 | e] eqn:E1; simpl;
    [| split; [left |]; eauto 6].
  apply insert_stock_transactions_shape in E1. simpl in E1.
  destruct E1 as [q [Hq ->]].
  assert (Hparse : parseInt (StockModal.quantity formData) = Int q).
  { destruct (parseInt (StockModal.quantity formData)); simpl in Hq; congruence. }
  match goal with
  | |- context [update_products ?cx ?payload ?pid ?d] =>
      destruct (update_products cx payload pid d) as [db2 | e] eqn:E2
  end; simpl.
  - destruct (update_products_frame _ _ _ _ _ E2) as [Hl [Hc [Hf Hids]]].
    simpl in *. split.
    + right. exists q. split; [exact Hparse |]. split; [exact Hl | now left].
    + unfold update_products in E2. split_statement E2; simpl; repeat split;
        try reflexivity.
      apply map_key_kept. intros a. now destruct (String.eqb _ _).
  - split; [| repeat split].
    right. exists q. split; [exact Hparse |]. split; [reflexivity |].
    right. split; [reflexivity | eauto].
Qed.

(** X16. The two writes of a movement are not one: when the ledger
    insert is accepted and the new quantity does not fit the [integer]
    column, the update is refused, the handler reports the error, and
    the store keeps the new ledger row beside the unchanged product. *)
Theorem ledger_row_without_quantity_change
    (snapshot : list Product.t) (userId : uuid) (formData : StockModal.FormData)
    (uid : uuid) (t1 : timestamptz) (g : uuid) (t2 : timestamptz)
    (product : Product.t) (q : Z) (db : Db) :
  find (fun p => String.eqb (Product.id p) (StockModal.product_id formData)) snapshot
  = Some product ->
  parseInt (StockModal.quantity formData) = Int q ->
  (StockModal.type formData = OUT -> q <= Product.quantity product) ->
  caller_is_active db uid = true ->
  has_product db (StockModal.product_id formData) = true ->
  has_user db userId = true ->
  existsb (fun t => String.eqb (StockTransaction.id t) g) (stock_transactions db) = false ->
  in_int4 q = true ->
  in_int4 (StockModal.newQuantity_of formData product q) = false ->
  StockModal.handleSubmit snapshot userId formData uid t1 g t2 db =
  (with_stock_transactions db
     (stock_transactions db ++ [StockModal.ledger_row userId formData g t1 q]),
   Error (PersistenceFailure numeric_value_out_of_range)).
Proof.
  intros Hf Hp Hguard Hact Hprod Huser Hfresh Hq Hnew.
  unfold StockModal.handleSubmit. rewrite Hf, Hp.
  rewrite (guard_passes formData product q Hguard).
  unfold bind, request, insert_stock_transactions, policy_stock_transactions_insert.
  simpl. rewrite Hq, Hact, Hfresh, Hprod, Huser. simpl.
  assert (Hn : match StockModal.type formData with
               | IN => Int (Product.quantity product + q)
               | OUT => Int (Product.quantity product - q)
               end = Int (StockModal.newQuantity_of formData product q))
    by (unfold StockModal.newQuantity_of; destruct (StockModal.type formData); reflexivity).
  rewrite Hn. unfold update_products, policy_products_update. simpl.
  unfold caller_is_active in *. simpl. rewrite Hact.
  unfold has_product in *. simpl. rewrite Hprod. simpl.
  rewrite Hnew. reflexivity.
Qed.

Lemma ledger_row_without_quantity_change_witness :
  StockModal.handleSubmit [Scenario.widget int4_max] "u1" (Scenario.movement IN "1")
    "u1" 2 "t1" 3 ScenarioLimits.full_shop =
  (with_stock_transactions ScenarioLimits.full_shop
     [StockTransaction.mk "t1" "p1" "u1" 1 IN "" 2],
   Error (PersistenceFailure numeric_value_out_of_range)).
Proof.
  apply (ledger_row_without_quantity_change
           [Scenario.widget int4_max] "u1" (Scenario.movement IN "1") "u1" 2 "t1" 3
           (Scenario.widget int4_max) 1 ScenarioLimits.full_shop).
  - reflexivity.
  - reflexivity.
  - intros H. discriminate H.
  - reflexivity.
  - reflexivity.
  - reflexivity.
  - reflexivity.
  - reflexivity.
  - reflexivity.
Defined.

Lemma sum_snoc (l : list Z) (x : Z) :
  fold_right Z.add 0 (l ++ [x]) = fold_right Z.add 0 l + x.
Proof. induction l as [| a l IH]; simpl; [lia | rewrite IH; lia]. Qed.

Lemma net_movement_after (db : Db) (row : StockTransaction.t) :
  net_movement (with_stock_transactions db (stock_transactions db ++ [row]))
               (StockTransaction.product_id row)
  = net_movement db (StockTransaction.product_id row) + signed_quantity row.
Proof.
  unfold net_movement, ledger_of. simpl.
  rewrite filter_app. simpl. rewrite String.eqb_refl, map_app. simpl. apply sum_snoc.
Qed.

(** X17. A movement recorded against a freshly loaded product list moves
    the stored quantity and the ledger by the same amount: the
    difference between the product's quantity and the total of its
    ledger rows (IN counted positive, OUT negative) is the same after
    the movement as before. *)
Theorem fresh_movement_keeps_ledger_in_step
    (page : list Product.t) (userId : uuid) (formData : StockModal.FormData)
    (uid : uuid) (t1 : timestamptz) (g : uuid) (t2 : timestamptz)
    (p0 : Product.t) (q : Z) (db : Db) :
  reachable db ->
  loadProducts db page ->
  stored_product db (StockModal.product_id formData) = Some p0 ->
  parseInt (StockModal.quantity formData) = Int q ->
  (StockModal.type formData = OUT -> q <= Product.quantity p0) ->
  caller_is_active db uid = true ->
  has_user db userId = true ->
  existsb (fun t => String.eqb (StockTransaction.id t) g) (stock_transactions db) = false ->
  in_int4 q = true ->
  in_int4 (StockModal.newQuantity_of formData p0 q) = true ->
  exists db' p',
    StockModal.handleSubmit page userId formData uid t1 g t2 db = (db', Ok tt) /\
    stored_product db' (StockModal.product_id formData) = Some p' /\
    Product.quantity p' - net_movement db' (StockModal.product_id formData)
    = Product.quantity p0 - net_movement db (StockModal.product_id formData).
Proof.
  intros Hreach Hload Hst Hp Hguard Hact Huser Hfresh Hq Hnew.
  destruct (reachable_pk_unique db Hreach) as [Hnd _].
  assert (Hf : find (fun p => String.eqb (Product.id p) (StockModal.product_id formData)) page
               = Some p0)
    by (rewrite (find_in_loaded_list db page _ Hnd Hload); exact Hst).
  pose proof (handleSubmit_accepted page userId formData uid t1 g t2 p0 q Hf Hp db
                Hguard Hact (stored_product_has db _ p0 Hst) Huser Hfresh Hq Hnew) as Hrun.
  eexists. eexists. split; [exact Hrun |]. split.
  - unfold stored_product. simpl. apply products_after_find. exact Hst.
  - pose proof (net_movement_after db (StockModal.ledger_row userId formData g t1 q)) as Hnet.
    simpl in Hnet. unfold net_movement, ledger_of in *. simpl in *. rewrite Hnet.
    unfold StockModal.newQuantity_of, signed_quantity. simpl.
    destruct (StockModal.type formData); lia.
Qed.

Lemma fresh_movement_keeps_ledger_in_step_witness :
  exists db' p',
    StockModal.handleSubmit [Scenario.widget 3] "u1" (Scenario.movement OUT "2")
      "u1" 2 "t1" 3 (Scenario.shop 3) = (db', Ok tt) /\
    stored_product db' "p1" = Some p' /\
    Product.quantity p' - net_movement db' "p1" = 3 - net_movement (Scenario.shop 3) "p1".
Proof.
  apply (fresh_movement_keeps_ledger_in_step
           [Scenario.widget 3] "u1" (Scenario.movement OUT "2") "u1" 2 "t1" 3
           (Scenario.widget 3) 2 (Scenario.shop 3)).
  - apply shop_reachable. reflexivity.
  - apply Permutation_refl.
  - reflexivity.
  - reflexivity.
  - intros _. simpl. lia.
  - reflexivity.
  - reflexivity.
  - reflexivity.
  - reflexivity.
  - reflexivity.
Defined.

(** X18. Two movements submitted from the same loaded list do not add
    up.  When both are accepted, the ledger holds both rows, but the
    second update is computed from the quantity in the list, so the
    stored quantity ends as if the first movement had not happened. *)
Theorem second_movement_from_same_list_overwrites_first
    (page : list Product.t) (pid userA userB uidA uidB : uuid)
    (typeA typeB : TxType) (sA sB notesA notesB : string) (qA qB : Z)
    (t1 t2 t3 t4 : timestamptz) (gA gB : uuid) (p0 : Product.t) (db : Db) :
  let fdA := StockModal.mkFormData pid typeA sA notesA in
  let fdB := StockModal.mkFormData pid typeB sB notesB in
  find (fun p => String.eqb (Product.id p) pid) page = Some p0 ->
  stored_product db pid = Some p0 ->
  parseInt sA = Int qA ->
  parseInt sB = Int qB ->
  (typeA = OUT -> qA <= Product.quantity p0) ->
  (typeB = OUT -> qB <= Product.quantity p0) ->
  caller_is_active db uidA = true ->
  caller_is_active db uidB = true ->
  has_user db userA = true ->
  has_user db userB = true ->
  existsb (fun t => String.eqb (StockTransaction.id t) gA) (stock_transactions db) = false ->
  existsb (fun t => String.eqb (StockTransaction.id t) gB) (stock_transactions db) = false ->
  gA <> gB ->
  in_int4 qA = true ->
  in_int4 qB = true ->
  in_int4 (StockModal.newQuantity_of fdA p0 qA) = true ->
  in_int4 (StockModal.newQuantity_of fdB p0 qB) = true ->
  exists dbA dbB pB,
    StockModal.handleSubmit page userA fdA uidA t1 gA t2 db = (dbA, Ok tt) /\
    StockModal.handleSubmit page userB fdB uidB t3 gB t4 dbA = (dbB, Ok tt) /\
    stock_transactions dbB =
      stock_transactions db ++
      [StockModal.ledger_row userA fdA gA t1 qA; StockModal.ledger_row userB fdB gB t3 qB] /\
    stored_product dbB pid = Some pB /\
    Product.quantity pB =
      match typeB with
      | IN => Product.quantity p0 + qB
      | OUT => Product.quantity p0 - qB
      end.
Proof.
  intros fdA fdB Hf Hst HpA HpB HgA HgB HactA HactB HuA HuB HfA HfB Hne HqA HqB HnA HnB.
  pose proof (handleSubmit_accepted page userA fdA uidA t1 gA t2 p0 qA Hf HpA db
                HgA HactA (stored_product_has db pid p0 Hst) HuA HfA HqA HnA) as HrunA.
  set (dbA := mkDb (auth_users db) (profiles db) (categories db)
                (StockModal.products_after fdA uidA t2 gA
                   (StockModal.newQuantity_of fdA p0 qA) (products db))
                (stock_transactions db ++ [StockModal.ledger_row userA fdA gA t1 qA])) in *.
  assert (HstA : stored_product dbA pid
                 = Some (update_product_row (mkCtx uidA t2 gA)
                           (StockModal.quantity_update (StockModal.newQuantity_of fdA p0 qA))
                           p0)).
  { unfold stored_product, dbA. simpl.
    apply (products_after_find fdA uidA t2 gA _ (products db) p0). exact Hst. }
  assert (HfreshB : existsb (fun t => String.eqb (StockTransaction.id t) gB)
                            (stock_transactions dbA) = false).
  { unfold dbA. simpl. rewrite existsb_app, HfB. simpl.
    destruct (String.eqb_spec gA gB); [contradiction | reflexivity]. }
  pose proof (handleSubmit_accepted page userB fdB uidB t3 gB t4 p0 qB Hf HpB dbA
                HgB HactB (stored_product_has dbA pid _ HstA) HuB HfreshB HqB HnB) as HrunB.
  eexists. eexists. eexists.
  split; [exact HrunA |]. split; [exact HrunB |]. simpl.
  split; [now rewrite <- app_assoc |].
  split.
  - unfold stored_product. simpl.
    apply (products_after_find fdB uidB t4 gB _ (products dbA)). exact HstA.
  - simpl. unfold StockModal.newQuantity_of. simpl. reflexivity.
Qed.

Lemma second_movement_from_same_list_overwrites_first_witness :
  exists dbA dbB pB,
    StockModal.handleSubmit [Scenario.widget 10] "u2" (Scenario.movement OUT "8")
      "u2" 2 "t1" 3 (Scenario.shop 10) = (dbA, Ok tt) /\
    StockModal.handleSubmit [Scenario.widget 10] "u1" (Scenario.movement OUT "5")
      "u1" 4 "t2" 5 dbA = (dbB, Ok tt) /\
    stock_transactions dbB =
      [StockTransaction.mk "t1" "p1" "u2" 8 OUT "" 2;
       StockTransaction.mk "t2" "p1" "u1" 5 OUT "" 4] /\
    stored_product dbB "p1" = Some pB /\
    Product.quantity pB = 10 - 5.
Proof.
  apply (second_movement_from_same_list_overwrites_first
           [Scenario.widget 10] "p1" "u2" "u1" "u2" "u1" OUT OUT "8" "5" "" "" 8 5
           2 3 4 5 "t1" "t2" (Scenario.widget 10) (Scenario.shop 10));
    try reflexivity.
  - intros _. simpl. lia.
  - intros _. simpl. lia.
  - intros H. discriminate H.
Defined.

(* ===================================================================== *)
(** ** The dashboard's counts *)
(* ===================================================================== *)

Lemma count_permutation {A : Type} (f : A -> bool) (l l' : list A) :
  Permutation l l' -> List.length (filter f l) = List.length (filter f l').
Proof.
  intros H. induction H as [| x l l' _ IH | x y l | l l' l'' _ IH1 _ IH2]; simpl.
  - reflexivity.
  - destruct (f x); simpl; now rewrite IH.
  - destruct (f x), (f y); reflexivity.
  - now rewrite IH1.
Qed.

Lemma count_map {A B : Type} (f : B -> bool) (h : A -> B) (l : list A) :
  List.length (filter f (map h l)) = List.length (filter (fun a => f (h a)) l).
Proof.
  induction l as [| a l IH]; simpl; [reflexivity |].
  destruct (f (h a)); simpl; now rewrite IH.
Qed.

Lemma count_ext_in {A : Type} (f g : A -> bool) (l : list A) :
  (forall a, In a l -> f a = g a) ->
  List.length (filter f l) = List.length (filter g l).
Proof. intros H. now rewrite (filter_ext_in f g l H). Qed.

Lemma count_split {A : Type} (f g h : A -> bool) (l : list A) :
  (forall a, In a l ->
     (f a = true /\ g a = false /\ h a = false) \/
     (f a = false /\ g a = true /\ h a = false) \/
     (f a = false /\ g a = false /\ h a = true)) ->
  (List.length l
   = List.length (filter f l) + List.length (filter g l) + List.length (filter h l))%nat.
Proof.
  induction l as [| a l IH]; simpl; intros H; [reflexivity |].
  rewrite IH by (intros b Hb; apply H; now right).
  destruct (H a (or_introl eq_refl)) as [[-> [-> ->]] | [[-> [-> ->]] | [-> [-> ->]]]];
    simpl; lia.
Qed.

(** X19. What the dashboard shows, read against the store it was loaded
    from (a reachable one): Total Products is the number of products,
    Out of Stock the number of products holding 0, Low Stock Items the
    number holding something other than 0 and less than 5 (a negative
    quantity counts here), and the three groups together with the
    products holding 5 or more make up the total.  Total Categories is
    the number of categories. *)
Theorem dashboard_counts (db : Db) (statuses : list Status) (ids : list uuid)
    (stats : Dashboard.DashboardStats) :
  reachable db ->
  Permutation statuses (map Product.status (products db)) ->
  Permutation ids (map Category.id (categories db)) ->
  let shown := Dashboard.loadDashboardData (Some statuses) (Some ids) stats in
  Dashboard.totalProducts shown = List.length (products db) /\
  Dashboard.outOfStockCount shown
  = List.length (filter (fun p => Product.quantity p =? 0) (products db)) /\
  Dashboard.lowStockCount shown
  = List.length (filter (fun p => negb (Product.quantity p =? 0) &&
                                  (Product.quantity p <? 5)) (products db)) /\
  Dashboard.totalCategories shown = List.length (categories db) /\
  (Dashboard.totalProducts shown
   = Dashboard.outOfStockCount shown + Dashboard.lowStockCount shown +
     List.length (filter (fun p => (5 <=? Product.quantity p)%Z) (products db)))%nat.
Proof.
  intros Hreach Hst Hids shown.
  pose proof (reachable_status_derived db Hreach) as Hinv.
  unfold status_derived in Hinv. rewrite Forall_forall in Hinv.
  assert (Htotal : Dashboard.totalProducts shown = List.length (products db)).
  { unfold shown. simpl. rewrite (Permutation_length Hst). apply length_map. }
  assert (Hout : Dashboard.outOfStockCount shown
                 = List.length (filter (fun p => Product.quantity p =? 0) (products db))).
  { unfold shown. simpl.
    rewrite (count_permutation _ _ _ Hst), count_map.
    apply count_ext_in. intros p Hp. rewrite (Hinv p Hp). unfold classify.
    destruct (Product.quantity p =? 0); [reflexivity |].
    now destruct (Product.quantity p <? 5). }
  assert (Hlow : Dashboard.lowStockCount shown
                 = List.length (filter (fun p => negb (Product.quantity p =? 0) &&
                                                 (Product.quantity p <? 5)) (products db))).
  { unfold shown. simpl.
    rewrite (count_permutation _ _ _ Hst), count_map.
    apply count_ext_in. intros p Hp. rewrite (Hinv p Hp). unfold classify.
    destruct (Product.quantity p =? 0); [reflexivity |].
    now destruct (Product.quantity p <? 5). }
  split; [exact Htotal |]. split; [exact Hout |]. split; [exact Hlow |].
  split.
  - unfold shown. simpl. rewrite (Permutation_length Hids). apply length_map.
  - rewrite Htotal, Hout, Hlow. apply count_split.
    intros p _.
    destruct (Z.eqb_spec (Product.quantity p) 0) as [E | N];
      destruct (Z.ltb_spec (Product.quantity p) 5);
      destruct (Z.leb_spec 5 (Product.quantity p)); simpl; try lia; tauto.
Qed.

Lemma dashboard_counts_witness :
  let shown := Dashboard.loadDashboardData (Some [low_stock]) (Some ["c1"])
                 (Dashboard.mkStats 0 0 0 0) in
  Dashboard.totalProducts shown = List.length (products (Scenario.shop 3)) /\
  Dashboard.outOfStockCount shown
  = List.length (filter (fun p => Product.quantity p =? 0) (products (Scenario.shop 3))) /\
  Dashboard.lowStockCount shown
  = List.length (filter (fun p => negb (Product.quantity p =? 0) &&
                                  (Product.quantity p <? 5)) (products (Scenario.shop 3))) /\
  Dashboard.totalCategories shown = List.length (categories (Scenario.shop 3)) /\
  (Dashboard.totalProducts shown
   = Dashboard.outOfStockCount shown + Dashboard.lowStockCount shown +
     List.length (filter (fun p => (5 <=? Product.quantity p)%Z) (products (Scenario.shop 3))))%nat.
Proof.
  apply (dashboard_counts (Scenario.shop 3) [low_stock] ["c1"] (Dashboard.mkStats 0 0 0 0)).
  - apply shop_reachable. reflexivity.
  - apply Permutation_refl.
  - apply Permutation_refl.
Defined.

(* ===================================================================== *)
(** ** Routes and menu *)
(* ===================================================================== *)

(** X20. Routing and menu fit together: for a signed-in user the entries
    of the menu lead to pages that differ from one another, every
    location that is not one of the five menu paths shows the dashboard,
    and without a session no location shows a page of the layout, only
    the login or the registration screen. *)
Theorem routes_and_menu (u : uuid) (role : option Role) (location : string) :
  NoDup (map (fun item => AppShell.render false (Some u) (fst item))
             (Layout.menuItems role)) /\
  (~ In location (map fst (Layout.menuItems (Some admin))) ->
   AppShell.render false (Some u) location = InLayout DashboardPage) /\
  (AppShell.render false None location = LoginScreen \/
   AppShell.render false None location = RegisterScreen).
Proof.
  split; [| split].
  - destruct role as [[|] |]; simpl;
      repeat (constructor; [simpl; intros H;
                            repeat (destruct H as [H | H]; [discriminate H |]); exact H |]);
      constructor.
  - simpl. intros Hnot. unfold AppShell.render. simpl.
    repeat match goal with
           | |- context [String.eqb location ?s] =>
               destruct (String.eqb_spec location s);
               [exfalso; apply Hnot; subst; tauto |]
           end.
    reflexivity.
  - unfold AppShell.render. simpl.
    destruct (String.eqb location "/register"); [now right | now left].
Qed.

(** X21. The Users page is protected by the page, not by the route: a
    signed-in user who is no admin finds no Users entry in the menu; the
    location [/users] still shows the Users page for them, and that page
    answers with its access-denied view and does not load the
    profiles. *)
Theorem users_page_guards_itself (u : uuid) (role : option Role) :
  role <> Some admin ->
  ~ In "/users" (map fst (Layout.menuItems role)) /\
  AppShell.render false (Some u) "/users" = InLayout UsersPage /\
  UsersPageView.view role = UsersPageView.AccessDenied /\
  UsersPageView.loads_users role = false.
Proof.
  intros Hrole. destruct role as [[|] |]; [contradiction | |];
    (split; [| repeat split]);
    simpl; intros H; repeat (destruct H as [H | H]; [discriminate H |]); exact H.
Qed.

Lemma users_page_guards_itself_witness :
  ~ In "/users" (map fst (Layout.menuItems (Some staff))) /\
  AppShell.render false (Some "u1") "/users" = InLayout UsersPage /\
  UsersPageView.view (Some staff) = UsersPageView.AccessDenied /\
  UsersPageView.loads_users (Some staff) = false.
Proof.
  apply (users_page_guards_itself "u1" (Some staff)).
  intros H. discriminate H.
Defined.

(* ===================================================================== *)
(** ** The product list's filters *)
(* ===================================================================== *)

Lemma includes_empty (s : string) : includes s "" = true.
Proof. destruct s; reflexivity. Qed.

Lemma status_text_eqb (a b : Status) :
  String.eqb (status_text a) (status_text b) = Status_eqb a b.
Proof. destruct a, b; reflexivity. Qed.

Lemma Status_eqb_eq (a b : Status) : Status_eqb a b = true <-> a = b.
Proof. destruct a, b; simpl; split; intros H; try reflexivity; discriminate. Qed.

(** X22. With the search box empty and both selects on their first
    option, the Products page lists every product it loaded, in the
    order it loaded them. *)
Theorem no_filter_lists_every_product (toLowerCase : string -> string)
    (page : list Product.t) :
  toLowerCase "" = "" ->
  ProductsPageView.filteredProducts toLowerCase page "" "" "" = page.
Proof.
  intros Hlow. unfold ProductsPageView.filteredProducts.
  apply filter_all. intros p. rewrite Hlow, includes_empty. reflexivity.
Qed.

Lemma no_filter_lists_every_product_witness :
  ProductsPageView.filteredProducts lower [Scenario.widget 3] "" "" ""
  = [Scenario.widget 3].
Proof.
  apply (no_filter_lists_every_product lower [Scenario.widget 3]). reflexivity.
Defined.

(** X23. Filtering the loaded list by a status alone selects by
    quantity: in a reachable store the products listed under a status
    are exactly the stored products whose quantity classifies to it
    (under "Out of Stock" those holding 0, and so on). *)
Theorem status_filter_selects_by_quantity (toLowerCase : string -> string) (db : Db)
    (page : list Product.t) (s : Status) (p : Product.t) :
  toLowerCase "" = "" ->
  reachable db ->
  Permutation page (products db) ->
  (In p (ProductsPageView.filteredProducts toLowerCase page "" "" (status_text s))
   <-> In p (products db) /\ classify (Product.quantity p) = s).
Proof.
  intros Hlow Hreach Hperm.
  pose proof (reachable_status_derived db Hreach) as Hinv.
  unfold status_derived in Hinv. rewrite Forall_forall in Hinv.
  unfold ProductsPageView.filteredProducts. rewrite filter_In.
  rewrite Hlow, includes_empty. simpl.
  assert (Hne : String.eqb (status_text s) "" = false) by now destruct s.
  rewrite Hne. simpl. rewrite status_text_eqb, Status_eqb_eq.
  split.
  - intros [Hin Hs]. apply (Permutation_in _ Hperm) in Hin.
    split; [exact Hin |]. now rewrite <- (Hinv p Hin).
  - intros [Hin Hs]. split.
    + apply Permutation_in with (l := products db); [now apply Permutation_sym | exact Hin].
    + now rewrite (Hinv p Hin).
Qed.

Lemma status_filter_selects_by_quantity_witness :
  In (Scenario.widget 3)
     (ProductsPageView.filteredProducts lower [Scenario.widget 3] "" "" "low_stock")
  <-> In (Scenario.widget 3) (products (Scenario.shop 3)) /\ classify 3 = low_stock.
Proof.
  apply (status_filter_selects_by_quantity lower (Scenario.shop 3) [Scenario.widget 3]
           low_stock (Scenario.widget 3)).
  - reflexivity.
  - apply shop_reachable. reflexivity.
  - apply Permutation_refl.
Defined.

(* ===================================================================== *)
(** ** Reading back what the form was filled with *)
(* ===================================================================== *)

Lemma parse_digits_step (R : Z) (c : ascii) (s : string) (acc : option Z) (d : Z) :
  digit_value c = Some d -> (d <? R) = true ->
  parse_digits R (String c s) acc
  = parse_digits R s (Some (match acc with Some a => a | None => 0 end * R + d)).
Proof. intros H1 H2. cbn [parse_digits]. rewrite H1, H2. reflexivity. Qed.

(** Takes the next decimal digit of the text into the accumulator. *)
Ltac read_digit :=
  (erewrite parse_digits_step by reflexivity); cbv beta iota;
  match goal with
  | |- context [Z.of_nat (nat_of_ascii ?c) - 48] =>
      let v := eval vm_compute in (Z.of_nat (nat_of_ascii c) - 48) in
      change (Z.of_nat (nat_of_ascii c) - 48) with v
  end.

Lemma parse_digits_uint_acc (d : Decimal.uint) (acc : positive) :
  parse_digits 10 (DecimalString.NilEmpty.string_of_uint d) (Some (Z.pos acc))
  = Some (Z.pos (Pos.of_uint_acc d acc)).
Proof.
  revert acc.
  induction d; intros acc;
    cbn [DecimalString.NilEmpty.string_of_uint Pos.of_uint_acc]; [reflexivity | ..];
    read_digit;
    match goal with
    | |- parse_digits _ _ (Some ?x) = Some (Z.pos (Pos.of_uint_acc _ ?y)) =>
        replace x with (Z.pos y) by lia; apply IHd
    end.
Qed.

Lemma parse_digits_uint_zero (d : Decimal.uint) (a : Z) :
  a = 0 ->
  parse_digits 10 (DecimalString.NilEmpty.string_of_uint d) (Some a)
  = Some (Z.of_N (Pos.of_uint d)).
Proof.
  revert a.
  induction d; intros a ->;
    cbn [DecimalString.NilEmpty.string_of_uint Pos.of_uint]; [reflexivity | ..];
    read_digit; [now apply IHd | ..]; apply (parse_digits_uint_acc d).
Qed.

Lemma parse_digits_uint (d : Decimal.uint) :
  d <> Decimal.Nil ->
  parse_digits 10 (DecimalString.NilEmpty.string_of_uint d) None
  = Some (Z.of_N (Pos.of_uint d)).
Proof.
  intros H. rewrite <- (parse_digits_uint_zero d 0 eq_refl).
  destruct d; [contradiction | ..]; reflexivity.
Qed.

Lemma parseInt_digits (d : Decimal.uint) :
  d <> Decimal.Nil ->
  parseInt (DecimalString.NilEmpty.string_of_uint d) = Int (Z.of_N (Pos.of_uint d)).
Proof.
  intros H.
  assert (E : parseInt (DecimalString.NilEmpty.string_of_uint d) =
              match parse_digits 10 (DecimalString.NilEmpty.string_of_uint d) None with
              | None => NaN
              | Some m => Int (1 * m)
              end).
  { destruct d as [| d | d | d | d | d | d | d | d | d | d]; [contradiction | ..].
    1: destruct d.
    all: reflexivity. }
  rewrite E, (parse_digits_uint d H). f_equal; lia.
Qed.

Lemma parseInt_minus_digits (d : Decimal.uint) :
  d <> Decimal.Nil ->
  parseInt (String "-" (DecimalString.NilEmpty.string_of_uint d))
  = Int (- Z.of_N (Pos.of_uint d)).
Proof.
  intros H.
  assert (E : parseInt (String "-" (DecimalString.NilEmpty.string_of_uint d)) =
              match parse_digits 10 (DecimalString.NilEmpty.string_of_uint d) None with
              | None => NaN
              | Some m => Int (-1 * m)
              end).
  { destruct d as [| d | d | d | d | d | d | d | d | d | d]; [contradiction | ..].
    1: destruct d.
    all: reflexivity. }
  rewrite E, (parse_digits_uint d H). f_equal; lia.
Qed.

Lemma parseInt_toString (n : Z) : parseInt (toString n) = Int n.
Proof.
  unfold toString. destruct n as [| p | p]; [reflexivity | ..];
    cbn [Z.to_int DecimalString.NilZero.string_of_int];
    assert (Hn := DecimalPos.Unsigned.to_uint_nonnil p);
    replace (DecimalString.NilZero.string_of_uint (Pos.to_uint p))
      with (DecimalString.NilEmpty.string_of_uint (Pos.to_uint p))
      by (unfold DecimalString.NilZero.string_of_uint;
          destruct (Pos.to_uint p); try reflexivity; contradiction).
  - rewrite (parseInt_digits _ Hn), DecimalPos.Unsigned.of_to. reflexivity.
  - rewrite (parseInt_minus_digits _ Hn), DecimalPos.Unsigned.of_to. reflexivity.
Qed.

(** X24. The quantity the edit form is filled with reads back as the
    product's quantity: [parseInt] undoes [toString] on every integer,
    negative ones and zero included. *)
Theorem form_quantity_reads_back (priceToString : Z -> string) (product : Product.t) :
  parseInt (ProductModal.quantity (ProductModalEffect.populate priceToString product))
  = Int (Product.quantity product).
Proof. apply parseInt_toString. Qed.

Lemma sku_not_shared (db : Db) (p : Product.t) :
  sku_unique db ->
  In p (products db) ->
  existsb (fun r => negb (String.eqb (Product.id r) (Product.id p)) &&
                    String.eqb (Product.sku r) (Product.sku p))
          (products db) = false.
Proof.
  intros Hsku Hin.
  destruct (existsb _ (products db)) eqn:E; [| reflexivity].
  apply existsb_exists in E. destruct E as [r [Hr H]].
  apply andb_true_iff in H. destruct H as [Hid Hs]. apply String.eqb_eq in Hs.
  assert (r = p) by (apply (same_key_same_row Product.sku (products db)); assumption).
  subst r. rewrite String.eqb_refl in Hid. discriminate.
Qed.

(** X25. Opening the edit form on a stored product and saving it
    untouched changes nothing but [updated_at]: in a reachable store,
    for an active user, the row keeps its name, SKU, category, price,
    quantity, status, description, id and [created_at]; no other product
    and no ledger row is touched.  (The price text is assumed to read
    back as the price, which is what [toString] and [parseFloat] do on a
    number of two decimals; a category id is never the empty text.) *)
Theorem saving_an_untouched_form_only_stamps_the_row
    (parseFloat : string -> option Z) (priceToString : Z -> string)
    (p : Product.t) (uid : uuid) (t : timestamptz) (g : uuid) (db : Db) :
  reachable db ->
  In p (products db) ->
  caller_is_active db uid = true ->
  parseFloat (priceToString (Product.price p)) = Some (Product.price p) ->
  Product.category_id p <> Some "" ->
  exists db',
    ProductModal.handleSubmit parseFloat (Some p)
      (ProductModalEffect.populate priceToString p) uid t g db = (db', Ok tt) /\
    stored_product db' (Product.id p) =
      Some (Product.mk (Product.id p) (Product.name p) (Product.sku p)
              (Product.category_id p) (Product.price p) (Product.quantity p)
              (Product.status p) (Product.description p) (Product.created_at p) t) /\
    (forall k, k <> Product.id p -> stored_product db' k = stored_product db k) /\
    stock_transactions db' = stock_transactions db.
Proof.
  intros Hreach Hin Hact Hprice Hcat.
  destruct (reachable_well_formed db Hreach)
    as [[Hpk _] [Hst [[_ [Hfk _]] [Hsku [Hrange _]]]]].
  unfold status_derived in Hst. rewrite Forall_forall in Hst, Hrange.
  destruct (Hrange p Hin) as [Hq Hpr].
  assert (Hstored : stored_product db (Product.id p) = Some p)
    by (apply find_by_id_complete; auto).
  assert (Hform : form_category (ProductModalEffect.populate priceToString p)
                  = Product.category_id p).
  { unfold form_category, ProductModalEffect.populate. simpl.
    destruct (Product.category_id p) as [c |]; [| reflexivity].
    destruct (String.eqb_spec c ""); [subst; contradiction | reflexivity]. }
  destruct (edit_accepted parseFloat p p (ProductModalEffect.populate priceToString p)
              uid t g db (Product.quantity p) (Product.price p))
    as [db' [Hrun [Hrow [Hothers Hledger]]]]; try assumption.
  - apply parseInt_toString.
  - now apply sku_not_shared.
  - rewrite Hform. destruct (Product.category_id p) as [c |] eqn:Ec; [| reflexivity].
    simpl. now apply (Hfk p c).
  - exists db'. split; [exact Hrun |]. split; [| split; assumption].
    rewrite Hrow, Hform, <- (Hst p Hin). reflexivity.
Qed.

Lemma saving_an_untouched_form_only_stamps_the_row_witness :
  exists db',
    ProductModal.handleSubmit ScenarioPrices.hundredths_read (Some (Scenario.widget 3))
      (ProductModalEffect.populate ScenarioPrices.hundredths_text (Scenario.widget 3))
      "u1" 9 "" (Scenario.shop 3) = (db', Ok tt) /\
    stored_product db' "p1" =
      Some (Product.mk "p1" "Widget" "W-1" (Some "c1") 1999 3 low_stock "" 1 9) /\
    (forall k, k <> "p1" -> stored_product db' k = stored_product (Scenario.shop 3) k) /\
    stock_transactions db' = stock_transactions (Scenario.shop 3).
Proof.
  apply (saving_an_untouched_form_only_stamps_the_row
           ScenarioPrices.hundredths_read ScenarioPrices.hundredths_text
           (Scenario.widget 3) "u1" 9 "" (Scenario.shop 3)).
  - apply shop_reachable. reflexivity.
  - left. reflexivity.
  - reflexivity.
  - reflexivity.
  - simpl. intros H. discriminate H.
Defined.

(* ===================================================================== *)
(** ** A quantity that is no number *)
(* ===================================================================== *)

(** X26. The movement handler does not validate the quantity text
    itself, but a text that is no number writes nothing: [NaN] passes
    the sufficiency comparison, goes to the store as [null], and the
    insert is refused, so the handler ends in an error with the store
    untouched, for IN and OUT alike. *)
Theorem not_a_number_writes_nothing (snapshot : list Product.t) (userId : uuid)
    (formData : StockModal.FormData) (uid : uuid) (t1 : timestamptz) (g : uuid)
    (t2 : timestamptz) (db : Db) :
  parseInt (StockModal.quantity formData) = NaN ->
  exists e,
    StockModal.handleSubmit snapshot userId formData uid t1 g t2 db = (db, Error e).
Proof.
  intros Hnan. unfold StockModal.handleSubmit. rewrite Hnan.
  destruct (find _ snapshot) as [product |]; [| unfold throw; eauto].
  simpl. rewrite andb_false_r.
  unfold bind, request, insert_stock_transactions. simpl.
  destruct (negb (policy_stock_transactions_insert db uid)); eauto.
Qed.

Lemma not_a_number_writes_nothing_witness :
  exists e,
    StockModal.handleSubmit [Scenario.widget 3] "u1" (Scenario.movement OUT "abc")
      "u1" 2 "t1" 3 (Scenario.shop 3) = (Scenario.shop 3, Error e).
Proof.
  apply (not_a_number_writes_nothing [Scenario.widget 3] "u1" (Scenario.movement OUT "abc")
           "u1" 2 "t1" 3 (Scenario.shop 3)).
  reflexivity.
Defined.

(* ===================================================================== *)
(** ** What the pages can remove *)
(* ===================================================================== *)

Lemma stock_movement_keeps_product_ids (snapshot : list Product.t) (userId : uuid)
    (formData : StockModal.FormData) (uid : uuid) (t1 : timestamptz) (g : uuid)
    (t2 : timestamptz) (db : Db) :
  map Product.id
      (products (fst (StockModal.handleSubmit snapshot userId formData uid t1 g t2 db)))
  = map Product.id (products db).
Proof.
  unfold StockModal.handleSubmit.
  destruct (find _ snapshot) as [product |]; simpl; [| reflexivity].
  destruct (_ && _); simpl; [reflexivity |].
  unfold bind, request.
  destruct (insert_stock_transactions _ _ db) as [db1 | e] eqn:E1; simpl; [| reflexivity].
  apply insert_stock_transactions_shape in E1. destruct E1 as [q [_ ->]].
  match goal with
  | |- context [update_products ?cx ?payload ?pid ?d] =>
      destruct (update_products cx payload pid d) as [db2 | e] eqn:E2
  end; simpl; [| reflexivity].
  destruct (update_products_frame _ _ _ _ _ E2) as [_ [_ [_ Hids]]]. exact Hids.
Qed.

Lemma product_form_keeps_stored_ids (parseFloat : string -> option Z)
    (product : option Product.t) (formData : ProductModal.FormData) (uid : uuid)
    (t : timestamptz) (g : uuid) (db : Db) (k : uuid) :
  In k (map Product.id (products db)) ->
  In k (map Product.id
          (products (fst (ProductModal.handleSubmit parseFloat product formData
                            uid t g db)))).
Proof.
  intros Hk. unfold ProductModal.handleSubmit, request.
  destruct product as [p |].
  - destruct (update_products _ _ _ db) as [db1 | e] eqn:E; simpl; [| exact Hk].
    destruct (update_products_frame _ _ _ _ _ E) as [_ [_ [_ Hids]]]. now rewrite Hids.
  - destruct (insert_products _ _ db) as [db1 | e] eqn:E; simpl; [| exact Hk].
    destruct (insert_products_frame _ _ _ _ E) as [_ [_ [_ [row Hrows]]]].
    rewrite Hrows, map_app. apply in_or_app. now left.
Qed.

(** X8. Through the pages a product leaves the table only when an admin
    confirms its deletion on the Products page: if a product was stored
    and its id is no longer stored once a handler has run, the handler
    was [Products.handleDelete], confirmed, for that product, and the
    caller is an admin.  Recording a movement, saving the product form,
    deleting a category and managing users never remove a product and
    never rename one, since none of their requests names the id
    column. *)
Theorem products_leave_only_by_admin_delete (uid : uuid) (a : Action) (db : Db)
    (p : Product.t) :
  In p (products db) ->
  ~ In (Product.id p) (map Product.id (products (fst (perform uid a db)))) ->
  (exists t, a = DeleteProductRow true (Product.id p) t) /\
  caller_is_admin db uid = true.
Proof.
  intros Hin Hgone.
  assert (Hid : In (Product.id p) (map Product.id (products db))) by now apply in_map.
  destruct a as [snapshot userId formData t1 g t2 | parseFloat product formData t g
                | confirmed id t | confirmed id t | userId currentStatus t
                | confirmed userId newRole t]; simpl in Hgone.
  - exfalso. apply Hgone. now rewrite stock_movement_keeps_product_ids.
  - exfalso. apply Hgone. now apply product_form_keeps_stored_ids.
  - unfold Products.handleDelete in Hgone.
    destruct confirmed; cbn [negb] in Hgone; [| contradiction].
    unfold request, delete_products, policy_products_delete in Hgone. simpl in Hgone.
    destruct (caller_is_admin db uid); simpl in Hgone; [| contradiction].
    destruct (has_product db id); simpl in Hgone; [| contradiction].
    split; [| reflexivity]. exists t. f_equal.
    destruct (String.eqb_spec (Product.id p) id) as [E | N]; [now symmetry |].
    exfalso. apply Hgone. apply in_map. apply filter_In. split; [exact Hin |].
    destruct (String.eqb_spec (Product.id p) id); [contradiction | reflexivity].
  - exfalso. apply Hgone. unfold Categories.handleDelete.
    destruct confirmed; cbn [negb]; [| exact Hid].
    unfold request, delete_categories. simpl.
    destruct (negb (policy_categories_delete db uid)); simpl; [exact Hid |].
    destruct (negb (has_category db id)); simpl; [exact Hid |].
    rewrite map_key_kept; [exact Hid |].
    intros x. unfold set_null_category. now destruct (opt_eqb _ _).
  - contradiction.
  - unfold Users.updateUserRole in Hgone. destruct confirmed; contradiction.
Qed.

Lemma products_leave_only_by_admin_delete_witness :
  (exists t, DeleteProductRow true "p1" 8 = DeleteProductRow true "p1" t) /\
  caller_is_admin ScenarioStore.after_arrival "a1" = true.
Proof.
  apply (products_leave_only_by_admin_delete "a1" (DeleteProductRow true "p1" 8)
           ScenarioStore.after_arrival
           (Product.mk "p1" "Widget" "W-1" (Some "c1") 1999 8 in_stock "" 1 3)).
  - left. reflexivity.
  - vm_compute. intros H. exact H.
Defined.
